(** * GameBoyEmulator: a shallow embedding of the emulation core

    The C++ classes [Joypad], [APU], [Cartridge], [MMU], [Timer], [PPU],
    [CPU] and [SaveState] are embedded as records and pure functions with
    explicit state passing.  Fixed-width integers are [Z] values with the
    wrap-around written out ([u8], [u16], [u32]); [std::array] and
    [std::vector] are [list Z] indexed through [arr_get] / [arr_set].

    The bus owns the timer, the joypad and the sound unit, so [Timer::step]
    and the other functions that receive [MMU&] are functions on the whole
    [MMU] record: a write issued by the timer through the bus reaches the
    very timer that issued it.

    Of the 256-way opcode switch the cases NOP, STOP, DAA, HALT, DI and EI
    are embedded ([CPU.executeOpcode] is [None] elsewhere), together with
    the helpers the other cases call: the stack and call helpers, the 8-bit
    arithmetic, the rotates and the whole CB-prefixed table.  Of the sound
    unit the register file, the length and envelope clocks, the square
    generator and the PCM ring buffer are embedded; [APU::step] accumulates
    a [float] and is left out. *)

From Stdlib Require Import ZArith Bool List Lia.
From stdpp Require Import base list.
Import ListNotations.
Local Open Scope Z_scope.

(** ** Machine integers (utils/types.h) *)

Definition u8 (x : Z) : Z := x mod 256.
Definition u16 (x : Z) : Z := x mod 65536.
Definition u32 (x : Z) : Z := x mod 4294967296.

(** [static_cast<i8>] of a byte. *)
Definition i8 (x : Z) : Z := if u8 x <? 128 then u8 x else u8 x - 256.

(** C truth value of an integer expression. *)
Definition nz (x : Z) : bool := negb (x =? 0).

(** ** Arrays

    [operator[]] of [std::array] and [std::vector].  The address decoding of
    the bus keeps every index inside its array; outside it the C++ behaviour
    is undefined, and here a read gives 0 and a write changes nothing. *)

Definition arr_get (a : list Z) (i : Z) : Z :=
  if i <? 0 then 0 else default 0 (a !! Z.to_nat i).
Definition arr_set (a : list Z) (i v : Z) : list Z :=
  if i <? 0 then a else <[Z.to_nat i := v]> a.
Definition arr_fill (n : Z) (v : Z) : list Z := replicate (Z.to_nat n) v.

(** ** Joypad (input/joypad.h, joypad.cpp) *)

Module Joypad.

Record t := mk { buttons : Z; select_reg : Z }.

Definition BTN_A := 0x01.
Definition BTN_B := 0x02.
Definition BTN_SELECT := 0x04.
Definition BTN_START := 0x08.
Definition BTN_RIGHT := 0x10.
Definition BTN_LEFT := 0x20.
Definition BTN_UP := 0x40.
Definition BTN_DOWN := 0x80.

Definition new : t := mk 0x00 0x00.

Definition setButton (button : Z) (pressed : bool) (j : t) : t :=
  if pressed
  then mk (u8 (Z.lor (buttons j) button)) (select_reg j)
  else mk (u8 (Z.land (buttons j) (Z.lnot button))) (select_reg j).

Definition write (value : Z) (j : t) : t :=
  mk (buttons j) (Z.land value 0x30).

(** [result &= ~mask] when [buttons & btn] is set. *)
Definition release (j : t) (btn mask result : Z) : Z :=
  if nz (Z.land (buttons j) btn)
  then u8 (Z.land result (Z.lnot mask)) else result.

Definition read (select : Z) (j : t) : Z :=
  let result := 0xCF in
  let select_action := negb (nz (Z.land select 0x20)) in
  let select_dpad := negb (nz (Z.land select 0x10)) in
  let result :=
    if select_action
    then release j BTN_START 0x08
           (release j BTN_SELECT 0x04
              (release j BTN_B 0x02 (release j BTN_A 0x01 result)))
    else result in
  if select_dpad
  then release j BTN_DOWN 0x08
         (release j BTN_UP 0x04
            (release j BTN_LEFT 0x02 (release j BTN_RIGHT 0x01 result)))
  else result.

End Joypad.

(** ** APU register file (audio/apu.h, apu.cpp)

    Only the register interface reached from the bus is embedded: the
    register array, the frame sequencer counters and the two square
    channels.  The PCM ring buffer and the SDL device handle belong to the
    host audio output and are not touched by [write]. *)

Module APU.

Record SquareChannel := mkCh {
  nr_0 : Z; nr_1 : Z; nr_2 : Z; nr_3 : Z; nr_4 : Z;
  enabled : bool;
  timer : Z;
  duty_pos : Z;
  length_counter : Z;
  volume : Z;
  envelope_timer : Z;
  output : Z
}.

Record t := mk {
  registers : list Z;
  frame_sequencer : Z;
  frame_sequencer_cycles : Z;
  ch1 : SquareChannel;
  ch2 : SquareChannel
}.

Definition ch_zero : SquareChannel :=
  mkCh 0 0 0 0 0 false 0 0 0 0 0 0.

Definition new : t :=
  mk (arr_set (arr_fill 0x30 0) (0x26 - 0x10) 0xF1) 0 0 ch_zero ch_zero.

Definition set_registers (r : list Z) (a : t) : t :=
  mk r (frame_sequencer a) (frame_sequencer_cycles a) (ch1 a) (ch2 a).
Definition set_ch1 (c : SquareChannel) (a : t) : t :=
  mk (registers a) (frame_sequencer a) (frame_sequencer_cycles a) c (ch2 a).
Definition set_ch2 (c : SquareChannel) (a : t) : t :=
  mk (registers a) (frame_sequencer a) (frame_sequencer_cycles a) (ch1 a) c.

Definition set_enabled (b : bool) (c : SquareChannel) : SquareChannel :=
  mkCh (nr_0 c) (nr_1 c) (nr_2 c) (nr_3 c) (nr_4 c) b (timer c)
       (duty_pos c) (length_counter c) (volume c) (envelope_timer c)
       (output c).
Definition set_nr_0 (v : Z) (c : SquareChannel) : SquareChannel :=
  mkCh v (nr_1 c) (nr_2 c) (nr_3 c) (nr_4 c) (enabled c) (timer c)
       (duty_pos c) (length_counter c) (volume c) (envelope_timer c)
       (output c).
(** [ch.nr_1 = value; ch.length_counter = 64 - (value & 0x3F)]. *)
Definition write_nr1 (v : Z) (c : SquareChannel) : SquareChannel :=
  mkCh (nr_0 c) v (nr_2 c) (nr_3 c) (nr_4 c) (enabled c) (timer c)
       (duty_pos c) (64 - Z.land v 0x3F) (volume c) (envelope_timer c)
       (output c).
Definition set_nr_2 (v : Z) (c : SquareChannel) : SquareChannel :=
  mkCh (nr_0 c) (nr_1 c) v (nr_3 c) (nr_4 c) (enabled c) (timer c)
       (duty_pos c) (length_counter c) (volume c) (envelope_timer c)
       (output c).
Definition set_nr_3 (v : Z) (c : SquareChannel) : SquareChannel :=
  mkCh (nr_0 c) (nr_1 c) (nr_2 c) v (nr_4 c) (enabled c) (timer c)
       (duty_pos c) (length_counter c) (volume c) (envelope_timer c)
       (output c).
Definition set_nr_4 (v : Z) (c : SquareChannel) : SquareChannel :=
  mkCh (nr_0 c) (nr_1 c) (nr_2 c) (nr_3 c) v (enabled c) (timer c)
       (duty_pos c) (length_counter c) (volume c) (envelope_timer c)
       (output c).

Definition triggerSquareChannel (c : SquareChannel) : SquareChannel :=
  let freq := Z.lor (nr_3 c) (Z.shiftl (Z.land (nr_4 c) 0x07) 8) in
  mkCh (nr_0 c) (nr_1 c) (nr_2 c) (nr_3 c) (nr_4 c)
       true
       ((2048 - freq) * 4)
       (duty_pos c)
       (if length_counter c =? 0 then 64 else length_counter c)
       (Z.shiftr (nr_2 c) 4)
       (Z.land (nr_2 c) 0x07)
       (output c).

(** [for (i = 0; i < 0x20; i++) registers[i] = 0]. *)
Definition clear_low (r : list Z) : list Z :=
  fold_left (fun acc i => arr_set acc (Z.of_nat i) 0) (seq 0 0x20) r.

Definition write_nr4 (value : Z) (c : SquareChannel) : SquareChannel :=
  let c := set_nr_4 value c in
  if nz (Z.land value 0x80) then triggerSquareChannel c else c.

Definition write (addr value : Z) (a : t) : t :=
  if (0xFF10 <=? addr) && (addr <=? 0xFF3F) then
    let a := set_registers (arr_set (registers a) (addr - 0xFF10) value) a in
    if addr =? 0xFF26 then
      let audio_enabled := nz (Z.land value 0x80) in
      if negb audio_enabled then
        let r := arr_set (clear_low (registers a)) (0x26 - 0x10)
                         (Z.land value 0x80) in
        mk r (frame_sequencer a) (frame_sequencer_cycles a)
           (set_enabled false (ch1 a)) (set_enabled false (ch2 a))
      else a
    else if Z.land (arr_get (registers a) (0x26 - 0x10)) 0x80 =? 0 then a
    else
      let a := if addr =? 0xFF10 then set_ch1 (set_nr_0 value (ch1 a)) a else a in
      let a := if addr =? 0xFF11 then set_ch1 (write_nr1 value (ch1 a)) a else a in
      let a := if addr =? 0xFF12 then set_ch1 (set_nr_2 value (ch1 a)) a else a in
      let a := if addr =? 0xFF13 then set_ch1 (set_nr_3 value (ch1 a)) a else a in
      let a := if addr =? 0xFF14 then set_ch1 (write_nr4 value (ch1 a)) a else a in
      let a := if addr =? 0xFF16 then set_ch2 (write_nr1 value (ch2 a)) a else a in
      let a := if addr =? 0xFF17 then set_ch2 (set_nr_2 value (ch2 a)) a else a in
      let a := if addr =? 0xFF18 then set_ch2 (set_nr_3 value (ch2 a)) a else a in
      if addr =? 0xFF19 then set_ch2 (write_nr4 value (ch2 a)) a else a
  else a.

(** *** Register reads, frame sequencer clocks and sample generation

    [APU::step] itself accumulates the cycles in a [float] and is not
    embedded; the integer functions it calls are. *)

Definition set_timer (v : Z) (c : SquareChannel) : SquareChannel :=
  mkCh (nr_0 c) (nr_1 c) (nr_2 c) (nr_3 c) (nr_4 c) (enabled c) v
       (duty_pos c) (length_counter c) (volume c) (envelope_timer c)
       (output c).
Definition set_duty_pos (v : Z) (c : SquareChannel) : SquareChannel :=
  mkCh (nr_0 c) (nr_1 c) (nr_2 c) (nr_3 c) (nr_4 c) (enabled c) (timer c)
       v (length_counter c) (volume c) (envelope_timer c) (output c).
Definition set_length_counter (v : Z) (c : SquareChannel) : SquareChannel :=
  mkCh (nr_0 c) (nr_1 c) (nr_2 c) (nr_3 c) (nr_4 c) (enabled c) (timer c)
       (duty_pos c) v (volume c) (envelope_timer c) (output c).
Definition set_volume (v : Z) (c : SquareChannel) : SquareChannel :=
  mkCh (nr_0 c) (nr_1 c) (nr_2 c) (nr_3 c) (nr_4 c) (enabled c) (timer c)
       (duty_pos c) (length_counter c) v (envelope_timer c) (output c).
Definition set_envelope_timer (v : Z) (c : SquareChannel) : SquareChannel :=
  mkCh (nr_0 c) (nr_1 c) (nr_2 c) (nr_3 c) (nr_4 c) (enabled c) (timer c)
       (duty_pos c) (length_counter c) (volume c) v (output c).
Definition set_output (v : Z) (c : SquareChannel) : SquareChannel :=
  mkCh (nr_0 c) (nr_1 c) (nr_2 c) (nr_3 c) (nr_4 c) (enabled c) (timer c)
       (duty_pos c) (length_counter c) (volume c) (envelope_timer c) v.

Definition read (addr : Z) (a : t) : Z :=
  let addr := u16 addr in
  if (0xFF10 <=? addr) && (addr <=? 0xFF3F) then
    if addr =? 0xFF26 then
      let nr52 := arr_get (registers a) (0x26 - 0x10) in
      let nr52 := Z.land nr52 0xF0 in
      let nr52 := if enabled (ch1 a) then Z.lor nr52 0x01 else nr52 in
      let nr52 := if enabled (ch2 a) then Z.lor nr52 0x02 else nr52 in
      nr52
    else arr_get (registers a) (addr - 0xFF10)
  else 0xFF.

(** The block of [clockLength] for one channel. *)
Definition clockLength_ch (c : SquareChannel) : SquareChannel :=
  if nz (Z.land (nr_4 c) 0x40) && (0 <? length_counter c) then
    let c := set_length_counter (length_counter c - 1) c in
    if length_counter c =? 0 then set_enabled false c else c
  else c.

Definition clockLength (a : t) : t :=
  let a := set_ch1 (clockLength_ch (ch1 a)) a in
  set_ch2 (clockLength_ch (ch2 a)) a.

(** The block of [clockEnvelope] for one channel. *)
Definition clockEnvelope_ch (c : SquareChannel) : SquareChannel :=
  if enabled c && nz (Z.land (nr_2 c) 0x07) then
    if 0 <? envelope_timer c then
      let c := set_envelope_timer (envelope_timer c - 1) c in
      if envelope_timer c =? 0 then
        let c := set_envelope_timer (Z.land (nr_2 c) 0x07) c in
        if nz (Z.land (nr_2 c) 0x08) then
          if volume c <? 15 then set_volume (volume c + 1) c else c
        else
          if 0 <? volume c then set_volume (volume c - 1) c else c
      else c
    else c
  else c.

Definition clockEnvelope (a : t) : t :=
  let a := set_ch1 (clockEnvelope_ch (ch1 a)) a in
  set_ch2 (clockEnvelope_ch (ch2 a)) a.

Definition duties : list Z := [0x01; 0x81; 0x87; 0x7E].

Definition getSquareDuty (duty pos : Z) : Z :=
  Z.land (Z.shiftr (arr_get duties duty) pos) 1.

Definition updateSquareChannel (cycles : Z) (c : SquareChannel)
  : SquareChannel :=
  let c := set_timer (timer c - cycles) c in
  let c :=
    if timer c <=? 0 then
      let frequency := Z.lor (nr_3 c) (Z.shiftl (Z.land (nr_4 c) 0x07) 8) in
      let c := set_timer (timer c + (2048 - frequency) * 4) c in
      set_duty_pos (Z.land (duty_pos c + 1) 7) c
    else c in
  let duty := Z.land (Z.shiftr (nr_1 c) 6) 0x03 in
  set_output (u8 (if nz (getSquareDuty duty (duty_pos c))
                  then volume c else 0)) c.

(** The sum is an [int]; after the clamp the cast to [i16] keeps it. *)
Definition generateSample (a : t) : Z :=
  let sample := 0 in
  let sample :=
    if enabled (ch1 a) && (0 <? output (ch1 a))
    then sample + (output (ch1 a) * 2000 - 15000) else sample in
  let sample :=
    if enabled (ch2 a) && (0 <? output (ch2 a))
    then sample + (output (ch2 a) * 2000 - 15000) else sample in
  let sample := if 32767 <? sample then 32767 else sample in
  if sample <? -32768 then -32768 else sample.

(** *** The PCM ring buffer

    The producer ([pushSample], from the emulation thread) and the consumer
    ([popSample], from the audio callback) run under [buffer_mutex], so each
    call is one atomic step on the three fields. *)

Record ring := mkRing {
  sample_buffer : list Z;
  buffer_write_pos : Z;
  buffer_read_pos : Z
}.

Definition BUFFER_SIZE := 4096.

Definition ring_new : ring := mkRing (arr_fill BUFFER_SIZE 0) 0 0.

Definition pushSample (sample : Z) (r : ring) : ring :=
  let buf := arr_set (sample_buffer r) (buffer_write_pos r) sample in
  let w := Z.rem (buffer_write_pos r + 1) BUFFER_SIZE in
  let rd :=
    if w =? buffer_read_pos r
    then Z.rem (buffer_read_pos r + 1) BUFFER_SIZE
    else buffer_read_pos r in
  mkRing buf w rd.

Definition popSample (r : ring) : Z * ring :=
  let sample := 0 in
  if negb (buffer_read_pos r =? buffer_write_pos r) then
    let sample := arr_get (sample_buffer r) (buffer_read_pos r) in
    (sample,
     mkRing (sample_buffer r) (buffer_write_pos r)
            (Z.rem (buffer_read_pos r + 1) BUFFER_SIZE))
  else (sample, r).

Definition getBufferedSampleCount (r : ring) : Z :=
  if buffer_read_pos r <=? buffer_write_pos r
  then buffer_write_pos r - buffer_read_pos r
  else BUFFER_SIZE - buffer_read_pos r + buffer_write_pos r.

(** [fillBuffer(stream, len)]: the [len / 4] stereo frames handed to the
    audio device, each sample on both channels. *)
Fixpoint fillBuffer (num_samples : nat) (r : ring) : list Z * ring :=
  match num_samples with
  | O => ([], r)
  | S n =>
      let (sample, r) := popSample r in
      let (out, r) := fillBuffer n r in
      (sample :: sample :: out, r)
  end.

End APU.

(** ** Cartridge (memory/cartridge.h, cartridge.cpp) *)

Module Cartridge.

Record t := mk {
  rom : list Z;
  ram : list Z;
  mbc_type : Z;
  rom_bank : Z;
  ram_bank : Z;
  ram_enabled : bool;
  rom_banking : bool;
  rtc_seconds : Z;
  rtc_minutes : Z;
  rtc_hours : Z;
  rtc_days_low : Z;
  rtc_days_high : Z;
  rtc_latched : bool;
  rtc_latch_state : Z
}.

Definition size (a : list Z) : Z := Z.of_nat (length a).

(** RAM size selected by header byte 0x0149 ([parseMBC]). *)
Definition ram_size_of (ram_size_code : Z) : Z :=
  if ram_size_code =? 0x00 then 0
  else if ram_size_code =? 0x01 then 2 * 1024
  else if ram_size_code =? 0x02 then 8 * 1024
  else if ram_size_code =? 0x03 then 32 * 1024
  else if ram_size_code =? 0x04 then 128 * 1024
  else if ram_size_code =? 0x05 then 64 * 1024
  else 32 * 1024.

(** The constructor, given the bytes of the ROM file.  A file shorter than
    the cartridge header makes it throw: [None]. *)
Definition load (file : list Z) : option t :=
  if size file <? 0x0150 then None
  else
    let ram_size := ram_size_of (arr_get file 0x0149) in
    Some {| rom := file;
            ram := if 0 <? ram_size then arr_fill ram_size 0 else [];
            mbc_type := arr_get file 0x0147;
            rom_bank := 1; ram_bank := 0;
            ram_enabled := false; rom_banking := true;
            rtc_seconds := 0; rtc_minutes := 0; rtc_hours := 0;
            rtc_days_low := 0; rtc_days_high := 0;
            rtc_latched := false; rtc_latch_state := 0xFF |}.

Definition readROM (addr : Z) (c : t) : Z :=
  let addr := u16 addr in
  if addr <? 0x4000 then
    if addr <? size (rom c) then arr_get (rom c) addr else 0xFF
  else
    let physical_addr := u32 (rom_bank c * 0x4000 + (addr - 0x4000)) in
    if physical_addr <? size (rom c) then arr_get (rom c) physical_addr
    else 0xFF.

Definition is_mbc2 (c : t) : bool :=
  (mbc_type c =? 0x05) || (mbc_type c =? 0x06).

Definition is_rtc_access (c : t) : bool :=
  (0x0F <=? mbc_type c) && (mbc_type c <=? 0x13)
  && (0x08 <=? ram_bank c) && (ram_bank c <=? 0x0C).

Definition readRAM (addr : Z) (c : t) : Z :=
  let addr := u16 addr in
  if negb (ram_enabled c) || (size (ram c) =? 0) then
    if is_mbc2 c && (512 <=? size (ram c))
    then Z.land (arr_get (ram c) (Z.land addr 0x01FF)) 0x0F
    else 0xFF
  else if is_rtc_access c then
    if ram_bank c =? 0x08 then rtc_seconds c
    else if ram_bank c =? 0x09 then rtc_minutes c
    else if ram_bank c =? 0x0A then rtc_hours c
    else if ram_bank c =? 0x0B then rtc_days_low c
    else if ram_bank c =? 0x0C then rtc_days_high c
    else 0xFF
  else if is_mbc2 c then
    Z.land (arr_get (ram c) (Z.land addr 0x01FF)) 0x0F
  else
    let physical_addr := u32 (ram_bank c * 0x2000 + addr) in
    if physical_addr <? size (ram c) then arr_get (ram c) physical_addr
    else 0xFF.

Definition set_ram_enabled (b : bool) (c : t) : t :=
  mk (rom c) (ram c) (mbc_type c) (rom_bank c) (ram_bank c) b
     (rom_banking c) (rtc_seconds c) (rtc_minutes c) (rtc_hours c)
     (rtc_days_low c) (rtc_days_high c) (rtc_latched c) (rtc_latch_state c).
Definition set_rom_bank (b : Z) (c : t) : t :=
  mk (rom c) (ram c) (mbc_type c) b (ram_bank c) (ram_enabled c)
     (rom_banking c) (rtc_seconds c) (rtc_minutes c) (rtc_hours c)
     (rtc_days_low c) (rtc_days_high c) (rtc_latched c) (rtc_latch_state c).
Definition set_ram_bank (b : Z) (c : t) : t :=
  mk (rom c) (ram c) (mbc_type c) (rom_bank c) b (ram_enabled c)
     (rom_banking c) (rtc_seconds c) (rtc_minutes c) (rtc_hours c)
     (rtc_days_low c) (rtc_days_high c) (rtc_latched c) (rtc_latch_state c).
Definition set_rom_banking (b : bool) (c : t) : t :=
  mk (rom c) (ram c) (mbc_type c) (rom_bank c) (ram_bank c) (ram_enabled c)
     b (rtc_seconds c) (rtc_minutes c) (rtc_hours c)
     (rtc_days_low c) (rtc_days_high c) (rtc_latched c) (rtc_latch_state c).
Definition set_ram (r : list Z) (c : t) : t :=
  mk (rom c) r (mbc_type c) (rom_bank c) (ram_bank c) (ram_enabled c)
     (rom_banking c) (rtc_seconds c) (rtc_minutes c) (rtc_hours c)
     (rtc_days_low c) (rtc_days_high c) (rtc_latched c) (rtc_latch_state c).
Definition set_rtc (s mi h dl dh : Z) (c : t) : t :=
  mk (rom c) (ram c) (mbc_type c) (rom_bank c) (ram_bank c) (ram_enabled c)
     (rom_banking c) s mi h dl dh (rtc_latched c) (rtc_latch_state c).
Definition set_rtc_latch (l : bool) (st : Z) (c : t) : t :=
  mk (rom c) (ram c) (mbc_type c) (rom_bank c) (ram_bank c) (ram_enabled c)
     (rom_banking c) (rtc_seconds c) (rtc_minutes c) (rtc_hours c)
     (rtc_days_low c) (rtc_days_high c) l st.

(** [int bank = value & mask; if (bank == 0) bank = 1;] *)
Definition bank_or_1 (value mask : Z) : Z :=
  let bank := Z.land value mask in
  if bank =? 0 then 1 else bank.

Definition writeROM (addr value : Z) (c : t) : t :=
  let addr := u16 addr in
  let value := u8 value in
  let ty := mbc_type c in
  if ty =? 0x00 then c
  else if (ty =? 0x01) || (ty =? 0x02) || (ty =? 0x03) then
    if addr <? 0x2000 then
      set_ram_enabled (Z.land value 0x0F =? 0x0A) c
    else if addr <? 0x4000 then
      let bank := bank_or_1 value 0x1F in
      set_rom_bank (Z.lor (Z.land (rom_bank c) 0x60) bank) c
    else if addr <? 0x6000 then
      if rom_banking c
      then set_rom_bank (Z.lor (Z.land (rom_bank c) 0x1F)
                               (Z.shiftl (Z.land value 0x03) 5)) c
      else set_ram_bank (Z.land value 0x03) c
    else if addr <? 0x8000 then
      let c := set_rom_banking (Z.land value 0x01 =? 0) c in
      if rom_banking c then set_ram_bank 0 c else c
    else c
  else if (ty =? 0x05) || (ty =? 0x06) then
    if addr <? 0x4000 then
      if Z.land addr 0x0100 =? 0
      then set_ram_enabled (Z.land value 0x0F =? 0x0A) c
      else set_rom_bank (bank_or_1 value 0x0F) c
    else c
  else if (ty =? 0x0F) || (ty =? 0x10) || (ty =? 0x11) || (ty =? 0x12)
          || (ty =? 0x13) then
    if addr <? 0x2000 then
      set_ram_enabled (Z.land value 0x0F =? 0x0A) c
    else if addr <? 0x4000 then
      set_rom_bank (bank_or_1 value 0x7F) c
    else if addr <? 0x6000 then
      set_ram_bank value c
    else if addr <? 0x8000 then
      set_rtc_latch
        (if (rtc_latch_state c =? 0x00) && (value =? 0x01)
         then true else rtc_latched c)
        value c
    else c
  else if (ty =? 0x19) || (ty =? 0x1A) || (ty =? 0x1B) || (ty =? 0x1C)
          || (ty =? 0x1D) || (ty =? 0x1E) then
    if addr <? 0x2000 then
      set_ram_enabled (Z.land value 0x0F =? 0x0A) c
    else if addr <? 0x3000 then
      set_rom_bank (Z.lor (Z.land (rom_bank c) 0x100) value) c
    else if addr <? 0x4000 then
      set_rom_bank (Z.lor (Z.land (rom_bank c) 0xFF)
                          (Z.shiftl (Z.land value 0x01) 8)) c
    else if addr <? 0x6000 then
      set_ram_bank (Z.land value 0x0F) c
    else c
  else c.

Definition writeRAM (addr value : Z) (c : t) : t :=
  let addr := u16 addr in
  let value := u8 value in
  if negb (ram_enabled c) then c
  else if is_rtc_access c then
    if ram_bank c =? 0x08
    then set_rtc value (rtc_minutes c) (rtc_hours c) (rtc_days_low c)
                 (rtc_days_high c) c
    else if ram_bank c =? 0x09
    then set_rtc (rtc_seconds c) value (rtc_hours c) (rtc_days_low c)
                 (rtc_days_high c) c
    else if ram_bank c =? 0x0A
    then set_rtc (rtc_seconds c) (rtc_minutes c) value (rtc_days_low c)
                 (rtc_days_high c) c
    else if ram_bank c =? 0x0B
    then set_rtc (rtc_seconds c) (rtc_minutes c) (rtc_hours c) value
                 (rtc_days_high c) c
    else if ram_bank c =? 0x0C
    then set_rtc (rtc_seconds c) (rtc_minutes c) (rtc_hours c)
                 (rtc_days_low c) value c
    else c
  else if size (ram c) =? 0 then c
  else if is_mbc2 c then
    set_ram (arr_set (ram c) (Z.land addr 0x01FF) (Z.land value 0x0F)) c
  else
    let physical_addr := u32 (ram_bank c * 0x2000 + addr) in
    if physical_addr <? size (ram c)
    then set_ram (arr_set (ram c) physical_addr value) c
    else c.

End Cartridge.

(** ** Timer state (timer/timer.h)

    The counters are C [int]s; they stay far below 2^31 in every run of the
    scheduler, so they are plain integers here. *)

Module Timer.

Record t := mk { div_counter : Z; tima_counter : Z }.

Definition new : t := mk 0 0.

Definition resetDIV (tm : t) : t := mk 0 (tima_counter tm).

End Timer.

(** ** MMU: the memory bus (memory/mmu.h) *)

Module MMU.

Record t := mk {
  cartridge : option Cartridge.t;
  wram : list Z;
  vram : list Z;
  hram : list Z;
  oam : list Z;
  io : list Z;
  joypad : Joypad.t;
  timer : Timer.t;
  apu : APU.t;
  ie_register : Z
}.

Definition set_cartridge (c : option Cartridge.t) (m : t) : t :=
  mk c (wram m) (vram m) (hram m) (oam m) (io m) (joypad m) (timer m)
     (apu m) (ie_register m).
Definition set_wram (a : list Z) (m : t) : t :=
  mk (cartridge m) a (vram m) (hram m) (oam m) (io m) (joypad m) (timer m)
     (apu m) (ie_register m).
Definition set_vram (a : list Z) (m : t) : t :=
  mk (cartridge m) (wram m) a (hram m) (oam m) (io m) (joypad m) (timer m)
     (apu m) (ie_register m).
Definition set_hram (a : list Z) (m : t) : t :=
  mk (cartridge m) (wram m) (vram m) a (oam m) (io m) (joypad m) (timer m)
     (apu m) (ie_register m).
Definition set_oam (a : list Z) (m : t) : t :=
  mk (cartridge m) (wram m) (vram m) (hram m) a (io m) (joypad m) (timer m)
     (apu m) (ie_register m).
Definition set_io (a : list Z) (m : t) : t :=
  mk (cartridge m) (wram m) (vram m) (hram m) (oam m) a (joypad m) (timer m)
     (apu m) (ie_register m).
Definition set_joypad (j : Joypad.t) (m : t) : t :=
  mk (cartridge m) (wram m) (vram m) (hram m) (oam m) (io m) j (timer m)
     (apu m) (ie_register m).
Definition set_timer (tm : Timer.t) (m : t) : t :=
  mk (cartridge m) (wram m) (vram m) (hram m) (oam m) (io m) (joypad m) tm
     (apu m) (ie_register m).
Definition set_apu (a : APU.t) (m : t) : t :=
  mk (cartridge m) (wram m) (vram m) (hram m) (oam m) (io m) (joypad m)
     (timer m) a (ie_register m).
Definition set_ie_register (v : Z) (m : t) : t :=
  mk (cartridge m) (wram m) (vram m) (hram m) (oam m) (io m) (joypad m)
     (timer m) (apu m) v.

(** Power-on values of the I/O window, in the order of the constructor. *)
Definition io_init : list (Z * Z) :=
  [ (0x00, 0xCF); (0x05, 0x00); (0x06, 0x00); (0x07, 0x00); (0x0F, 0xE0);
    (0x10, 0x80); (0x11, 0xBF); (0x12, 0xF3); (0x14, 0xBF); (0x16, 0x3F);
    (0x17, 0x00); (0x19, 0xBF); (0x1A, 0x7F); (0x1B, 0xFF); (0x1C, 0x9F);
    (0x1E, 0xBF); (0x20, 0xFF); (0x21, 0x00); (0x22, 0x00); (0x23, 0xBF);
    (0x24, 0x77); (0x25, 0xF3); (0x26, 0xF1);
    (0x40, 0x91); (0x41, 0x00); (0x42, 0x00); (0x43, 0x00); (0x44, 0x00);
    (0x45, 0x00); (0x47, 0xFC); (0x48, 0xFF); (0x49, 0xFF); (0x4A, 0x00);
    (0x4B, 0x00) ].

(** The constructor [MMU::MMU()]: no cartridge, memories zeroed. *)
Definition new : t :=
  {| cartridge := None;
     wram := arr_fill 0x2000 0;
     vram := arr_fill 0x2000 0;
     hram := arr_fill 0x80 0;
     oam := arr_fill 0xA0 0;
     io := fold_left (fun a kv => arr_set a (fst kv) (snd kv)) io_init
                     (arr_fill 0x80 0);
     joypad := Joypad.new;
     timer := Timer.new;
     apu := APU.new;
     ie_register := 0 |}.

(** [loadCartridge], given the bytes of the ROM file. *)
Definition loadCartridge (file : list Z) (m : t) : option t :=
  match Cartridge.load file with
  | Some c => Some (set_cartridge (Some c) m)
  | None => None
  end.

Definition read (addr : Z) (m : t) : Z :=
  let addr := u16 addr in
  if addr <? 0x4000 then
    match cartridge m with
    | Some c => Cartridge.readROM addr c | None => 0xFF end
  else if addr <? 0x8000 then
    match cartridge m with
    | Some c => Cartridge.readROM addr c | None => 0xFF end
  else if addr <? 0xA000 then arr_get (vram m) (addr - 0x8000)
  else if addr <? 0xC000 then
    match cartridge m with
    | Some c => Cartridge.readRAM (addr - 0xA000) c | None => 0xFF end
  else if addr <? 0xE000 then arr_get (wram m) (addr - 0xC000)
  else if addr <? 0xFE00 then arr_get (wram m) (addr - 0xE000)
  else if addr <? 0xFEA0 then arr_get (oam m) (addr - 0xFE00)
  else if addr <? 0xFF00 then 0xFF
  else if addr <? 0xFF80 then
    if addr =? 0xFF00 then Joypad.read (arr_get (io m) 0x00) (joypad m)
    else arr_get (io m) (addr - 0xFF00)
  else if addr <? 0xFFFF then arr_get (hram m) (addr - 0xFF80)
  else ie_register m.

(** [setLY]: the PPU's way to store LY without the reset of [write]. *)
Definition setLY (value : Z) (m : t) : t :=
  set_io (arr_set (io m) 0x44 (u8 value)) m.

(** [for (i = 0; i < 0xA0; i++) oam[i] = read(source + i)]. *)
Definition doDMATransfer (value : Z) (m : t) : t :=
  let source := u16 (Z.shiftl (u8 value) 8) in
  fold_left
    (fun m i => set_oam (arr_set (oam m) (Z.of_nat i)
                                 (read (source + Z.of_nat i) m)) m)
    (seq 0 0xA0) m.

Definition write (addr value : Z) (m : t) : t :=
  let addr := u16 addr in
  let value := u8 value in
  if addr <? 0x8000 then
    match cartridge m with
    | Some c => set_cartridge (Some (Cartridge.writeROM addr value c)) m
    | None => m
    end
  else if addr <? 0xA000 then
    set_vram (arr_set (vram m) (addr - 0x8000) value) m
  else if addr <? 0xC000 then
    match cartridge m with
    | Some c =>
        set_cartridge (Some (Cartridge.writeRAM (addr - 0xA000) value c)) m
    | None => m
    end
  else if addr <? 0xE000 then
    set_wram (arr_set (wram m) (addr - 0xC000) value) m
  else if addr <? 0xFE00 then
    set_wram (arr_set (wram m) (addr - 0xE000) value) m
  else if addr <? 0xFEA0 then
    set_oam (arr_set (oam m) (addr - 0xFE00) value) m
  else if addr <? 0xFF00 then m
  else if addr <? 0xFF80 then
    if addr =? 0xFF00 then
      let m := set_joypad (Joypad.write value (joypad m)) m in
      set_io (arr_set (io m) 0x00 value) m
    else if addr =? 0xFF04 then
      let m := set_timer (Timer.resetDIV (timer m)) m in
      set_io (arr_set (io m) 0x04 0) m
    else if (0xFF10 <=? addr) && (addr <=? 0xFF3F) then
      set_apu (APU.write addr value (apu m)) m
    else if addr =? 0xFF44 then
      set_io (arr_set (io m) 0x44 0) m
    else if addr =? 0xFF46 then
      let m := doDMATransfer value m in
      set_io (arr_set (io m) 0x46 value) m
    else
      set_io (arr_set (io m) (addr - 0xFF00) value) m
  else if addr <? 0xFFFF then
    set_hram (arr_set (hram m) (addr - 0xFF80) value) m
  else set_ie_register value m.

End MMU.

(** ** Timer (timer/timer.cpp)

    [Timer::step] is only ever called as [mmu.getTimer().step(cycles, mmu)]:
    [this] is the timer stored in the bus it receives.  The functions below
    therefore read and update the counters inside the [MMU.t] they thread. *)

Definition set_div_counter (v : Z) (m : MMU.t) : MMU.t :=
  MMU.set_timer (Timer.mk v (Timer.tima_counter (MMU.timer m))) m.
Definition set_tima_counter (v : Z) (m : MMU.t) : MMU.t :=
  MMU.set_timer (Timer.mk (Timer.div_counter (MMU.timer m)) v) m.

(** One pass through the body of [while (div_counter >= 64)]. *)
Definition div_body (m : MMU.t) : MMU.t :=
  let m := set_div_counter (Timer.div_counter (MMU.timer m) - 64) m in
  let div := MMU.read 0xFF04 m in
  MMU.write 0xFF04 (div + 1) m.

Fixpoint div_loop (fuel : nat) (m : MMU.t) : MMU.t :=
  match fuel with
  | O => m
  | S fuel' =>
      if 64 <=? Timer.div_counter (MMU.timer m)
      then div_loop fuel' (div_body m)
      else m
  end.

(** One pass through the body of [while (tima_counter >= threshold)]. *)
Definition tima_body (threshold : Z) (m : MMU.t) : MMU.t :=
  let m := set_tima_counter (Timer.tima_counter (MMU.timer m) - threshold) m in
  let tima := MMU.read 0xFF05 m in
  if tima =? 0xFF then
    let tma := MMU.read 0xFF06 m in
    let m := MMU.write 0xFF05 tma m in
    let if_reg := MMU.read 0xFF0F m in
    MMU.write 0xFF0F (Z.lor if_reg 0x04) m
  else
    MMU.write 0xFF05 (tima + 1) m.

Fixpoint tima_loop (fuel : nat) (threshold : Z) (m : MMU.t) : MMU.t :=
  match fuel with
  | O => m
  | S fuel' =>
      if threshold <=? Timer.tima_counter (MMU.timer m)
      then tima_loop fuel' threshold (tima_body threshold m)
      else m
  end.

Definition tima_threshold (tac : Z) : Z :=
  let sel := Z.land tac 0x03 in
  if sel =? 0 then 256
  else if sel =? 1 then 4
  else if sel =? 2 then 16
  else 64.

(** Both loops take away at least their threshold per pass, so the quotient
    of the counter by the threshold bounds the number of passes; see
    [Timer_step_loops_exit]. *)
Definition Timer_checkTIMA (cycles : Z) (m : MMU.t) : MMU.t :=
  let tac := MMU.read 0xFF07 m in
  if negb (nz (Z.land tac 0x04)) then m
  else
    let threshold := tima_threshold tac in
    let m := set_tima_counter (Timer.tima_counter (MMU.timer m) + cycles) m in
    tima_loop (Z.to_nat (Timer.tima_counter (MMU.timer m) / threshold))
              threshold m.

Definition Timer_step (cycles : Z) (m : MMU.t) : MMU.t :=
  let m := set_div_counter (Timer.div_counter (MMU.timer m) + cycles) m in
  let m := div_loop (Z.to_nat (Timer.div_counter (MMU.timer m) / 64)) m in
  Timer_checkTIMA cycles m.

(** ** CPU (cpu/cpu.h, cpu.cpp, instructions.cpp) *)

Module CPU.

Record t := mk {
  A : Z; B : Z; C : Z; D : Z; E : Z; F : Z; H : Z; L : Z;
  SP : Z;
  PC : Z;
  halted : bool;
  stopped : bool;
  ime : bool;
  ime_scheduled : bool;
  cycles : Z
}.

Definition FLAG_Z := 0x80.
Definition FLAG_N := 0x40.
Definition FLAG_H := 0x20.
Definition FLAG_C := 0x10.

Definition set_A (v : Z) (c : t) : t :=
  mk v (B c) (C c) (D c) (E c) (F c) (H c) (L c) (SP c) (PC c)
     (halted c) (stopped c) (ime c) (ime_scheduled c) (cycles c).
Definition set_F (v : Z) (c : t) : t :=
  mk (A c) (B c) (C c) (D c) (E c) v (H c) (L c) (SP c) (PC c)
     (halted c) (stopped c) (ime c) (ime_scheduled c) (cycles c).
Definition set_SP (v : Z) (c : t) : t :=
  mk (A c) (B c) (C c) (D c) (E c) (F c) (H c) (L c) v (PC c)
     (halted c) (stopped c) (ime c) (ime_scheduled c) (cycles c).
Definition set_PC (v : Z) (c : t) : t :=
  mk (A c) (B c) (C c) (D c) (E c) (F c) (H c) (L c) (SP c) v
     (halted c) (stopped c) (ime c) (ime_scheduled c) (cycles c).
Definition set_halted (b : bool) (c : t) : t :=
  mk (A c) (B c) (C c) (D c) (E c) (F c) (H c) (L c) (SP c) (PC c)
     b (stopped c) (ime c) (ime_scheduled c) (cycles c).
Definition set_stopped (b : bool) (c : t) : t :=
  mk (A c) (B c) (C c) (D c) (E c) (F c) (H c) (L c) (SP c) (PC c)
     (halted c) b (ime c) (ime_scheduled c) (cycles c).
Definition set_ime (b : bool) (c : t) : t :=
  mk (A c) (B c) (C c) (D c) (E c) (F c) (H c) (L c) (SP c) (PC c)
     (halted c) (stopped c) b (ime_scheduled c) (cycles c).
Definition set_ime_scheduled (b : bool) (c : t) : t :=
  mk (A c) (B c) (C c) (D c) (E c) (F c) (H c) (L c) (SP c) (PC c)
     (halted c) (stopped c) (ime c) b (cycles c).
Definition set_cycles (v : Z) (c : t) : t :=
  mk (A c) (B c) (C c) (D c) (E c) (F c) (H c) (L c) (SP c) (PC c)
     (halted c) (stopped c) (ime c) (ime_scheduled c) v.

(** [cycles += n] on the [u32] counter. *)
Definition tick (n : Z) (c : t) : t := set_cycles (u32 (cycles c + n)) c.

Definition reset (c : t) : t :=
  {| A := 0x01; F := 0xB0; B := 0x00; C := 0x13; D := 0x00; E := 0xD8;
     H := 0x01; L := 0x4D;
     SP := 0xFFFE; PC := 0x0100;
     halted := false; stopped := false;
     ime := false; ime_scheduled := false;
     cycles := 0 |}.

Definition getFlag (flag : Z) (c : t) : bool := nz (Z.land (F c) flag).

Definition setFlag (flag : Z) (value : bool) (c : t) : t :=
  if value
  then set_F (u8 (Z.lor (F c) flag)) c
  else set_F (u8 (Z.land (F c) (Z.lnot flag))) c.

(** *** Memory access with cycle counting *)

Definition read8 (addr : Z) (s : t * MMU.t) : Z * (t * MMU.t) :=
  let (c, m) := s in
  (MMU.read addr m, (tick 4 c, m)).

Definition write8 (addr value : Z) (s : t * MMU.t) : t * MMU.t :=
  let (c, m) := s in
  (tick 4 c, MMU.write addr value m).

Definition write16 (addr value : Z) (s : t * MMU.t) : t * MMU.t :=
  let s := write8 addr (Z.land value 0xFF) s in
  write8 (addr + 1) (Z.shiftr value 8) s.

Definition push16 (value : Z) (s : t * MMU.t) : t * MMU.t :=
  let (c, m) := s in
  let c := set_SP (u16 (SP c - 2)) c in
  write16 (SP c) value (c, m).

(** *** Interrupt dispatch *)

(** The body of the [for] loop for the interrupt with index [i]. *)
Definition service (i IF : Z) (s : t * MMU.t) : t * MMU.t :=
  let (c, m) := s in
  let c := set_halted false c in
  let c := set_ime false c in
  let m := MMU.write 0xFF0F (Z.land IF (Z.lnot (Z.shiftl 1 i))) m in
  let (c, m) := push16 (PC c) (c, m) in
  let c := set_PC (u16 (0x0040 + i * 0x08)) c in
  (tick 20 c, m).

(** [for (i = 0; i < 5; i++) if (triggered & (1 << i)) { ...; break; }],
    over the indices still to visit. *)
Fixpoint dispatch (todo : list Z) (triggered IF : Z) (s : t * MMU.t)
  : t * MMU.t :=
  match todo with
  | [] => s
  | i :: rest =>
      if nz (Z.land triggered (Z.shiftl 1 i))
      then service i IF s
      else dispatch rest triggered IF s
  end.

Definition handleInterrupts (s : t * MMU.t) : t * MMU.t :=
  let (c, m) := s in
  if negb (ime c) then s
  else
    let IF := MMU.read 0xFF0F m in
    let IE := MMU.read 0xFFFF m in
    let triggered := Z.land (Z.land IF IE) 0x1F in
    if triggered =? 0 then s
    else dispatch [0; 1; 2; 3; 4] triggered IF s.

(** *** Instructions *)

Definition NOP (c : t) : t := c.
Definition HALT (c : t) : t := set_halted true c.
Definition STOP (c : t) : t := set_stopped true c.
Definition DI (c : t) : t := set_ime false c.
Definition EI (c : t) : t := set_ime_scheduled true c.

Definition DAA (c : t) : t :=
  let correction := 0 in
  let carry := getFlag FLAG_C c in
  let '(a, carry) :=
    if negb (getFlag FLAG_N c) then
      let correction :=
        if getFlag FLAG_H c || (9 <? Z.land (A c) 0x0F)
        then Z.lor correction 0x06 else correction in
      let '(correction, carry) :=
        if carry || (0x99 <? A c)
        then (Z.lor correction 0x60, true) else (correction, carry) in
      (u8 (A c + correction), carry)
    else
      let correction :=
        if getFlag FLAG_H c then Z.lor correction 0x06 else correction in
      let correction :=
        if carry then Z.lor correction 0x60 else correction in
      (u8 (A c - correction), carry) in
  let c := set_A a c in
  let c := setFlag FLAG_Z (A c =? 0) c in
  let c := setFlag FLAG_H false c in
  setFlag FLAG_C carry c.

(** The opcode dispatch table.  The cases of the control instructions and
    of DAA are embedded; for every other opcode the result is [None]. *)
Definition executeOpcode (opcode : Z) (s : t * MMU.t)
  : option (t * MMU.t) :=
  let (c, m) := s in
  if opcode =? 0x00 then Some (NOP c, m)
  else if opcode =? 0x10 then
    let c := STOP c in Some (set_PC (u16 (PC c + 1)) c, m)
  else if opcode =? 0x27 then Some (DAA c, m)
  else if opcode =? 0x76 then Some (HALT c, m)
  else if opcode =? 0xF3 then Some (DI c, m)
  else if opcode =? 0xFB then Some (EI c, m)
  else None.

Definition step (s : t * MMU.t) : option (t * MMU.t) :=
  let (c, m) := s in
  let c := if ime_scheduled c
           then set_ime_scheduled false (set_ime true c) else c in
  if halted c then
    let c := tick 4 c in
    let IF := MMU.read 0xFF0F m in
    let IE := MMU.read 0xFFFF m in
    if nz (Z.land (Z.land IF IE) 0x1F)
    then Some (set_halted false c, m)
    else Some (c, m)
  else
    let pc := PC c in
    let c := set_PC (u16 (pc + 1)) c in
    let (opcode, s) := read8 pc (c, m) in
    match executeOpcode opcode s with
    | Some s => Some (handleInterrupts s)
    | None => None
    end.

(** *** Register pairs (cpu.h) *)

Definition set_B (v : Z) (c : t) : t :=
  mk (A c) v (C c) (D c) (E c) (F c) (H c) (L c) (SP c) (PC c)
     (halted c) (stopped c) (ime c) (ime_scheduled c) (cycles c).
Definition set_C (v : Z) (c : t) : t :=
  mk (A c) (B c) v (D c) (E c) (F c) (H c) (L c) (SP c) (PC c)
     (halted c) (stopped c) (ime c) (ime_scheduled c) (cycles c).
Definition set_D (v : Z) (c : t) : t :=
  mk (A c) (B c) (C c) v (E c) (F c) (H c) (L c) (SP c) (PC c)
     (halted c) (stopped c) (ime c) (ime_scheduled c) (cycles c).
Definition set_E (v : Z) (c : t) : t :=
  mk (A c) (B c) (C c) (D c) v (F c) (H c) (L c) (SP c) (PC c)
     (halted c) (stopped c) (ime c) (ime_scheduled c) (cycles c).
Definition set_H (v : Z) (c : t) : t :=
  mk (A c) (B c) (C c) (D c) (E c) (F c) v (L c) (SP c) (PC c)
     (halted c) (stopped c) (ime c) (ime_scheduled c) (cycles c).
Definition set_L (v : Z) (c : t) : t :=
  mk (A c) (B c) (C c) (D c) (E c) (F c) (H c) v (SP c) (PC c)
     (halted c) (stopped c) (ime c) (ime_scheduled c) (cycles c).

Definition getAF (c : t) : Z := u16 (Z.lor (Z.shiftl (A c) 8) (F c)).
Definition getBC (c : t) : Z := u16 (Z.lor (Z.shiftl (B c) 8) (C c)).
Definition getDE (c : t) : Z := u16 (Z.lor (Z.shiftl (D c) 8) (E c)).
Definition getHL (c : t) : Z := u16 (Z.lor (Z.shiftl (H c) 8) (L c)).

Definition setAF (val : Z) (c : t) : t :=
  let val := u16 val in
  let c := set_A (u8 (Z.shiftr val 8)) c in
  set_F (u8 (Z.land val 0xF0)) c.
Definition setBC (val : Z) (c : t) : t :=
  let val := u16 val in
  let c := set_B (u8 (Z.shiftr val 8)) c in
  set_C (u8 (Z.land val 0xFF)) c.
Definition setDE (val : Z) (c : t) : t :=
  let val := u16 val in
  let c := set_D (u8 (Z.shiftr val 8)) c in
  set_E (u8 (Z.land val 0xFF)) c.
Definition setHL (val : Z) (c : t) : t :=
  let val := u16 val in
  let c := set_H (u8 (Z.shiftr val 8)) c in
  set_L (u8 (Z.land val 0xFF)) c.

(** *** 16-bit reads and the stack (cpu.cpp) *)

Definition read16 (addr : Z) (s : t * MMU.t) : Z * (t * MMU.t) :=
  let (lo, s) := read8 addr s in
  let (hi, s) := read8 (addr + 1) s in
  (u16 (Z.lor (Z.shiftl hi 8) lo), s).

Definition pop16 (s : t * MMU.t) : Z * (t * MMU.t) :=
  let (c, m) := s in
  let (value, s) := read16 (SP c) (c, m) in
  let (c, m) := s in
  (value, (set_SP (u16 (SP c + 2)) c, m)).

Definition CALL_nn (addr : Z) (s : t * MMU.t) : t * MMU.t :=
  let (c, m) := s in
  let (c, m) := push16 (PC c) (c, m) in
  (set_PC (u16 addr) c, m).

Definition RET (s : t * MMU.t) : t * MMU.t :=
  let (value, s) := pop16 s in
  let (c, m) := s in
  (set_PC value c, m).

Definition RETI (s : t * MMU.t) : t * MMU.t :=
  let (value, s) := pop16 s in
  let (c, m) := s in
  (set_ime true (set_PC value c), m).

Definition RST (vector : Z) (s : t * MMU.t) : t * MMU.t :=
  let (c, m) := s in
  let (c, m) := push16 (PC c) (c, m) in
  (set_PC (u8 vector) c, m).

(** *** 8-bit arithmetic (cpu.cpp)

    The operand is a [u8] passed by value.  The helpers that take [u8& reg]
    read and write one register or a local copy of a memory byte, never
    [F]; they are functions from the old value of [reg] to its new value,
    and the caller stores the result where the reference pointed. *)

Definition ADD_A_r (value : Z) (c : t) : t :=
  let value := u8 value in
  let result := u16 (A c + value) in
  let c := setFlag FLAG_H
             (0x0F <? Z.land (A c) 0x0F + Z.land value 0x0F) c in
  let c := setFlag FLAG_C (0xFF <? result) c in
  let c := set_A (u8 (Z.land result 0xFF)) c in
  let c := setFlag FLAG_Z (A c =? 0) c in
  setFlag FLAG_N false c.

Definition ADC_A_r (value : Z) (c : t) : t :=
  let value := u8 value in
  let carry := if getFlag FLAG_C c then 1 else 0 in
  let result := u16 (A c + value + carry) in
  let c := setFlag FLAG_H
             (0x0F <? Z.land (A c) 0x0F + Z.land value 0x0F + carry) c in
  let c := setFlag FLAG_C (0xFF <? result) c in
  let c := set_A (u8 (Z.land result 0xFF)) c in
  let c := setFlag FLAG_Z (A c =? 0) c in
  setFlag FLAG_N false c.

Definition SUB_A_r (value : Z) (c : t) : t :=
  let value := u8 value in
  let c := setFlag FLAG_H (Z.land (A c) 0x0F <? Z.land value 0x0F) c in
  let c := setFlag FLAG_C (A c <? value) c in
  let c := set_A (u8 (A c - value)) c in
  let c := setFlag FLAG_Z (A c =? 0) c in
  setFlag FLAG_N true c.

Definition SBC_A_r (value : Z) (c : t) : t :=
  let value := u8 value in
  let carry := if getFlag FLAG_C c then 1 else 0 in
  let c := setFlag FLAG_H
             (Z.land (A c) 0x0F <? Z.land value 0x0F + carry) c in
  let c := setFlag FLAG_C (A c <? value + carry) c in
  let c := set_A (u8 (A c - value - carry)) c in
  let c := setFlag FLAG_Z (A c =? 0) c in
  setFlag FLAG_N true c.

Definition AND_A_r (value : Z) (c : t) : t :=
  let value := u8 value in
  let c := set_A (u8 (Z.land (A c) value)) c in
  let c := setFlag FLAG_Z (A c =? 0) c in
  let c := setFlag FLAG_N false c in
  let c := setFlag FLAG_H true c in
  setFlag FLAG_C false c.

Definition OR_A_r (value : Z) (c : t) : t :=
  let value := u8 value in
  let c := set_A (u8 (Z.lor (A c) value)) c in
  let c := setFlag FLAG_Z (A c =? 0) c in
  let c := setFlag FLAG_N false c in
  let c := setFlag FLAG_H false c in
  setFlag FLAG_C false c.

Definition XOR_A_r (value : Z) (c : t) : t :=
  let value := u8 value in
  let c := set_A (u8 (Z.lxor (A c) value)) c in
  let c := setFlag FLAG_Z (A c =? 0) c in
  let c := setFlag FLAG_N false c in
  let c := setFlag FLAG_H false c in
  setFlag FLAG_C false c.

Definition CP_A_r (value : Z) (c : t) : t :=
  let value := u8 value in
  let c := setFlag FLAG_Z (A c =? value) c in
  let c := setFlag FLAG_N true c in
  let c := setFlag FLAG_H (Z.land (A c) 0x0F <? Z.land value 0x0F) c in
  setFlag FLAG_C (A c <? value) c.

Definition INC_r (reg : Z) (c : t) : Z * t :=
  let c := setFlag FLAG_H (Z.land reg 0x0F =? 0x0F) c in
  let reg := u8 (reg + 1) in
  let c := setFlag FLAG_Z (reg =? 0) c in
  (reg, setFlag FLAG_N false c).

Definition DEC_r (reg : Z) (c : t) : Z * t :=
  let c := setFlag FLAG_H (Z.land reg 0x0F =? 0) c in
  let reg := u8 (reg - 1) in
  let c := setFlag FLAG_Z (reg =? 0) c in
  (reg, setFlag FLAG_N true c).

Definition ADD_HL_rr (value : Z) (c : t) : t :=
  let value := u16 value in
  let result := u32 (getHL c + value) in
  let c := setFlag FLAG_N false c in
  let c := setFlag FLAG_H
             (0x0FFF <? Z.land (getHL c) 0x0FFF + Z.land value 0x0FFF) c in
  let c := setFlag FLAG_C (0xFFFF <? result) c in
  let c := setHL (Z.land result 0xFFFF) c in
  tick 4 c.

(** *** Rotates and shifts (cpu.cpp, instructions.cpp) *)

(** [Z = z; N = 0; H = 0; C = carry], in the order of the source. *)
Definition rot_flags (z carry : bool) (c : t) : t :=
  let c := setFlag FLAG_Z z c in
  let c := setFlag FLAG_N false c in
  let c := setFlag FLAG_H false c in
  setFlag FLAG_C carry c.

Definition RLCA (c : t) : t :=
  let carry := negb (Z.land (A c) 0x80 =? 0) in
  let c := set_A (u8 (Z.lor (Z.shiftl (A c) 1) (if carry then 1 else 0))) c in
  rot_flags false carry c.

Definition RRCA (c : t) : t :=
  let carry := negb (Z.land (A c) 0x01 =? 0) in
  let c := set_A (u8 (Z.lor (Z.shiftr (A c) 1)
                            (if carry then 0x80 else 0))) c in
  rot_flags false carry c.

Definition RLA (c : t) : t :=
  let old_carry := getFlag FLAG_C c in
  let new_carry := negb (Z.land (A c) 0x80 =? 0) in
  let c := set_A (u8 (Z.lor (Z.shiftl (A c) 1)
                            (if old_carry then 1 else 0))) c in
  rot_flags false new_carry c.

Definition RRA (c : t) : t :=
  let old_carry := getFlag FLAG_C c in
  let new_carry := negb (Z.land (A c) 0x01 =? 0) in
  let c := set_A (u8 (Z.lor (Z.shiftr (A c) 1)
                            (if old_carry then 0x80 else 0))) c in
  rot_flags false new_carry c.

Definition RLC_r (reg : Z) (c : t) : Z * t :=
  let carry := negb (Z.land reg 0x80 =? 0) in
  let reg := u8 (Z.lor (Z.shiftl reg 1) (if carry then 1 else 0)) in
  (reg, rot_flags (reg =? 0) carry c).

Definition RRC_r (reg : Z) (c : t) : Z * t :=
  let carry := negb (Z.land reg 0x01 =? 0) in
  let reg := u8 (Z.lor (Z.shiftr reg 1) (if carry then 0x80 else 0)) in
  (reg, rot_flags (reg =? 0) carry c).

Definition RL_r (reg : Z) (c : t) : Z * t :=
  let old_carry := getFlag FLAG_C c in
  let new_carry := negb (Z.land reg 0x80 =? 0) in
  let reg := u8 (Z.lor (Z.shiftl reg 1) (if old_carry then 1 else 0)) in
  (reg, rot_flags (reg =? 0) new_carry c).

Definition RR_r (reg : Z) (c : t) : Z * t :=
  let old_carry := getFlag FLAG_C c in
  let new_carry := negb (Z.land reg 0x01 =? 0) in
  let reg := u8 (Z.lor (Z.shiftr reg 1) (if old_carry then 0x80 else 0)) in
  (reg, rot_flags (reg =? 0) new_carry c).

Definition SLA_r (reg : Z) (c : t) : Z * t :=
  let carry := negb (Z.land reg 0x80 =? 0) in
  let reg := u8 (Z.shiftl reg 1) in
  (reg, rot_flags (reg =? 0) carry c).

(** [bool msb = (reg & 0x80); reg = (reg >> 1) | msb;]: the conversion to
    [bool] makes [msb] 0 or 1, and that is what is or-ed in. *)
Definition SRA_r (reg : Z) (c : t) : Z * t :=
  let carry := negb (Z.land reg 0x01 =? 0) in
  let msb := nz (Z.land reg 0x80) in
  let reg := u8 (Z.lor (Z.shiftr reg 1) (if msb then 1 else 0)) in
  (reg, rot_flags (reg =? 0) carry c).

Definition SRL_r (reg : Z) (c : t) : Z * t :=
  let carry := negb (Z.land reg 0x01 =? 0) in
  let reg := u8 (Z.shiftr reg 1) in
  (reg, rot_flags (reg =? 0) carry c).

Definition SWAP_r (reg : Z) (c : t) : Z * t :=
  let reg := u8 (Z.lor (Z.shiftl (Z.land reg 0x0F) 4)
                       (Z.shiftr (Z.land reg 0xF0) 4)) in
  (reg, rot_flags (reg =? 0) false c).

(** *** Bit operations (instructions.cpp) *)

Definition BIT_b_r (bit reg : Z) (c : t) : t :=
  let bit_set := negb (Z.land reg (Z.shiftl 1 bit) =? 0) in
  let c := setFlag FLAG_Z (negb bit_set) c in
  let c := setFlag FLAG_N false c in
  setFlag FLAG_H true c.

Definition SET_b_r (bit reg : Z) : Z := u8 (Z.lor reg (Z.shiftl 1 bit)).

Definition RES_b_r (bit reg : Z) : Z :=
  u8 (Z.land reg (Z.lnot (Z.shiftl 1 bit))).

Definition CPL (c : t) : t :=
  let c := set_A (u8 (Z.lnot (A c))) c in
  let c := setFlag FLAG_N true c in
  setFlag FLAG_H true c.

Definition CCF (c : t) : t :=
  let c := setFlag FLAG_C (negb (getFlag FLAG_C c)) c in
  let c := setFlag FLAG_N false c in
  setFlag FLAG_H false c.

Definition SCF (c : t) : t :=
  let c := setFlag FLAG_C true c in
  let c := setFlag FLAG_N false c in
  setFlag FLAG_H false c.

(** *** The CB-prefixed table (instructions.cpp)

    [getReg] maps the register field of the opcode to B, C, D, E, H, L
    and A; field 6 is the byte at (HL) and every caller handles it before
    calling [getReg], so its [default] branch is never taken. *)

Definition getReg (reg : Z) (c : t) : Z :=
  if reg =? 0 then B c
  else if reg =? 1 then C c
  else if reg =? 2 then D c
  else if reg =? 3 then E c
  else if reg =? 4 then H c
  else if reg =? 5 then L c
  else if reg =? 7 then A c
  else 0.

(** Assignment through the reference that [getReg] returns. *)
Definition setReg (reg v : Z) (c : t) : t :=
  if reg =? 0 then set_B v c
  else if reg =? 1 then set_C v c
  else if reg =? 2 then set_D v c
  else if reg =? 3 then set_E v c
  else if reg =? 4 then set_H v c
  else if reg =? 5 then set_L v c
  else if reg =? 7 then set_A v c
  else c.

(** The inner [switch (operation)] of the rotate and shift block. *)
Definition rotate_shift (operation : Z) (reg : Z) (c : t) : Z * t :=
  if operation =? 0 then RLC_r reg c
  else if operation =? 1 then RRC_r reg c
  else if operation =? 2 then RL_r reg c
  else if operation =? 3 then RR_r reg c
  else if operation =? 4 then SLA_r reg c
  else if operation =? 5 then SRA_r reg c
  else if operation =? 6 then SWAP_r reg c
  else SRL_r reg c.

(** The four ranges cover every [u8] opcode; the second copy of the BIT,
    RES and SET blocks and the warning after them cannot be reached. *)
Definition executeCBOpcode (opcode : Z) (s : t * MMU.t) : t * MMU.t :=
  let opcode := u8 opcode in
  let (c, m) := s in
  let reg := Z.land opcode 0x07 in
  if opcode <? 0x40 then
    let operation := Z.land (Z.shiftr opcode 3) 0x07 in
    if reg =? 6 then
      let (val, s) := read8 (getHL c) (c, m) in
      let (c, m) := s in
      let (val, c) := rotate_shift operation val c in
      let (c, m) := write8 (getHL c) val (c, m) in
      (tick 8 c, m)
    else
      let (r, c) := rotate_shift operation (getReg reg c) c in
      (setReg reg r c, m)
  else
    let bit := u8 (Z.land (Z.shiftr opcode 3) 0x07) in
    if opcode <=? 0x7F then
      if reg =? 6 then
        let (value, s) := read8 (getHL c) (c, m) in
        let (c, m) := s in
        let c := tick 4 c in
        (BIT_b_r bit value c, m)
      else (BIT_b_r bit (getReg reg c) c, m)
    else if opcode <=? 0xBF then
      if reg =? 6 then
        let (val, s) := read8 (getHL c) (c, m) in
        let (c, m) := s in
        let val := RES_b_r bit val in
        let (c, m) := write8 (getHL c) val (c, m) in
        (tick 8 c, m)
      else (setReg reg (RES_b_r bit (getReg reg c)) c, m)
    else
      if reg =? 6 then
        let (val, s) := read8 (getHL c) (c, m) in
        let (c, m) := s in
        let val := SET_b_r bit val in
        let (c, m) := write8 (getHL c) val (c, m) in
        (tick 8 c, m)
      else (setReg reg (SET_b_r bit (getReg reg c)) c, m).

(** [case 0xCB] of [executeOpcode]: fetch the second byte, then the table. *)
Definition CB_prefix (s : t * MMU.t) : t * MMU.t :=
  let (c, m) := s in
  let pc := PC c in
  let c := set_PC (u16 (pc + 1)) c in
  let (cb_opcode, s) := read8 pc (c, m) in
  executeCBOpcode cb_opcode s.

End CPU.

(** ** PPU (graphics/ppu.h, ppu.cpp) *)

Module PPU.

Inductive Mode := HBLANK | VBLANK | OAM | VRAM.

Definition mode_num (md : Mode) : Z :=
  match md with HBLANK => 0 | VBLANK => 1 | OAM => 2 | VRAM => 3 end.

Record t := mk {
  framebuffer : list Z;
  frame_ready : bool;
  mode : Mode;
  mode_cycles : Z;
  scanline : Z
}.

Definition new : t := mk (arr_fill (160 * 144) 0) false OAM 0 0.

Definition set_framebuffer (fb : list Z) (p : t) : t :=
  mk fb (frame_ready p) (mode p) (mode_cycles p) (scanline p).
Definition set_frame_ready (b : bool) (p : t) : t :=
  mk (framebuffer p) b (mode p) (mode_cycles p) (scanline p).
Definition set_mode (md : Mode) (p : t) : t :=
  mk (framebuffer p) (frame_ready p) md (mode_cycles p) (scanline p).
Definition set_mode_cycles (v : Z) (p : t) : t :=
  mk (framebuffer p) (frame_ready p) (mode p) v (scanline p).
Definition set_scanline (v : Z) (p : t) : t :=
  mk (framebuffer p) (frame_ready p) (mode p) (mode_cycles p) v.

Definition setMode (new_mode : Mode) (s : t * MMU.t) : t * MMU.t :=
  let (p, m) := s in
  let p := set_mode new_mode p in
  let stat := MMU.read 0xFF41 m in
  let stat := u8 (Z.lor (Z.land stat 0xFC) (mode_num new_mode)) in
  (p, MMU.write 0xFF41 stat m).

Definition getColor (palette color_id : Z) : Z :=
  Z.land (Z.shiftr palette (color_id * 2)) 0x03.

(** [((byte2 >> bit) & 1) << 1 | ((byte1 >> bit) & 1)]. *)
Definition color_of (byte1 byte2 bit : Z) : Z :=
  u8 (Z.lor (Z.shiftl (Z.land (Z.shiftr byte2 bit) 1) 1)
            (Z.land (Z.shiftr byte1 bit) 1)).

Definition bg_pixel (line lcdc scy scx bgp : Z) (m : MMU.t) (x : Z) : Z :=
  let tile_map := if nz (Z.land lcdc 0x08) then 0x9C00 else 0x9800 in
  let tile_data := if nz (Z.land lcdc 0x10) then 0x8000 else 0x8800 in
  let unsigned_addressing := nz (Z.land lcdc 0x10) in
  let y := Z.land (line + scy) 0xFF in
  let tile_row := y / 8 in
  let tile_y := y mod 8 in
  let pixel_x := Z.land (x + scx) 0xFF in
  let tile_col := pixel_x / 8 in
  let tile_x := pixel_x mod 8 in
  let tile_addr := u16 (tile_map + tile_row * 32 + tile_col) in
  let tile_num := MMU.read tile_addr m in
  let tile_data_addr :=
    if unsigned_addressing
    then u16 (tile_data + tile_num * 16)
    else u16 (tile_data + i8 tile_num * 16 + 0x800) in
  let byte1 := MMU.read (tile_data_addr + tile_y * 2) m in
  let byte2 := MMU.read (tile_data_addr + tile_y * 2 + 1) m in
  let bit := 7 - tile_x in
  getColor bgp (color_of byte1 byte2 bit).

Definition renderBackground (line : Z) (m : MMU.t) (fb : list Z) : list Z :=
  let lcdc := MMU.read 0xFF40 m in
  if negb (nz (Z.land lcdc 0x01)) then
    fold_left (fun fb x => arr_set fb (line * 160 + Z.of_nat x) 0)
              (seq 0 160) fb
  else
    let scy := MMU.read 0xFF42 m in
    let scx := MMU.read 0xFF43 m in
    let bgp := MMU.read 0xFF47 m in
    fold_left
      (fun fb x =>
         arr_set fb (line * 160 + Z.of_nat x)
                 (bg_pixel line lcdc scy scx bgp m (Z.of_nat x)))
      (seq 0 160) fb.

(** The body of the sprite loop for OAM entry [i]. *)
Definition sprite (line sprite_height : Z) (m : MMU.t) (fb : list Z)
           (i : Z) : list Z :=
  let oam_addr := u16 (0xFE00 + i * 4) in
  let y_pos := u8 (MMU.read oam_addr m - 16) in
  let x_pos := u8 (MMU.read (oam_addr + 1) m - 8) in
  let tile := MMU.read (oam_addr + 2) m in
  let flags := MMU.read (oam_addr + 3) m in
  if (line <? y_pos) || (y_pos + sprite_height <=? line) then fb
  else
    let flip_x := nz (Z.land flags 0x20) in
    let flip_y := nz (Z.land flags 0x40) in
    let palette_num := if nz (Z.land flags 0x10) then 1 else 0 in
    let palette :=
      MMU.read (if nz palette_num then 0xFF49 else 0xFF48) m in
    let sprite_line := line - y_pos in
    let sprite_line :=
      if flip_y then sprite_height - 1 - sprite_line else sprite_line in
    let tile_addr := u16 (0x8000 + tile * 16 + sprite_line * 2) in
    let byte1 := MMU.read tile_addr m in
    let byte2 := MMU.read (tile_addr + 1) m in
    fold_left
      (fun fb px =>
         let px := Z.of_nat px in
         let pixel_x := x_pos + px in
         if (pixel_x <? 0) || (160 <=? pixel_x) then fb
         else
           let bit := if flip_x then px else 7 - px in
           let color_id := color_of byte1 byte2 bit in
           if color_id =? 0 then fb
           else arr_set fb (line * 160 + pixel_x) (getColor palette color_id))
      (seq 0 8) fb.

Definition renderSprites (line : Z) (m : MMU.t) (fb : list Z) : list Z :=
  let lcdc := MMU.read 0xFF40 m in
  if negb (nz (Z.land lcdc 0x02)) then fb
  else
    let sprite_height := if nz (Z.land lcdc 0x04) then 16 else 8 in
    fold_left (fun fb i => sprite line sprite_height m fb (Z.of_nat i))
              (seq 0 40) fb.

Definition renderScanline (s : t * MMU.t) : t * MMU.t :=
  let (p, m) := s in
  let fb := renderBackground (scanline p) m (framebuffer p) in
  let fb := renderSprites (scanline p) m fb in
  (set_framebuffer fb p, m).

(** The LYC=LY block of the H-Blank case, after [setLY(scanline)]. *)
Definition coincidence (ly : Z) (m : MMU.t) : MMU.t :=
  let lyc := MMU.read 0xFF45 m in
  let stat := MMU.read 0xFF41 m in
  let '(stat, m) :=
    if ly =? lyc then
      let stat := u8 (Z.lor stat 0x04) in
      if nz (Z.land stat 0x40) then
        let if_reg := MMU.read 0xFF0F m in
        (stat, MMU.write 0xFF0F (Z.lor if_reg 0x02) m)
      else (stat, m)
    else (u8 (Z.land stat (Z.lnot 0x04)), m) in
  MMU.write 0xFF41 stat m.

Definition step (cycles : Z) (s : t * MMU.t) : t * MMU.t :=
  let (p, m) := s in
  let p := set_mode_cycles (mode_cycles p + cycles) p in
  let lcdc := MMU.read 0xFF40 m in
  if negb (nz (Z.land lcdc 0x80)) then
    (set_mode OAM (set_mode_cycles 0 (set_scanline 0 p)), m)
  else
    match mode p with
    | OAM =>
        if 80 <=? mode_cycles p then
          setMode VRAM (set_mode_cycles (mode_cycles p - 80) p, m)
        else (p, m)
    | VRAM =>
        if 172 <=? mode_cycles p then
          let p := set_mode_cycles (mode_cycles p - 172) p in
          setMode HBLANK (renderScanline (p, m))
        else (p, m)
    | HBLANK =>
        if 204 <=? mode_cycles p then
          let p := set_mode_cycles (mode_cycles p - 204) p in
          let p := set_scanline (scanline p + 1) p in
          let m := MMU.setLY (scanline p) m in
          let m := coincidence (scanline p) m in
          if scanline p =? 144 then
            let (p, m) := setMode VBLANK (p, m) in
            let p := set_frame_ready true p in
            let if_reg := MMU.read 0xFF0F m in
            (p, MMU.write 0xFF0F (Z.lor if_reg 0x01) m)
          else setMode OAM (p, m)
        else (p, m)
    | VBLANK =>
        if 456 <=? mode_cycles p then
          let p := set_mode_cycles (mode_cycles p - 456) p in
          let p := set_scanline (scanline p + 1) p in
          let m := MMU.setLY (scanline p) m in
          if scanline p =? 154 then
            let p := set_scanline 0 p in
            let m := MMU.setLY 0 m in
            setMode OAM (p, m)
          else (p, m)
        else (p, m)
    end.

End PPU.

(** ** Save states (savestate.h, savestate.cpp)

    A [std::ifstream] is the bytes still unread together with its good bit.
    The raw [file.read] into the fields assumes the layout of the usual
    little-endian targets: one byte per [u8] and [bool], two for [u16],
    four for [u32] and [int]. *)

Module SaveState.

Record ifstream := mkStream { rest : list Z; good : bool }.

(** [file.read(dst, n)]: the bytes extracted, and the stream afterwards.
    A short read delivers what is left and sets the fail bit; a stream
    that is not good delivers nothing. *)
Definition read (n : nat) (f : ifstream) : list Z * ifstream :=
  if negb (good f) then ([], f)
  else if (n <=? length (rest f))%nat
       then (take n (rest f), mkStream (drop n (rest f)) true)
       else (rest f, mkStream [] false).

(** The bytes extracted land at the start of the destination buffer. *)
Definition overwrite (dst src : list Z) : list Z :=
  src ++ drop (length src) dst.

Fixpoint le_bytes (w : nat) (x : Z) : list Z :=
  match w with
  | O => []
  | S w' => x mod 256 :: le_bytes w' (x / 256)
  end.

Fixpoint le_value (bs : list Z) : Z :=
  match bs with
  | [] => 0
  | b :: bs' => b + 256 * le_value bs'
  end.

Definition read_array (dst : list Z) (f : ifstream) : list Z * ifstream :=
  let (bs, f) := read (length dst) f in (overwrite dst bs, f).

(** Unsigned field of [w] bytes. *)
Definition read_uint (w : nat) (old : Z) (f : ifstream) : Z * ifstream :=
  let (bs, f) := read w f in (le_value (overwrite (le_bytes w old) bs), f).

(** [int] field. *)
Definition read_int (old : Z) (f : ifstream) : Z * ifstream :=
  let (v, f) := read_uint 4 (u32 old) f in
  (if v <? 2147483648 then v else v - 4294967296, f).

Definition read_bool (old : bool) (f : ifstream) : bool * ifstream :=
  let (v, f) := read_uint 1 (if old then 1 else 0) f in (nz v, f).

Definition CPU_loadState (c : CPU.t) (f : ifstream) : CPU.t * ifstream :=
  let (a, f) := read_uint 1 (CPU.A c) f in
  let (fl, f) := read_uint 1 (CPU.F c) f in
  let (b, f) := read_uint 1 (CPU.B c) f in
  let (cc, f) := read_uint 1 (CPU.C c) f in
  let (d, f) := read_uint 1 (CPU.D c) f in
  let (e, f) := read_uint 1 (CPU.E c) f in
  let (h, f) := read_uint 1 (CPU.H c) f in
  let (l, f) := read_uint 1 (CPU.L c) f in
  let (sp, f) := read_uint 2 (CPU.SP c) f in
  let (pc, f) := read_uint 2 (CPU.PC c) f in
  let (hl, f) := read_bool (CPU.halted c) f in
  let (st, f) := read_bool (CPU.stopped c) f in
  let (im, f) := read_bool (CPU.ime c) f in
  let (ims, f) := read_bool (CPU.ime_scheduled c) f in
  let (cy, f) := read_uint 4 (CPU.cycles c) f in
  (CPU.mk a b cc d e fl h l sp pc hl st im ims cy, f).

Definition Cartridge_loadState (c : Cartridge.t) (f : ifstream)
  : Cartridge.t * ifstream :=
  let (ram_size, f) := read_uint 4 0 f in
  let (ram, f) :=
    if (0 <? ram_size) && (ram_size <=? Cartridge.size (Cartridge.ram c))
    then let (bs, f) := read (Z.to_nat ram_size) f in
         (overwrite (Cartridge.ram c) bs, f)
    else (Cartridge.ram c, f) in
  let (rom_bank, f) := read_int (Cartridge.rom_bank c) f in
  let (ram_bank, f) := read_int (Cartridge.ram_bank c) f in
  let (ram_enabled, f) := read_bool (Cartridge.ram_enabled c) f in
  let (rom_banking, f) := read_bool (Cartridge.rom_banking c) f in
  let (s, f) := read_uint 1 (Cartridge.rtc_seconds c) f in
  let (mi, f) := read_uint 1 (Cartridge.rtc_minutes c) f in
  let (h, f) := read_uint 1 (Cartridge.rtc_hours c) f in
  let (dl, f) := read_uint 1 (Cartridge.rtc_days_low c) f in
  let (dh, f) := read_uint 1 (Cartridge.rtc_days_high c) f in
  let (latched, f) := read_bool (Cartridge.rtc_latched c) f in
  let (latch_state, f) := read_uint 1 (Cartridge.rtc_latch_state c) f in
  (Cartridge.mk (Cartridge.rom c) ram (Cartridge.mbc_type c) rom_bank
                ram_bank ram_enabled rom_banking s mi h dl dh latched
                latch_state, f).

Definition MMU_loadState (m : MMU.t) (f : ifstream) : MMU.t * ifstream :=
  let (wram, f) := read_array (MMU.wram m) f in
  let (vram, f) := read_array (MMU.vram m) f in
  let (hram, f) := read_array (MMU.hram m) f in
  let (oam, f) := read_array (MMU.oam m) f in
  let (io, f) := read_array (MMU.io m) f in
  let (ie, f) := read_uint 1 (MMU.ie_register m) f in
  let (cart, f) :=
    match MMU.cartridge m with
    | Some c => let (c, f) := Cartridge_loadState c f in (Some c, f)
    | None => (None, f)
    end in
  (MMU.mk cart wram vram hram oam io (MMU.joypad m) (MMU.timer m)
          (MMU.apu m) ie, f).

(** [PPU::loadState], [APU::loadState] and [Timer::loadState] have empty
    bodies. *)
Definition PPU_loadState (p : PPU.t) (f : ifstream) : PPU.t * ifstream :=
  (p, f).
Definition APU_loadState (a : APU.t) (f : ifstream) : APU.t * ifstream :=
  (a, f).
Definition Timer_loadState (tm : Timer.t) (f : ifstream)
  : Timer.t * ifstream := (tm, f).

(** ["GBSTATE"] with its terminator, and the format version. *)
Definition MAGIC : list Z := [71; 66; 83; 84; 65; 84; 69].
Definition MAGIC_cstr : list Z := MAGIC ++ [0].
Definition VERSION : Z := 1.

(** [std::strcmp(a, b) == 0] on NUL-terminated buffers. *)
Fixpoint strcmp_eq (a b : list Z) : bool :=
  match a, b with
  | x :: a', y :: b' =>
      if x =? y then (if x =? 0 then true else strcmp_eq a' b') else false
  | _, _ => false
  end.

(** [SaveState::load].  The file is [None] when it cannot be opened.  The
    [apu] and [timer] arguments of the only caller are the ones inside
    [mmu]. *)
Definition load (file : option (list Z))
           (cpu : CPU.t) (mmu : MMU.t) (ppu : PPU.t)
  : bool * (CPU.t * MMU.t * PPU.t) :=
  match file with
  | None => (false, (cpu, mmu, ppu))
  | Some bytes =>
      let f := mkStream bytes true in
      let magic := replicate 8 0 in
      let version := 0 in
      let (bs, f) := read 7 f in
      let magic := overwrite magic bs in
      let (version, f) := read_uint 1 version f in
      if negb (strcmp_eq magic MAGIC_cstr) then (false, (cpu, mmu, ppu))
      else if negb (version =? VERSION) then (false, (cpu, mmu, ppu))
      else
        let (cpu, f) := CPU_loadState cpu f in
        let (mmu, f) := MMU_loadState mmu f in
        let (ppu, f) := PPU_loadState ppu f in
        let (apu, f) := APU_loadState (MMU.apu mmu) f in
        let mmu := MMU.set_apu apu mmu in
        let (timer, f) := Timer_loadState (MMU.timer mmu) f in
        let mmu := MMU.set_timer timer mmu in
        (true, (cpu, mmu, ppu))
  end.

(** *** Writing

    A [std::ofstream] opened on a fresh file is the list of the bytes
    written so far; [file.write] appends the object representation of its
    argument, in the same layout as the reads above. *)

Definition write_array (a : list Z) (out : list Z) : list Z := out ++ a.

Definition write_uint (w : nat) (x : Z) (out : list Z) : list Z :=
  out ++ le_bytes w x.

(** [int] field, in two's complement. *)
Definition write_int (x : Z) (out : list Z) : list Z :=
  write_uint 4 (u32 x) out.

Definition write_bool (b : bool) (out : list Z) : list Z :=
  write_uint 1 (if b then 1 else 0) out.

Definition CPU_saveState (c : CPU.t) (out : list Z) : list Z :=
  let out := write_uint 1 (CPU.A c) out in
  let out := write_uint 1 (CPU.F c) out in
  let out := write_uint 1 (CPU.B c) out in
  let out := write_uint 1 (CPU.C c) out in
  let out := write_uint 1 (CPU.D c) out in
  let out := write_uint 1 (CPU.E c) out in
  let out := write_uint 1 (CPU.H c) out in
  let out := write_uint 1 (CPU.L c) out in
  let out := write_uint 2 (CPU.SP c) out in
  let out := write_uint 2 (CPU.PC c) out in
  let out := write_bool (CPU.halted c) out in
  let out := write_bool (CPU.stopped c) out in
  let out := write_bool (CPU.ime c) out in
  let out := write_bool (CPU.ime_scheduled c) out in
  write_uint 4 (CPU.cycles c) out.

Definition Cartridge_saveState (c : Cartridge.t) (out : list Z) : list Z :=
  let ram_size := u32 (Cartridge.size (Cartridge.ram c)) in
  let out := write_uint 4 ram_size out in
  let out :=
    if 0 <? ram_size
    then out ++ take (Z.to_nat ram_size) (Cartridge.ram c)
    else out in
  let out := write_int (Cartridge.rom_bank c) out in
  let out := write_int (Cartridge.ram_bank c) out in
  let out := write_bool (Cartridge.ram_enabled c) out in
  let out := write_bool (Cartridge.rom_banking c) out in
  let out := write_uint 1 (Cartridge.rtc_seconds c) out in
  let out := write_uint 1 (Cartridge.rtc_minutes c) out in
  let out := write_uint 1 (Cartridge.rtc_hours c) out in
  let out := write_uint 1 (Cartridge.rtc_days_low c) out in
  let out := write_uint 1 (Cartridge.rtc_days_high c) out in
  let out := write_bool (Cartridge.rtc_latched c) out in
  write_uint 1 (Cartridge.rtc_latch_state c) out.

Definition MMU_saveState (m : MMU.t) (out : list Z) : list Z :=
  let out := write_array (MMU.wram m) out in
  let out := write_array (MMU.vram m) out in
  let out := write_array (MMU.hram m) out in
  let out := write_array (MMU.oam m) out in
  let out := write_array (MMU.io m) out in
  let out := write_uint 1 (MMU.ie_register m) out in
  match MMU.cartridge m with
  | Some c => Cartridge_saveState c out
  | None => out
  end.

(** [PPU::saveState], [APU::saveState] and [Timer::saveState] have empty
    bodies. *)
Definition PPU_saveState (p : PPU.t) (out : list Z) : list Z := out.
Definition APU_saveState (a : APU.t) (out : list Z) : list Z := out.
Definition Timer_saveState (tm : Timer.t) (out : list Z) : list Z := out.

(** [SaveState::save].  [opened] tells whether the output file could be
    created; the result is the return value and the bytes of the file. *)
Definition save (opened : bool) (cpu : CPU.t) (mmu : MMU.t) (ppu : PPU.t)
  : bool * list Z :=
  if negb opened then (false, [])
  else
    let out := [] in
    let out := write_array MAGIC out in
    let out := write_uint 1 VERSION out in
    let out := CPU_saveState cpu out in
    let out := MMU_saveState mmu out in
    let out := PPU_saveState ppu out in
    let out := APU_saveState (MMU.apu mmu) out in
    let out := Timer_saveState (MMU.timer mmu) out in
    (true, out).

End SaveState.

(** * Vocabulary of the statements *)

(** ** Well-formed memory *)

Definition is_byte (b : Z) : Prop := 0 <= b < 256.
Definition is_bytes (a : list Z) : Prop := Forall is_byte a.

(** The I/O window as the bus declares it: 128 bytes. *)
Definition io_ok (m : MMU.t) : Prop :=
  length (MMU.io m) = 128%nat /\ is_bytes (MMU.io m).

(** ** Timer *)

(** One period of the timer, in the words of the specification: increment
    TIMA; on overflow from 0xFF reload it from TMA and raise IF bit 2.  The
    pair is (TIMA, IF). *)
Definition tima_tick (tma : Z) (r : Z * Z) : Z * Z :=
  let (tima, if_reg) := r in
  if tima =? 0xFF then (tma, Z.lor if_reg 0x04) else (tima + 1, if_reg).

Fixpoint iter_tick (n : nat) (tma : Z) (r : Z * Z) : Z * Z :=
  match n with
  | O => r
  | S n' => iter_tick n' tma (tima_tick tma r)
  end.

Definition timer_regs (m : MMU.t) : Z * Z :=
  (MMU.read 0xFF05 m, MMU.read 0xFF0F m).

(** What stays put while the timer runs. *)
Definition timer_keeps (m m' : MMU.t) : Prop :=
  io_ok m'
  /\ MMU.read 0xFF06 m' = MMU.read 0xFF06 m
  /\ MMU.read 0xFF07 m' = MMU.read 0xFF07 m.

(** A run of the timer: one [Timer::step] call per element, in order. *)
Definition Timer_run (cs : list Z) (m : MMU.t) : MMU.t :=
  fold_left (fun m c => Timer_step c m) cs m.

Definition total (cs : list Z) : Z := fold_right Z.add 0 cs.

(** A bus with TAC = 0x05 and TMA = 0xF0. *)
Definition tac5_mmu : MMU.t :=
  MMU.write 0xFF06 0xF0 (MMU.write 0xFF07 0x05 MMU.new).

(** A bus on which the timer ran for 200 cycles at the slowest rate
    (TAC = 0x04, no period of 256 completed) before TAC was set to 0x05. *)
Definition tac5_late_mmu : MMU.t :=
  MMU.write 0xFF07 0x05 (Timer_step 200 (MMU.write 0xFF07 0x04 MMU.new)).

(** ** Bus writes and IF *)

(** A sequence of bus writes, (address, value) pairs in order. *)
Definition bus_writes (ws : list (Z * Z)) (m : MMU.t) : MMU.t :=
  fold_left (fun m w => MMU.write (fst w) (snd w) m) ws m.

(** Bits 5-7 of a byte. *)
Definition upper3 (x : Z) : Z := Z.land x 0xE0.

(** A write that either goes elsewhere or stores bits 5-7 set in IF. *)
Definition IF_write_keeps (w : Z * Z) : bool :=
  negb (u16 (fst w) =? 0xFF0F) || (upper3 (snd w) =? 0xE0).

Definition IF_stored_writes : list (Z * Z) :=
  [(0xFF0F, 0xE1); (0xC000, 0x12); (0xFF46, 0xC0); (0xFF0F, 0xFF)].

(** ** Interrupts *)

(** IF & IE & 0x1F at the bus. *)
Definition pending (m : MMU.t) : Z :=
  Z.land (Z.land (MMU.read 0xFF0F m) (MMU.read 0xFFFF m)) 0x1F.

(** [n] calls of [CPU::step]. *)
Fixpoint steps (n : nat) (s : CPU.t * MMU.t) : option (CPU.t * MMU.t) :=
  match n with
  | O => Some s
  | S n' =>
      match CPU.step s with
      | Some s' => steps n' s'
      | None => None
      end
  end.

(** EI; NOP; DI running to its end unserviced: the NOP falls through to the
    DI, the DI leaves IME clear, PC has walked over the three one-byte
    instructions, nothing was pushed and the interrupt is still flagged. *)
Definition EI_NOP_DI_unserviced (c : CPU.t) (m : MMU.t) : Prop :=
  exists s2 s3,
    steps 2 (c, m) = Some s2
    /\ CPU.PC (fst s2) = u16 (CPU.PC c + 2)
    /\ steps 3 (c, m) = Some s3
    /\ CPU.PC (fst s3) = u16 (CPU.PC c + 3)
    /\ CPU.ime (fst s3) = false
    /\ CPU.SP (fst s3) = CPU.SP c
    /\ MMU.read 0xFF0F (snd s3) = MMU.read 0xFF0F m.

(** The CPU after reset with IME set, and a bus with V-Blank pending and
    enabled. *)
Definition irq_cpu : CPU.t :=
  CPU.mk 0x01 0x00 0x13 0x00 0xD8 0xB0 0x01 0x4D 0xFFFE 0x0100
         false false true false 0.

Definition irq_mmu : MMU.t :=
  MMU.write 0xFF0F 0x01 (MMU.write 0xFFFF 0x01 MMU.new).

(** EI; NOP; DI in work RAM at 0xC000, IE = 1, IF = 1, and the CPU after
    reset with PC at the EI. *)
Definition ei_mmu : MMU.t :=
  MMU.write 0xFF0F 0x01
    (MMU.write 0xFFFF 0x01
       (MMU.write 0xC002 0xF3
          (MMU.write 0xC001 0x00 (MMU.write 0xC000 0xFB MMU.new)))).

Definition ei_cpu : CPU.t :=
  CPU.mk 0x01 0x00 0x13 0x00 0xD8 0xB0 0x01 0x4D 0xFFFE 0xC000
         false false false false 0.

(** A halted CPU on which an EI is still scheduled. *)
Definition halted_ei_cpu : CPU.t :=
  CPU.mk 0x01 0x00 0x13 0x00 0xD8 0xB0 0x01 0x4D 0xFFFE 0x0100
         true false false true 0.

(** ** DAA *)

(** The correction that DAA assembles with [|=], as a sum. *)
Definition daa_add_correction (h c : bool) (a : Z) : Z :=
  (if h || (9 <? Z.land a 0x0F) then 0x06 else 0)
  + (if c || (0x99 <? a) then 0x60 else 0).

Definition daa_sub_correction (h c : bool) : Z :=
  (if h then 0x06 else 0) + (if c then 0x60 else 0).

(** ** Cartridges *)

(** The three header codes that [writeROM] treats as MBC1. *)
Definition is_mbc1 (ty : Z) : bool :=
  (ty =? 0x01) || (ty =? 0x02) || (ty =? 0x03).

(** The cartridge as the constructor leaves it. *)
Definition fresh_cartridge (file : list Z) : Cartridge.t :=
  {| Cartridge.rom := file;
     Cartridge.ram :=
       if 0 <? Cartridge.ram_size_of (arr_get file 0x0149)
       then arr_fill (Cartridge.ram_size_of (arr_get file 0x0149)) 0 else [];
     Cartridge.mbc_type := arr_get file 0x0147;
     Cartridge.rom_bank := 1; Cartridge.ram_bank := 0;
     Cartridge.ram_enabled := false; Cartridge.rom_banking := true;
     Cartridge.rtc_seconds := 0; Cartridge.rtc_minutes := 0;
     Cartridge.rtc_hours := 0; Cartridge.rtc_days_low := 0;
     Cartridge.rtc_days_high := 0;
     Cartridge.rtc_latched := false; Cartridge.rtc_latch_state := 0xFF |}.

(** An MBC1 image of 32 KiB and one byte, with 0x42 at offset 0x8000. *)
Definition mbc1_image : list Z :=
  arr_set (arr_set (arr_fill 0x8001 0) 0x0147 0x01) 0x8000 0x42.

(** The same image with 0x17 at offset 0x4000, the first byte of bank 1. *)
Definition mbc1_image_17 : list Z := arr_set mbc1_image 0x4000 0x17.

(** The MBC1 scenario of the specification on a bus [m]: 0x0A to 0x0000,
    then 0x02 to 0x2100. *)
Definition select_bank_2 (m : MMU.t) : MMU.t :=
  MMU.write 0x2100 0x02 (MMU.write 0x0000 0x0A m).

(** ** Save states *)

(** A header with the right magic and version 2. *)
Definition version2_file : list Z := [71; 66; 83; 84; 65; 84; 69; 2; 0; 0].

(** ** PPU *)

(** Line 144 is over; LYC waits for line 145 with the STAT interrupt
    enabled. *)
Definition vblank_ppu : PPU.t :=
  PPU.mk (arr_fill (160 * 144) 0) true PPU.VBLANK 455 144.

Definition vblank_mmu : MMU.t :=
  MMU.write 0xFF41 0x41 (MMU.write 0xFF45 145 MMU.new).

(** ** The bus as a memory *)

Definition len (a : list Z) : Z := Z.of_nat (length a).

(** The memories of the bus have the sizes of their [std::array] types. *)
Definition mem_ok (m : MMU.t) : Prop :=
  len (MMU.wram m) = 0x2000 /\ len (MMU.vram m) = 0x2000
  /\ len (MMU.hram m) = 0x80 /\ len (MMU.oam m) = 0xA0
  /\ len (MMU.io m) = 0x80.

(** The storage cell behind an address: an echo address names the cell of
    the work RAM address 0x2000 below it. *)
Definition cell (a : Z) : Z :=
  let a := u16 a in
  if (0xE000 <=? a) && (a <? 0xFE00) then a - 0x2000 else a.

(** Addresses backed by an array of the bus or by the IE register: video
    RAM, work RAM and its echo, OAM, high RAM and 0xFFFF. *)
Definition is_ram (a : Z) : bool :=
  let a := u16 a in
  (0x8000 <=? a) && (a <? 0xA000)
  || (0xC000 <=? a) && (a <? 0xFEA0)
  || (0xFF80 <=? a).

(** Addresses decoded to the cartridge. *)
Definition is_cartridge_addr (a : Z) : bool :=
  let a := u16 a in (a <? 0x8000) || (0xA000 <=? a) && (a <? 0xC000).

(** OAM after the first [n] passes of the DMA loop, every source byte
    read from the bus as it was before the transfer. *)
Definition dma_oam (source : Z) (m : MMU.t) (n : nat) : list Z :=
  fold_left
    (fun o i => arr_set o (Z.of_nat i) (MMU.read (source + Z.of_nat i) m))
    (seq 0 n) (MMU.oam m).

(** The ROM image of the cartridge in the bus, if any. *)
Definition rom_of (m : MMU.t) : list Z :=
  match MMU.cartridge m with
  | Some c => Cartridge.rom c
  | None => []
  end.

(** ** Sound unit *)

(** The nine [if]s that close [APU::write], as a function of their tests. *)
Definition channel_writes (b10 b11 b12 b13 b14 b16 b17 b18 b19 : bool)
           (value : Z) (a : APU.t) : APU.t :=
  let a := if b10 then APU.set_ch1 (APU.set_nr_0 value (APU.ch1 a)) a else a in
  let a := if b11 then APU.set_ch1 (APU.write_nr1 value (APU.ch1 a)) a else a in
  let a := if b12 then APU.set_ch1 (APU.set_nr_2 value (APU.ch1 a)) a else a in
  let a := if b13 then APU.set_ch1 (APU.set_nr_3 value (APU.ch1 a)) a else a in
  let a := if b14 then APU.set_ch1 (APU.write_nr4 value (APU.ch1 a)) a else a in
  let a := if b16 then APU.set_ch2 (APU.write_nr1 value (APU.ch2 a)) a else a in
  let a := if b17 then APU.set_ch2 (APU.set_nr_2 value (APU.ch2 a)) a else a in
  let a := if b18 then APU.set_ch2 (APU.set_nr_3 value (APU.ch2 a)) a else a in
  if b19 then APU.set_ch2 (APU.write_nr4 value (APU.ch2 a)) a else a.

(** A conditional update. *)
Definition upd {X : Type} (b : bool) (f : X -> X) (x : X) : X :=
  if b then f x else x.

(** The ranges in which the code keeps the state of a square channel. *)
Definition ch_ok (c : APU.SquareChannel) : Prop :=
  is_byte (APU.nr_2 c)
  /\ 0 <= APU.volume c <= 15
  /\ 0 <= APU.length_counter c <= 64
  /\ 0 <= APU.envelope_timer c <= 7
  /\ 0 <= APU.output c <= 15.

Definition apu_ok (a : APU.t) : Prop := ch_ok (APU.ch1 a) /\ ch_ok (APU.ch2 a).

(** The ring buffer as its declaration sizes it. *)
Definition ring_ok (r : APU.ring) : Prop :=
  len (APU.sample_buffer r) = APU.BUFFER_SIZE
  /\ 0 <= APU.buffer_write_pos r < APU.BUFFER_SIZE
  /\ 0 <= APU.buffer_read_pos r < APU.BUFFER_SIZE.

(** The samples waiting in the ring buffer, oldest first. *)
Definition ring_contents (r : APU.ring) : list Z :=
  map (fun k => arr_get (APU.sample_buffer r)
                        ((APU.buffer_read_pos r + Z.of_nat k)
                           mod APU.BUFFER_SIZE))
      (seq 0 (Z.to_nat (APU.getBufferedSampleCount r))).

(** ** Cartridge banking *)

(** An MBC1 cartridge whose ROM bank register is in its 7-bit range with
    a non-zero 5-bit part, as the constructor leaves it. *)
Definition mbc1_bank_ok (c : Cartridge.t) : Prop :=
  is_mbc1 (Cartridge.mbc_type c) = true
  /\ 0 <= Cartridge.rom_bank c < 128
  /\ Z.land (Cartridge.rom_bank c) 0x1F <> 0.

Definition is_mbc3 (ty : Z) : bool :=
  (ty =? 0x0F) || (ty =? 0x10) || (ty =? 0x11) || (ty =? 0x12)
  || (ty =? 0x13).

Definition is_mbc5 (ty : Z) : bool :=
  (ty =? 0x19) || (ty =? 0x1A) || (ty =? 0x1B) || (ty =? 0x1C)
  || (ty =? 0x1D) || (ty =? 0x1E).

(** The five clock registers, in the order of their selectors 0x08-0x0C. *)
Definition rtc_regs (c : Cartridge.t) : list Z :=
  [Cartridge.rtc_seconds c; Cartridge.rtc_minutes c; Cartridge.rtc_hours c;
   Cartridge.rtc_days_low c; Cartridge.rtc_days_high c].

(** Offset into the cartridge RAM that an access at [addr] (relative to
    0xA000) reaches on a banked controller. *)
Definition ram_offset (addr : Z) (c : Cartridge.t) : Z :=
  u32 (Cartridge.ram_bank c * 0x2000 + u16 addr).

(** A ROM image of 32 KiB with the given controller type and RAM size
    code in its header. *)
Definition image_of (ty ram_code : Z) : list Z :=
  arr_set (arr_set (arr_fill 0x8000 0) 0x0147 ty) 0x0149 ram_code.

(** ** Timer rates *)

(** A bus with TAC = 0x06 (enabled, one period per 16 cycles) and
    TMA = 0x80. *)
Definition tac6_mmu : MMU.t :=
  MMU.write 0xFF06 0x80 (MMU.write 0xFF07 0x06 MMU.new).

(** ** Joypad *)

(** The lines pulled low: the buttons held in the groups that [select]
    selects (bit 5 clear: A, B, Select, Start; bit 4 clear: the d-pad). *)
Definition joypad_lines (select buttons : Z) : Z :=
  Z.lor (if Z.testbit select 5 then 0 else Z.land buttons 0x0F)
        (if Z.testbit select 4 then 0 else Z.shiftr buttons 4).

(** ** Arithmetic of the CPU *)

(** The carry flag as a number. *)
Definition carry_in (c : CPU.t) : Z :=
  if CPU.getFlag CPU.FLAG_C c then 1 else 0.

(** What the addition of [x], [y] and a carry-in leaves in A and F. *)
Definition add_result (x y cin : Z) (c' : CPU.t) : Prop :=
  is_byte (CPU.A c')
  /\ CPU.A c' + 256 * carry_in c' = x + y + cin
  /\ CPU.getFlag CPU.FLAG_H c' = (0x0F <? x mod 16 + y mod 16 + cin)
  /\ CPU.getFlag CPU.FLAG_Z c' = (CPU.A c' =? 0)
  /\ CPU.getFlag CPU.FLAG_N c' = false.

(** What the subtraction of [y] and a borrow-in from [x] leaves in A and
    F: the carry flag is the borrow out. *)
Definition sub_result (x y cin : Z) (c' : CPU.t) : Prop :=
  is_byte (CPU.A c')
  /\ CPU.A c' - 256 * carry_in c' = x - y - cin
  /\ CPU.getFlag CPU.FLAG_H c' = (x mod 16 <? y mod 16 + cin)
  /\ CPU.getFlag CPU.FLAG_Z c' = (CPU.A c' =? 0)
  /\ CPU.getFlag CPU.FLAG_N c' = true.

(** ** Picture *)

(** The line counter is consistent with the mode: lines 0-143 outside
    V-Blank, lines 144-153 inside; and the framebuffer has its 160x144
    pixels. *)
Definition ppu_ok (p : PPU.t) : Prop :=
  len (PPU.framebuffer p) = 160 * 144
  /\ match PPU.mode p with
     | PPU.VBLANK => 144 <= PPU.scanline p <= 153
     | _ => 0 <= PPU.scanline p <= 143
     end.

(** Pixel [x] of line [line] of a framebuffer. *)
Definition pixel (fb : list Z) (line x : Z) : Z := arr_get fb (line * 160 + x).

(** Two framebuffers that differ on line [line] at most. *)
Definition same_but_line (line : Z) (fb fb' : list Z) : Prop :=
  length fb' = length fb
  /\ forall l x, 0 <= x < 160 -> l <> line -> pixel fb' l x = pixel fb l x.

(** Every pixel of line [line] is one of the four shades. *)
Definition line_shaded (line : Z) (fb : list Z) : Prop :=
  forall x, 0 <= x < 160 -> 0 <= pixel fb line x <= 3.

(** ** Save states *)

(** Register values as their C++ types hold them. *)
Definition cpu_wf (c : CPU.t) : Prop :=
  is_bytes [CPU.A c; CPU.F c; CPU.B c; CPU.C c; CPU.D c; CPU.E c; CPU.H c;
            CPU.L c]
  /\ 0 <= CPU.SP c < 65536 /\ 0 <= CPU.PC c < 65536
  /\ 0 <= CPU.cycles c < 4294967296.

Definition is_int (x : Z) : Prop := -2147483648 <= x < 2147483648.

Definition cart_wf (c : Cartridge.t) : Prop :=
  Cartridge.size (Cartridge.ram c) < 4294967296
  /\ is_int (Cartridge.rom_bank c) /\ is_int (Cartridge.ram_bank c)
  /\ is_bytes [Cartridge.rtc_seconds c; Cartridge.rtc_minutes c;
               Cartridge.rtc_hours c; Cartridge.rtc_days_low c;
               Cartridge.rtc_days_high c; Cartridge.rtc_latch_state c].

Definition mmu_wf (m : MMU.t) : Prop :=
  is_byte (MMU.ie_register m)
  /\ match MMU.cartridge m with
     | Some c => cart_wf c
     | None => True
     end.

(** The machine a state is loaded into runs the ROM it was saved from: the
    same memory sizes, and the same ROM image, controller type and RAM size
    in the cartridge slot. *)
Definition same_machine (m m' : MMU.t) : Prop :=
  length (MMU.wram m') = length (MMU.wram m)
  /\ length (MMU.vram m') = length (MMU.vram m)
  /\ length (MMU.hram m') = length (MMU.hram m)
  /\ length (MMU.oam m') = length (MMU.oam m)
  /\ length (MMU.io m') = length (MMU.io m)
  /\ match MMU.cartridge m, MMU.cartridge m' with
     | Some c, Some c' =>
         Cartridge.rom c' = Cartridge.rom c
         /\ Cartridge.mbc_type c' = Cartridge.mbc_type c
         /\ length (Cartridge.ram c') = length (Cartridge.ram c)
     | None, None => True
     | _, _ => False
     end.

(** * Verification *)

(** ** Arrays and bytes *)

Lemma arr_get_set_eq (a : list Z) (i v : Z) :
  0 <= i < Z.of_nat (length a) -> arr_get (arr_set a i v) i = v.
Proof.
  intros Hi. unfold arr_get, arr_set.
  destruct (i <? 0) eqn:Hneg; [lia |].
  rewrite list_lookup_insert_eq by lia. reflexivity.
Qed.

Lemma arr_get_set_ne (a : list Z) (i j v : Z) :
  i <> j -> arr_get (arr_set a i v) j = arr_get a j.
Proof.
  intros Hne. unfold arr_get, arr_set.
  destruct (j <? 0) eqn:Hj; [reflexivity |].
  destruct (i <? 0) eqn:Hi; [reflexivity |].
  rewrite list_lookup_insert_ne by lia. reflexivity.
Qed.

(** Reading back a stored zero gives zero, in range or not. *)
Lemma arr_get_set_zero (a : list Z) (i : Z) : arr_get (arr_set a i 0) i = 0.
Proof.
  unfold arr_get, arr_set.
  destruct (i <? 0) eqn:Hneg; [reflexivity |].
  destruct (decide (Z.to_nat i < length a)%nat) as [Hlt | Hge].
  - rewrite list_lookup_insert_eq by lia. reflexivity.
  - rewrite lookup_ge_None_2; [reflexivity |]. rewrite length_insert. lia.
Qed.

Lemma arr_set_length (a : list Z) (i v : Z) :
  length (arr_set a i v) = length a.
Proof.
  unfold arr_set. destruct (i <? 0); [reflexivity |]. apply length_insert.
Qed.

Lemma arr_set_bytes (a : list Z) (i v : Z) :
  is_bytes a -> is_byte v -> is_bytes (arr_set a i v).
Proof.
  unfold is_bytes, arr_set. intros Ha Hv.
  destruct (i <? 0); [done |]. by apply Forall_insert.
Qed.

Lemma arr_get_byte (a : list Z) (i : Z) : is_bytes a -> is_byte (arr_get a i).
Proof.
  unfold is_bytes, arr_get. intros Ha.
  destruct (i <? 0); [unfold is_byte; lia |].
  destruct (a !! Z.to_nat i) as [b |] eqn:Hb; simpl.
  - eapply Forall_lookup_1; eauto.
  - unfold is_byte. lia.
Qed.

Lemma is_bytes_check (a : list Z) :
  forallb (fun b => (0 <=? b) && (b <? 256)) a = true -> is_bytes a.
Proof.
  unfold is_bytes. rewrite forallb_forall, Forall_forall.
  intros H b Hb. apply list_elem_of_In in Hb. specialize (H b Hb).
  unfold is_byte. lia.
Qed.

Lemma u8_byte (x : Z) : is_byte (u8 x).
Proof. unfold is_byte, u8. apply Z.mod_pos_bound. lia. Qed.

Lemma u8_small (x : Z) : is_byte x -> u8 x = x.
Proof. unfold is_byte, u8. intros H. apply Z.mod_small. lia. Qed.

Lemma const_byte (x : Z) : (0 <=? x) && (x <? 256) = true -> is_byte x.
Proof. unfold is_byte. lia. Qed.

Lemma lor_byte (x y : Z) : is_byte x -> is_byte y -> is_byte (Z.lor x y).
Proof.
  unfold is_byte. intros Hx Hy. split.
  - apply Z.lor_nonneg. lia.
  - destruct (Z.eq_dec (Z.lor x y) 0) as [-> | Hnz]; [lia |].
    apply Z.log2_lt_cancel. rewrite Z.log2_lor by lia.
    change (Z.log2 256) with 8.
    assert (Z.log2 x < 8).
    { destruct (Z.eq_dec x 0) as [-> | ?]; [simpl; lia |].
      apply Z.log2_lt_pow2; lia. }
    assert (Z.log2 y < 8).
    { destruct (Z.eq_dec y 0) as [-> | ?]; [simpl; lia |].
      apply Z.log2_lt_pow2; lia. }
    lia.
Qed.

Create HintDb bytes.
#[local] Hint Resolve u8_byte arr_get_byte arr_set_bytes lor_byte : bytes.
#[local] Hint Extern 1 (is_byte _) => (apply const_byte; reflexivity) : bytes.

Lemma u32_add_idem (x n : Z) : u32 (u32 x + n) = u32 (x + n).
Proof. unfold u32. apply Zplus_mod_idemp_l. Qed.

Lemma testbit_u8 (x k : Z) : 0 <= k < 8 -> Z.testbit (u8 x) k = Z.testbit x k.
Proof.
  intros Hk. unfold u8. change 256 with (2 ^ 8).
  apply Z.mod_pow2_bits_low. lia.
Qed.

Lemma nz_land_pow2 (x k : Z) :
  0 <= k -> nz (Z.land x (2 ^ k)) = Z.testbit x k.
Proof.
  intros Hk. unfold nz.
  destruct (Z.testbit x k) eqn:Hb.
  - apply negb_true_iff, Z.eqb_neq. intros H0.
    assert (Hk' : Z.testbit (Z.land x (2 ^ k)) k = true)
      by (rewrite Z.land_spec, Hb, Z.pow2_bits_true; auto).
    rewrite H0, Z.bits_0 in Hk'. discriminate.
  - apply negb_false_iff, Z.eqb_eq. apply Z.bits_inj'. intros n Hn.
    rewrite Z.land_spec, Z.bits_0, Z.pow2_bits_eqb by assumption.
    destruct (Z.eqb_spec k n) as [<- | _];
      [rewrite Hb; reflexivity | apply andb_false_r].
Qed.

(** Read a cell back through a chain of array stores. *)
Ltac arr_simpl :=
  repeat first
    [ rewrite arr_get_set_eq by (rewrite ?arr_set_length; lia)
    | rewrite arr_get_set_ne by lia ].

(** Project a field out of a chain of setters, and nothing more. *)
Ltac mmu_proj :=
  cbn [MMU.io MMU.timer MMU.cartridge MMU.wram MMU.vram MMU.hram MMU.oam
       MMU.joypad MMU.apu MMU.ie_register
       MMU.set_io MMU.set_cartridge MMU.set_vram MMU.set_wram MMU.set_oam
       MMU.set_hram MMU.set_joypad MMU.set_timer MMU.set_apu
       MMU.set_ie_register].

Ltac cpu_proj :=
  cbn [CPU.A CPU.B CPU.C CPU.D CPU.E CPU.F CPU.H CPU.L CPU.SP CPU.PC
       CPU.halted CPU.stopped CPU.ime CPU.ime_scheduled CPU.cycles
       CPU.set_A CPU.set_F CPU.set_SP CPU.set_PC CPU.set_halted
       CPU.set_stopped CPU.set_ime CPU.set_ime_scheduled CPU.set_cycles
       CPU.tick negb fst snd].

Ltac ppu_proj :=
  cbn [PPU.framebuffer PPU.frame_ready PPU.mode PPU.mode_cycles PPU.scanline
       PPU.set_framebuffer PPU.set_frame_ready PPU.set_mode
       PPU.set_mode_cycles PPU.set_scanline fst snd].

(** The registers of the I/O window, as array cells. *)
Lemma io_read (k : Z) (m : MMU.t) :
  0 < k < 0x80 -> MMU.read (0xFF00 + k) m = arr_get (MMU.io m) k.
Proof.
  intros Hk. unfold MMU.read. cbv zeta.
  assert (Hu : u16 (0xFF00 + k) = 0xFF00 + k)
    by (unfold u16; apply Z.mod_small; lia).
  rewrite Hu.
  repeat match goal with
    | |- context [if ?a <? ?b then _ else _] =>
        destruct (a <? b) eqn:?; try lia
    | |- context [if ?a =? ?b then _ else _] =>
        destruct (a =? b) eqn:?; try lia
    end.
  f_equal. lia.
Qed.

Lemma read_u16 (addr : Z) (m : MMU.t) :
  MMU.read (u16 addr) m = MMU.read addr m.
Proof.
  unfold MMU.read. cbv zeta.
  replace (u16 (u16 addr)) with (u16 addr); [reflexivity |].
  unfold u16. rewrite Z.mod_mod; lia.
Qed.

(** ** Timer: the divider *)

Lemma div_body_eq (m : MMU.t) :
  div_body m =
  MMU.set_io (arr_set (MMU.io m) 0x04 0)
             (MMU.set_timer (Timer.mk 0 (Timer.tima_counter (MMU.timer m))) m).
Proof. reflexivity. Qed.

Lemma div_loop_eq (fuel : nat) (m : MMU.t) :
  div_loop (S fuel) m =
  if 64 <=? Timer.div_counter (MMU.timer m) then div_body m else m.
Proof.
  simpl. destruct (64 <=? Timer.div_counter (MMU.timer m)); [| reflexivity].
  destruct fuel; reflexivity.
Qed.

Lemma div_stage_eq (m : MMU.t) :
  div_loop (Z.to_nat (Timer.div_counter (MMU.timer m) / 64)) m =
  if 64 <=? Timer.div_counter (MMU.timer m) then div_body m else m.
Proof.
  destruct (Z.to_nat (Timer.div_counter (MMU.timer m) / 64)) eqn:Hq.
  - simpl.
    destruct (64 <=? Timer.div_counter (MMU.timer m)) eqn:Hg; [| reflexivity].
    assert (1 <= Timer.div_counter (MMU.timer m) / 64)
      by (apply Z.div_le_lower_bound; lia).
    lia.
  - apply div_loop_eq.
Qed.

(** The quotient is enough fuel: the loop is left with its guard false. *)
Lemma div_loop_exit (m : MMU.t) :
  Timer.div_counter
    (MMU.timer (div_loop (Z.to_nat (Timer.div_counter (MMU.timer m) / 64)) m))
  < 64.
Proof.
  rewrite div_stage_eq.
  destruct (64 <=? Timer.div_counter (MMU.timer m)) eqn:Hg.
  - rewrite div_body_eq. simpl. lia.
  - lia.
Qed.

(** ** Timer: the TIMA chain *)

Lemma tima_body_eq (th : Z) (m : MMU.t) :
  tima_body th m =
  let m0 := set_tima_counter (Timer.tima_counter (MMU.timer m) - th) m in
  let tima := arr_get (MMU.io m) 0x05 in
  if tima =? 0xFF then
    let io1 := arr_set (MMU.io m) 0x05 (u8 (arr_get (MMU.io m) 0x06)) in
    MMU.set_io (arr_set io1 0x0F (u8 (Z.lor (arr_get io1 0x0F) 0x04))) m0
  else MMU.set_io (arr_set (MMU.io m) 0x05 (u8 (tima + 1))) m0.
Proof. reflexivity. Qed.

(** The TIMA loop writes 0xFF05 and 0xFF0F only: the divider and every
    other cell of the I/O window are out of its reach. *)
Lemma tima_body_frame (th k : Z) (m : MMU.t) :
  k <> 0x05 -> k <> 0x0F ->
  Timer.div_counter (MMU.timer (tima_body th m))
  = Timer.div_counter (MMU.timer m)
  /\ arr_get (MMU.io (tima_body th m)) k = arr_get (MMU.io m) k.
Proof.
  intros H5 HF. rewrite tima_body_eq. cbv zeta.
  destruct (arr_get (MMU.io m) 5 =? 255); simpl; split; try reflexivity;
    rewrite ?arr_get_set_ne by lia; reflexivity.
Qed.

Lemma tima_loop_frame (fuel : nat) (th k : Z) (m : MMU.t) :
  k <> 0x05 -> k <> 0x0F ->
  Timer.div_counter (MMU.timer (tima_loop fuel th m))
  = Timer.div_counter (MMU.timer m)
  /\ arr_get (MMU.io (tima_loop fuel th m)) k = arr_get (MMU.io m) k.
Proof.
  intros H5 HF. revert m.
  induction fuel as [| fuel IH]; intros m; simpl; [done |].
  destruct (th <=? Timer.tima_counter (MMU.timer m)); [| done].
  destruct (IH (tima_body th m)) as [-> ->]. by apply tima_body_frame.
Qed.

Lemma checkTIMA_frame (cycles k : Z) (m : MMU.t) :
  k <> 0x05 -> k <> 0x0F ->
  Timer.div_counter (MMU.timer (Timer_checkTIMA cycles m))
  = Timer.div_counter (MMU.timer m)
  /\ arr_get (MMU.io (Timer_checkTIMA cycles m)) k = arr_get (MMU.io m) k.
Proof.
  intros H5 HF. unfold Timer_checkTIMA.
  destruct (negb (nz (Z.land (MMU.read 65287 m) 4))); [done |].
  cbv zeta.
  match goal with
  | |- context [tima_loop ?f ?t ?x] =>
      destruct (tima_loop_frame f t k x H5 HF) as [-> ->]
  end.
  done.
Qed.

Lemma tima_body_counter (th : Z) (m : MMU.t) :
  Timer.tima_counter (MMU.timer (tima_body th m))
  = Timer.tima_counter (MMU.timer m) - th.
Proof.
  rewrite tima_body_eq. cbv zeta.
  destruct (arr_get (MMU.io m) 5 =? 255); reflexivity.
Qed.

Lemma tima_loop_counter (n : nat) (th : Z) (m : MMU.t) :
  0 < th ->
  th * Z.of_nat n <= Timer.tima_counter (MMU.timer m) ->
  Timer.tima_counter (MMU.timer (tima_loop n th m))
  = Timer.tima_counter (MMU.timer m) - th * Z.of_nat n.
Proof.
  intros Hth. revert m. induction n as [| n IH]; intros m Hc.
  - simpl. lia.
  - cbn [tima_loop].
    destruct (th <=? Timer.tima_counter (MMU.timer m)) eqn:Hg; [| lia].
    rewrite IH; rewrite tima_body_counter; lia.
Qed.

Lemma tima_threshold_pos (tac : Z) : 0 < tima_threshold tac.
Proof.
  unfold tima_threshold. cbv zeta.
  repeat match goal with
    | |- context [if ?b then _ else _] => destruct b
    end; lia.
Qed.

(** Both loops of [Timer::step] are left with their guards false, on every
    bus and for every cycle count: the quotients are enough fuel. *)
Lemma Timer_step_loops_exit (cycles : Z) (m : MMU.t) :
  Timer.div_counter (MMU.timer (Timer_step cycles m)) < 64
  /\ (nz (Z.land (MMU.read 0xFF07 (Timer_step cycles m)) 0x04) = true ->
      Timer.tima_counter (MMU.timer (Timer_step cycles m))
      < tima_threshold (MMU.read 0xFF07 (Timer_step cycles m))).
Proof.
  unfold Timer_step. cbv zeta.
  set (m0 := set_div_counter _ m).
  pose proof (div_loop_exit m0) as Hdiv.
  set (m1 := div_loop _ m0) in *.
  split.
  - destruct (checkTIMA_frame cycles 0x07 m1) as [-> _]; [lia | lia |].
    exact Hdiv.
  - change (MMU.read 0xFF07 ?x) with (arr_get (MMU.io x) 0x07).
    destruct (checkTIMA_frame cycles 0x07 m1) as [_ ->]; [lia | lia |].
    unfold Timer_checkTIMA.
    change (MMU.read 0xFF07 m1) with (arr_get (MMU.io m1) 0x07).
    set (tac := arr_get (MMU.io m1) 0x07).
    destruct (negb (nz (Z.land tac 4))) eqn:Hen.
    + intros H. rewrite H in Hen. discriminate.
    + cbv zeta. intros _.
      set (c := Timer.tima_counter (MMU.timer m1) + cycles).
      set (m2 := set_tima_counter c m1).
      change (Timer.tima_counter (MMU.timer m2)) with c.
      pose proof (tima_threshold_pos tac) as Hth.
      destruct (Z_lt_le_dec c 0) as [Hneg | Hpos].
      * assert (Hq : c / tima_threshold tac < 0)
          by (apply Z.div_lt_upper_bound; lia).
        replace (Z.to_nat (c / tima_threshold tac)) with 0%nat by lia.
        cbn [tima_loop]. change (Timer.tima_counter (MMU.timer m2)) with c.
        lia.
      * pose proof (Z.div_mod c (tima_threshold tac) ltac:(lia)).
        pose proof (Z.mod_pos_bound c (tima_threshold tac) Hth).
        assert (0 <= c / tima_threshold tac) by (apply Z.div_pos; lia).
        rewrite tima_loop_counter;
          change (Timer.tima_counter (MMU.timer m2)) with c;
          rewrite ?Z2Nat.id by lia; lia.
Qed.

Lemma Timer_step_DIV (cycles : Z) (m : MMU.t) :
  MMU.read 0xFF04 (Timer_step cycles m)
  = (if 64 <=? Timer.div_counter (MMU.timer m) + cycles
     then 0 else MMU.read 0xFF04 m).
Proof.
  unfold Timer_step. cbv zeta.
  change (MMU.read 0xFF04 ?x) with (arr_get (MMU.io x) 0x04).
  match goal with
  | |- context [Timer_checkTIMA ?c ?x] =>
      destruct (checkTIMA_frame c 0x04 x) as [_ ->]; [lia | lia |]
  end.
  rewrite div_stage_eq.
  change (Timer.div_counter (MMU.timer (set_div_counter ?d m))) with d.
  destruct (64 <=? Timer.div_counter (MMU.timer m) + cycles).
  - rewrite div_body_eq. simpl. apply arr_get_set_zero.
  - reflexivity.
Qed.

Lemma Timer_run_DIV (cs : list Z) (m : MMU.t) :
  MMU.read 0xFF04 m = 0 -> MMU.read 0xFF04 (Timer_run cs m) = 0.
Proof.
  revert m. induction cs as [| c cs IH]; intros m H0; [exact H0 |].
  cbn [Timer_run fold_left]. apply IH. rewrite Timer_step_DIV, H0.
  destruct (64 <=? Timer.div_counter (MMU.timer m) + c); reflexivity.
Qed.

(** C1.  The visible divider never counts.  The store that [Timer::step]
    issues through [MMU::write] runs the reset of address 0xFF04, although
    the comment at that store says that a direct store was meant.  Whenever
    the accumulated cycles reach 64, DIV reads 0 after the step (not the old
    value plus one); otherwise DIV is unchanged; so from power-on DIV reads
    0 after every run of steps, for instance after one step of 64 cycles.
    A bus write to 0xFF04 clears both DIV and the accumulator, as stated. *)
Theorem Timer_step_DIV_stuck (cycles v : Z) (cs : list Z) (m : MMU.t) :
  MMU.read 0xFF04 (Timer_step cycles m)
  = (if 64 <=? Timer.div_counter (MMU.timer m) + cycles
     then 0 else MMU.read 0xFF04 m)
  /\ MMU.read 0xFF04 (Timer_run cs MMU.new) = 0
  /\ MMU.read 0xFF04 (Timer_step 64 MMU.new) = 0
  /\ MMU.read 0xFF04 (MMU.write 0xFF04 v m) = 0
  /\ Timer.div_counter (MMU.timer (MMU.write 0xFF04 v m)) = 0.
Proof.
  split; [apply Timer_step_DIV |].
  split; [apply Timer_run_DIV; reflexivity |].
  split; [vm_compute; reflexivity |].
  split; [| reflexivity].
  change (MMU.read 0xFF04 ?x) with (arr_get (MMU.io x) 0x04). simpl.
  apply arr_get_set_zero.
Qed.

Lemma timer_keeps_refl (m : MMU.t) : io_ok m -> timer_keeps m m.
Proof. unfold timer_keeps. auto. Qed.

Lemma timer_keeps_trans (m1 m2 m3 : MMU.t) :
  timer_keeps m1 m2 -> timer_keeps m2 m3 -> timer_keeps m1 m3.
Proof.
  unfold timer_keeps. intros (_ & H6 & H7) (Hok & H6' & H7').
  repeat split; try apply Hok; congruence.
Qed.

Lemma tima_body_spec (th : Z) (m : MMU.t) :
  io_ok m ->
  timer_keeps m (tima_body th m)
  /\ timer_regs (tima_body th m) = tima_tick (MMU.read 0xFF06 m) (timer_regs m)
  /\ Timer.tima_counter (MMU.timer (tima_body th m))
     = Timer.tima_counter (MMU.timer m) - th.
Proof.
  intros [Hlen Hbytes].
  rewrite tima_body_eq. cbv zeta.
  unfold timer_keeps, timer_regs, tima_tick, io_ok.
  change (MMU.read 0xFF05 ?x) with (arr_get (MMU.io x) 0x05).
  change (MMU.read 0xFF06 ?x) with (arr_get (MMU.io x) 0x06).
  change (MMU.read 0xFF07 ?x) with (arr_get (MMU.io x) 0x07).
  change (MMU.read 0xFF0F ?x) with (arr_get (MMU.io x) 0x0F).
  pose proof (arr_get_byte (MMU.io m) 0x05 Hbytes) as H5.
  destruct (arr_get (MMU.io m) 5 =? 255) eqn:Hov; simpl.
  - rewrite !arr_set_length.
    rewrite (arr_get_set_ne _ 5 15) by lia.
    rewrite (u8_small (arr_get (MMU.io m) 6)) by auto with bytes.
    rewrite (u8_small (Z.lor _ _)) by auto with bytes.
    arr_simpl.
    repeat split; try reflexivity; try assumption. auto 6 with bytes.
  - apply Z.eqb_neq in Hov. unfold is_byte in H5.
    rewrite !arr_set_length.
    rewrite (u8_small (_ + 1)) by (unfold is_byte; lia).
    arr_simpl.
    repeat split; try reflexivity; try assumption.
    apply arr_set_bytes; [assumption | unfold is_byte; lia].
Qed.

Lemma iter_tick_add (a b : nat) (tma : Z) (r : Z * Z) :
  iter_tick (a + b) tma r = iter_tick b tma (iter_tick a tma r).
Proof.
  revert r. induction a as [| a IH]; intros r; simpl; [done | apply IH].
Qed.

(** [n] passes of the loop when the accumulator holds at least [n]
    periods. *)
Lemma tima_loop_spec (n : nat) (th : Z) (m : MMU.t) :
  io_ok m -> 0 < th ->
  th * Z.of_nat n <= Timer.tima_counter (MMU.timer m) ->
  timer_keeps m (tima_loop n th m)
  /\ timer_regs (tima_loop n th m)
     = iter_tick n (MMU.read 0xFF06 m) (timer_regs m)
  /\ Timer.tima_counter (MMU.timer (tima_loop n th m))
     = Timer.tima_counter (MMU.timer m) - th * Z.of_nat n.
Proof.
  revert m. induction n as [| n IH]; intros m Hok Hth Hc.
  - simpl. repeat split; try apply Hok; lia.
  - cbn [tima_loop iter_tick].
    destruct (th <=? Timer.tima_counter (MMU.timer m)) eqn:Hg; [| lia].
    destruct (tima_body_spec th m Hok) as (Hk & Hr & Hcnt).
    destruct (IH (tima_body th m)) as (Hk' & Hr' & Hcnt');
      [apply Hk | assumption | lia |].
    split; [eapply timer_keeps_trans; eassumption |].
    split.
    + rewrite Hr', Hr. destruct Hk as (_ & -> & _). reflexivity.
    + lia.
Qed.

Lemma checkTIMA_spec (cycles : Z) (m : MMU.t) :
  io_ok m -> MMU.read 0xFF07 m = 0x05 ->
  0 <= Timer.tima_counter (MMU.timer m) + cycles ->
  timer_keeps m (Timer_checkTIMA cycles m)
  /\ timer_regs (Timer_checkTIMA cycles m)
     = iter_tick (Z.to_nat ((Timer.tima_counter (MMU.timer m) + cycles) / 4))
                 (MMU.read 0xFF06 m) (timer_regs m)
  /\ Timer.tima_counter (MMU.timer (Timer_checkTIMA cycles m))
     = (Timer.tima_counter (MMU.timer m) + cycles) mod 4.
Proof.
  intros Hok Htac Hc.
  unfold Timer_checkTIMA. rewrite Htac.
  change (negb (nz (Z.land 5 4))) with false.
  change (tima_threshold 5) with 4. cbv iota zeta.
  set (c := Timer.tima_counter (MMU.timer m) + cycles) in *.
  set (m0 := set_tima_counter c m).
  change (Timer.tima_counter (MMU.timer m0)) with c.
  assert (Hok0 : io_ok m0) by exact Hok.
  pose proof (Z.div_mod c 4 ltac:(lia)) as Hdm.
  pose proof (Z.mod_pos_bound c 4 ltac:(lia)) as Hmod.
  assert (Hq : 0 <= c / 4) by (apply Z.div_pos; lia).
  destruct (tima_loop_spec (Z.to_nat (c / 4)) 4 m0) as (Hk & Hr & Hcnt);
    [assumption | lia
     | rewrite Z2Nat.id by lia;
       change (Timer.tima_counter (MMU.timer m0)) with c; lia |].
  split; [exact Hk |]. split; [exact Hr |].
  rewrite Hcnt. change (Timer.tima_counter (MMU.timer m0)) with c.
  rewrite Z2Nat.id by lia. lia.
Qed.

(** The divider stage leaves the TIMA chain alone. *)
Lemma div_stage_keeps (cycles : Z) (m : MMU.t) :
  io_ok m ->
  let m0 := set_div_counter (Timer.div_counter (MMU.timer m) + cycles) m in
  let m1 := div_loop (Z.to_nat (Timer.div_counter (MMU.timer m0) / 64)) m0 in
  timer_keeps m m1
  /\ timer_regs m1 = timer_regs m
  /\ Timer.tima_counter (MMU.timer m1) = Timer.tima_counter (MMU.timer m).
Proof.
  intros [Hlen Hbytes] m0 m1. subst m1. rewrite div_stage_eq.
  destruct (64 <=? Timer.div_counter (MMU.timer m0)).
  - rewrite div_body_eq.
    unfold timer_keeps, timer_regs, io_ok.
    change (MMU.read 0xFF05 ?x) with (arr_get (MMU.io x) 0x05).
    change (MMU.read 0xFF06 ?x) with (arr_get (MMU.io x) 0x06).
    change (MMU.read 0xFF07 ?x) with (arr_get (MMU.io x) 0x07).
    change (MMU.read 0xFF0F ?x) with (arr_get (MMU.io x) 0x0F).
    simpl. rewrite arr_set_length, !arr_get_set_ne by lia.
    repeat split; try assumption. auto with bytes.
  - repeat split; assumption.
Qed.

Lemma Timer_step_spec (cycles : Z) (m : MMU.t) :
  io_ok m -> MMU.read 0xFF07 m = 0x05 ->
  0 <= Timer.tima_counter (MMU.timer m) + cycles ->
  timer_keeps m (Timer_step cycles m)
  /\ timer_regs (Timer_step cycles m)
     = iter_tick (Z.to_nat ((Timer.tima_counter (MMU.timer m) + cycles) / 4))
                 (MMU.read 0xFF06 m) (timer_regs m)
  /\ Timer.tima_counter (MMU.timer (Timer_step cycles m))
     = (Timer.tima_counter (MMU.timer m) + cycles) mod 4.
Proof.
  intros Hok Htac Hc. unfold Timer_step. cbv zeta.
  destruct (div_stage_keeps cycles m Hok) as (Hk & Hr & Hcnt).
  cbv zeta in Hk, Hr, Hcnt.
  set (m1 := div_loop _ _) in *.
  destruct Hk as (Hok1 & H6 & H7).
  destruct (checkTIMA_spec cycles m1) as (Hk' & Hr' & Hcnt');
    [assumption | congruence | rewrite Hcnt; exact Hc |].
  rewrite Hcnt in Hr', Hcnt'. rewrite Hr, H6 in Hr'.
  split; [| split; assumption].
  eapply timer_keeps_trans; [| exact Hk'].
  split; [exact Hok1 | split; assumption].
Qed.

Lemma total_nonneg (cs : list Z) :
  Forall (fun c => 0 <= c) cs -> 0 <= total cs.
Proof. induction 1; simpl; lia. Qed.

Lemma Timer_run_spec (cs : list Z) (m : MMU.t) :
  io_ok m -> MMU.read 0xFF07 m = 0x05 ->
  Forall (fun c => 0 <= c) cs ->
  0 <= Timer.tima_counter (MMU.timer m) < 4 ->
  timer_keeps m (Timer_run cs m)
  /\ timer_regs (Timer_run cs m)
     = iter_tick
         (Z.to_nat ((Timer.tima_counter (MMU.timer m) + total cs) / 4))
         (MMU.read 0xFF06 m) (timer_regs m)
  /\ Timer.tima_counter (MMU.timer (Timer_run cs m))
     = (Timer.tima_counter (MMU.timer m) + total cs) mod 4.
Proof.
  revert m. induction cs as [| c cs IH]; intros m Hok Htac Hcs Htc.
  - simpl. rewrite Z.add_0_r, Z.div_small, Z.mod_small by lia.
    split; [by apply timer_keeps_refl | done].
  - inversion Hcs as [| ? ? Hc Hcs']; subst.
    pose proof (total_nonneg cs Hcs') as Hrest.
    cbn [Timer_run fold_left total fold_right].
    fold (total cs). fold (Timer_run cs (Timer_step c m)).
    set (tc := Timer.tima_counter (MMU.timer m)) in *.
    destruct (Timer_step_spec c m Hok Htac) as (Hk & Hr & Hcnt);
      [fold tc; lia |]. fold tc in Hr, Hcnt.
    pose proof (Z.div_mod (tc + c) 4 ltac:(lia)) as Hdm.
    pose proof (Z.mod_pos_bound (tc + c) 4 ltac:(lia)) as Hmod.
    assert (Hq : 0 <= (tc + c) / 4) by (apply Z.div_pos; lia).
    destruct Hk as (Hok1 & H6 & H7).
    destruct (IH (Timer_step c m)) as (Hk' & Hr' & Hcnt');
      [assumption | congruence | assumption | rewrite Hcnt; lia |].
    rewrite Hcnt in Hr', Hcnt'. rewrite Hr, H6 in Hr'.
    assert (Hsplit : tc + (c + total cs)
                     = (tc + c) / 4 * 4 + ((tc + c) mod 4 + total cs)) by lia.
    assert (Hq2 : 0 <= ((tc + c) mod 4 + total cs) / 4)
      by (apply Z.div_pos; lia).
    split; [| split].
    + eapply timer_keeps_trans; [| exact Hk'].
      split; [exact Hok1 | split; assumption].
    + rewrite Hr', Hsplit, Z.div_add_l, Z2Nat.inj_add, iter_tick_add by lia.
      reflexivity.
    + rewrite Hcnt', Hsplit.
      rewrite (Z.add_comm (_ * 4)), Z.mod_add by lia. reflexivity.
Qed.

(** C2.  With TAC = 0x05 and less than one period in the accumulator (as in
    a new timer), every run of [Timer::step] calls whose cycle counts add up
    to 4*N applies the TIMA period N times: each period increments TIMA,
    and one that starts from 0xFF reloads TIMA from TMA and sets IF bit 2.
    TMA and TAC are left as they were. *)
Theorem Timer_TAC5_ticks (N : nat) (cs : list Z) (m : MMU.t) :
  io_ok m ->
  MMU.read 0xFF07 m = 0x05 ->
  0 <= Timer.tima_counter (MMU.timer m) < 4 ->
  Forall (fun c => 0 <= c) cs ->
  total cs = Z.of_nat N * 4 ->
  timer_regs (Timer_run cs m)
  = iter_tick N (MMU.read 0xFF06 m) (timer_regs m)
  /\ MMU.read 0xFF06 (Timer_run cs m) = MMU.read 0xFF06 m
  /\ MMU.read 0xFF07 (Timer_run cs m) = 0x05.
Proof.
  intros Hok Htac Htc Hcs Htot.
  destruct (Timer_run_spec cs m Hok Htac Hcs Htc) as ((_ & H6 & H7) & Hr & _).
  rewrite Hr, Htot, Z.add_comm, Z.div_add_l, Z.div_small by lia.
  rewrite Z.add_0_r, Nat2Z.id. repeat split; congruence.
Qed.

Lemma Timer_TAC5_ticks_witness :
  timer_regs (Timer_run [4; 8; 3; 1] tac5_mmu)
  = iter_tick 4 (MMU.read 0xFF06 tac5_mmu) (timer_regs tac5_mmu)
  /\ MMU.read 0xFF06 (Timer_run [4; 8; 3; 1] tac5_mmu)
     = MMU.read 0xFF06 tac5_mmu
  /\ MMU.read 0xFF07 (Timer_run [4; 8; 3; 1] tac5_mmu) = 0x05.
Proof.
  apply (Timer_TAC5_ticks 4 [4; 8; 3; 1] tac5_mmu).
  - split; [reflexivity | apply is_bytes_check; vm_compute; reflexivity].
  - reflexivity.
  - simpl. lia.
  - repeat constructor; lia.
  - reflexivity.
Defined.

(** C2, as stated for every timer with TAC = 0x05, fails when cycles are
    already accumulated: after 200 cycles at TAC = 0x04 and a write of 0x05
    to TAC, a step of 4 cycles (N = 1) increments TIMA 51 times, from 0 to
    51. *)
Lemma Timer_TAC5_counterexample :
  MMU.read 0xFF07 tac5_late_mmu = 0x05
  /\ total [4] = Z.of_nat 1 * 4
  /\ MMU.read 0xFF05 tac5_late_mmu = 0
  /\ MMU.read 0xFF05 (Timer_run [4] tac5_late_mmu) = 51
  /\ timer_regs (Timer_run [4] tac5_late_mmu)
     <> iter_tick 1 (MMU.read 0xFF06 tac5_late_mmu)
                  (timer_regs tac5_late_mmu).
Proof.
  repeat split; try (vm_compute; reflexivity).
  vm_compute. discriminate.
Qed.

(** 1000 periods from TIMA = 0 with TMA = 0xF0: TIMA ends at 0xF8 and the
    timer interrupt is flagged. *)
Example Timer_TAC5_4000_cycles :
  timer_regs (Timer_run [4000] tac5_mmu) = (0xF8, 0xE4).
Proof. vm_compute. reflexivity. Qed.

(** ** The bus and the IF register *)

Lemma doDMATransfer_io (value : Z) (m : MMU.t) :
  MMU.io (MMU.doDMATransfer value m) = MMU.io m.
Proof.
  unfold MMU.doDMATransfer. cbv zeta.
  generalize (seq 0 160). intros l. revert m.
  induction l as [| i l IH]; intros m; cbn [fold_left]; [done |].
  rewrite IH. reflexivity.
Qed.

(** Split on the address decoding of [MMU::write]. *)
Ltac decode_write :=
  unfold MMU.write; cbv zeta;
  repeat match goal with
    | |- context [if ?a <? ?b then _ else _] => destruct (a <? b) eqn:?
    | |- context [if ?a =? ?b then _ else _] => destruct (a =? b) eqn:?
    | |- context [if ?a && ?b then _ else _] => destruct (a && b) eqn:?
    | |- context [match MMU.cartridge ?m with _ => _ end] =>
        destruct (MMU.cartridge m)
    end.

Lemma write_io_length (addr value : Z) (m : MMU.t) :
  length (MMU.io (MMU.write addr value m)) = length (MMU.io m).
Proof.
  decode_write; mmu_proj; rewrite ?arr_set_length, ?doDMATransfer_io;
    reflexivity.
Qed.

(** A write anywhere else leaves the stored IF byte alone. *)
Lemma write_IF_other (addr value : Z) (m : MMU.t) :
  u16 addr <> 0xFF0F ->
  MMU.read 0xFF0F (MMU.write addr value m) = MMU.read 0xFF0F m.
Proof.
  intros Hne.
  change (MMU.read 0xFF0F ?x) with (arr_get (MMU.io x) 0x0F).
  decode_write; mmu_proj; rewrite ?doDMATransfer_io; try reflexivity;
    apply arr_get_set_ne; lia.
Qed.

(** A write to 0xFF0F is read back as it was stored: no bit is forced. *)
Lemma write_IF_same (value : Z) (m : MMU.t) :
  length (MMU.io m) = 128%nat ->
  MMU.read 0xFF0F (MMU.write 0xFF0F value m) = u8 value.
Proof.
  intros Hlen.
  change (MMU.read 0xFF0F ?x) with (arr_get (MMU.io x) 0x0F).
  change (MMU.write 0xFF0F value m)
    with (MMU.set_io (arr_set (MMU.io m) 0x0F (u8 value)) m).
  mmu_proj. apply arr_get_set_eq. lia.
Qed.

Lemma upper3_u8 (x : Z) : upper3 (u8 x) = upper3 x.
Proof.
  unfold upper3, u8. change 256 with (2 ^ 8).
  rewrite <- Z.land_ones by lia. rewrite <- Z.land_assoc. reflexivity.
Qed.

Lemma bus_writes_IF (ws : list (Z * Z)) (m : MMU.t) :
  forallb IF_write_keeps ws = true ->
  length (MMU.io m) = 128%nat ->
  upper3 (MMU.read 0xFF0F m) = 0xE0 ->
  upper3 (MMU.read 0xFF0F (bus_writes ws m)) = 0xE0.
Proof.
  revert m. induction ws as [| [a x] ws IH]; intros m Hws Hlen H0;
    [exact H0 |].
  cbn [forallb] in Hws. apply andb_true_iff in Hws as [Hw Hws].
  cbn [bus_writes fold_left fst snd]. apply (IH _ Hws).
  - rewrite write_io_length. exact Hlen.
  - unfold IF_write_keeps in Hw. cbn [fst snd] in Hw.
    destruct (u16 a =? 0xFF0F) eqn:Ha.
    + apply Z.eqb_eq in Ha. cbn [negb orb] in Hw. apply Z.eqb_eq in Hw.
      replace (MMU.write a x m) with (MMU.write 0xFF0F x m)
        by (unfold MMU.write; rewrite Ha; reflexivity).
      rewrite write_IF_same by exact Hlen.
      rewrite upper3_u8. exact Hw.
    + apply Z.eqb_neq in Ha. rewrite write_IF_other by exact Ha. exact H0.
Qed.

(** C3, as the code has it.  [MMU::read] returns the stored IF byte and
    forces nothing.  The byte is 0xE0 after construction, and a value
    written to 0xFF0F is read back as it was written; so bits 5-7 read as 1
    after every sequence of bus writes from power-on in which each value
    written to 0xFF0F has these bits set. *)
Theorem IF_upper_bits_stored (ws : list (Z * Z)) (v : Z) (m : MMU.t) :
  length (MMU.io m) = 128%nat ->
  forallb IF_write_keeps ws = true ->
  MMU.read 0xFF0F MMU.new = 0xE0
  /\ MMU.read 0xFF0F (MMU.write 0xFF0F v m) = u8 v
  /\ upper3 (MMU.read 0xFF0F (bus_writes ws MMU.new)) = 0xE0.
Proof.
  intros Hlen Hws.
  split; [reflexivity |]. split; [by apply write_IF_same |].
  apply bus_writes_IF; [exact Hws | reflexivity | reflexivity].
Qed.

Lemma IF_upper_bits_stored_witness :
  MMU.read 0xFF0F MMU.new = 0xE0
  /\ MMU.read 0xFF0F (MMU.write 0xFF0F 0xE4 MMU.new) = u8 0xE4
  /\ upper3 (MMU.read 0xFF0F (bus_writes IF_stored_writes MMU.new)) = 0xE0.
Proof.
  apply (IF_upper_bits_stored IF_stored_writes 0xE4 MMU.new); reflexivity.
Defined.

(** C3, as stated, fails: after the CPU writes 0x00 to 0xFF0F the bus reads
    0x00 there, with bits 5-7 clear. *)
Lemma IF_upper_bits_counterexample :
  MMU.read 0xFF0F (bus_writes [(0xFF0F, 0x00)] MMU.new) = 0x00
  /\ upper3 (MMU.read 0xFF0F (bus_writes [(0xFF0F, 0x00)] MMU.new)) <> 0xE0.
Proof. split; [reflexivity | vm_compute; discriminate]. Qed.

(** ** CPU: interrupt dispatch *)

Lemma service_effect (i IF : Z) (c : CPU.t) (m : MMU.t) :
  let s := CPU.service i IF (c, m) in
  CPU.cycles (fst s) = u32 (CPU.cycles c + 28)
  /\ CPU.ime (fst s) = false
  /\ CPU.halted (fst s) = false
  /\ CPU.PC (fst s) = u16 (0x0040 + i * 0x08)
  /\ CPU.SP (fst s) = u16 (CPU.SP c - 2)
  /\ snd s
     = MMU.write (u16 (CPU.SP c - 2) + 1) (Z.shiftr (CPU.PC c) 8)
         (MMU.write (u16 (CPU.SP c - 2)) (Z.land (CPU.PC c) 0xFF)
            (MMU.write 0xFF0F (Z.land IF (Z.lnot (Z.shiftl 1 i))) m)).
Proof.
  unfold CPU.service, CPU.push16, CPU.write16, CPU.write8. cpu_proj.
  repeat (rewrite u32_add_idem; rewrite <- ?Z.add_assoc).
  repeat split.
Qed.

Lemma low5_range (x : Z) : 0 <= Z.land x 0x1F < 32.
Proof.
  change 0x1F with (Z.ones 5). rewrite Z.land_ones by lia.
  apply Z.mod_pos_bound. lia.
Qed.

(** A non-zero 5-bit mask has one of the bits 0..4 set. *)
Lemma low5_has_bit (t : Z) :
  0 < t < 32 ->
  existsb (fun i => nz (Z.land t (Z.shiftl 1 i))) [0; 1; 2; 3; 4] = true.
Proof.
  intros Ht.
  assert (H : exists k : nat, t = Z.of_nat k /\ (k < 32)%nat)
    by (exists (Z.to_nat t); lia).
  destruct H as (k & -> & Hk).
  do 32 (destruct k as [| k]; [try lia; reflexivity |]). lia.
Qed.

Lemma dispatch_serves (todo : list Z) (t IF : Z) (s : CPU.t * MMU.t) :
  existsb (fun i => nz (Z.land t (Z.shiftl 1 i))) todo = true ->
  exists i, In i todo /\ CPU.dispatch todo t IF s = CPU.service i IF s.
Proof.
  induction todo as [| i todo IH]; cbn [existsb CPU.dispatch];
    [discriminate |].
  destruct (nz (Z.land t (Z.shiftl 1 i))).
  - intros _. exists i. split; [by left | reflexivity].
  - intros H. destruct (IH H) as (j & Hj & ->).
    exists j. split; [by right | done].
Qed.

Lemma handleInterrupts_serves (c : CPU.t) (m : MMU.t) :
  CPU.ime c = true -> pending m <> 0 ->
  exists i, In i [0; 1; 2; 3; 4]
    /\ CPU.handleInterrupts (c, m) = CPU.service i (MMU.read 0xFF0F m) (c, m).
Proof.
  intros Hime Hpend. unfold CPU.handleInterrupts. rewrite Hime.
  cbn [negb]. fold (pending m).
  destruct (pending m =? 0) eqn:Hz; [apply Z.eqb_eq in Hz; contradiction |].
  apply dispatch_serves, low5_has_bit.
  pose proof (low5_range (Z.land (MMU.read 0xFF0F m) (MMU.read 0xFFFF m))).
  unfold pending in *. lia.
Qed.

(** C5.  Servicing a pending interrupt charges 28 T-cycles, not 20: the two
    [write8] calls of [push16] have charged 4 each before the 20 are added,
    while the comment at [cycles += 20] counts the 5 M-cycles of a whole
    dispatch.  The rest of the dispatch is as stated: IME cleared, PC
    pushed, PC at the vector of one of the five interrupts. *)
Theorem handleInterrupts_charges_28 (c : CPU.t) (m : MMU.t) :
  CPU.ime c = true -> pending m <> 0 ->
  let s := CPU.handleInterrupts (c, m) in
  CPU.cycles (fst s) = u32 (CPU.cycles c + 28)
  /\ CPU.ime (fst s) = false
  /\ CPU.SP (fst s) = u16 (CPU.SP c - 2)
  /\ exists i, In i [0; 1; 2; 3; 4] /\ CPU.PC (fst s) = 0x0040 + i * 0x08.
Proof.
  intros Hime Hpend.
  destruct (handleInterrupts_serves c m Hime Hpend) as (i & Hi & Heq).
  cbv zeta. rewrite Heq.
  destruct (service_effect i (MMU.read 0xFF0F m) c m)
    as (Hc & Hi' & _ & Hpc & Hsp & _).
  repeat split; try assumption.
  exists i. split; [assumption |]. rewrite Hpc.
  cbn [In] in Hi. unfold u16.
  destruct Hi as [<- | [<- | [<- | [<- | [<- | []]]]]]; reflexivity.
Qed.

Lemma handleInterrupts_charges_28_witness :
  CPU.cycles (fst (CPU.handleInterrupts (irq_cpu, irq_mmu)))
  = u32 (CPU.cycles irq_cpu + 28)
  /\ CPU.ime (fst (CPU.handleInterrupts (irq_cpu, irq_mmu))) = false
  /\ CPU.SP (fst (CPU.handleInterrupts (irq_cpu, irq_mmu)))
     = u16 (CPU.SP irq_cpu - 2)
  /\ exists i, In i [0; 1; 2; 3; 4]
       /\ CPU.PC (fst (CPU.handleInterrupts (irq_cpu, irq_mmu)))
          = 0x0040 + i * 0x08.
Proof.
  apply (handleInterrupts_charges_28 irq_cpu irq_mmu).
  - reflexivity.
  - vm_compute. discriminate.
Defined.

Example handleInterrupts_28_after_reset :
  CPU.cycles (fst (CPU.handleInterrupts (irq_cpu, irq_mmu))) = 28.
Proof. vm_compute. reflexivity. Qed.

(** ** CPU: HALT *)

(** C10, as the code has it.  A step of a halted CPU with nothing pending
    adds 4 to the cycle counter and leaves the bus, PC, SP, the eight
    registers and the halted flag as they were.  IME is not in the frame:
    [CPU::step] applies a scheduled EI before it looks at [halted], so IME
    becomes [ime || ime_scheduled] and the schedule is cleared; with no EI
    scheduled IME is unchanged as well. *)
Theorem halted_step_frame (c : CPU.t) (m : MMU.t) :
  CPU.halted c = true -> pending m = 0 ->
  CPU.step (c, m)
  = Some (CPU.mk (CPU.A c) (CPU.B c) (CPU.C c) (CPU.D c) (CPU.E c) (CPU.F c)
                 (CPU.H c) (CPU.L c) (CPU.SP c) (CPU.PC c)
                 true (CPU.stopped c)
                 (CPU.ime c || CPU.ime_scheduled c) false
                 (u32 (CPU.cycles c + 4)),
          m).
Proof.
  intros Hh Hp. unfold CPU.step, pending in *.
  destruct c as [a b cc d e f h l sp pc hl st im ims cy].
  cbn [CPU.halted] in Hh. subst hl.
  destruct ims; cpu_proj; rewrite Hp; cbn [nz Z.eqb negb];
    rewrite ?orb_true_r, ?orb_false_r; reflexivity.
Qed.

Lemma halted_step_frame_witness :
  CPU.step (halted_ei_cpu, MMU.new)
  = Some (CPU.mk 0x01 0x00 0x13 0x00 0xD8 0xB0 0x01 0x4D 0xFFFE 0x0100
                 true false true false 4,
          MMU.new).
Proof.
  apply (halted_step_frame halted_ei_cpu MMU.new); reflexivity.
Defined.

(** C10, as stated, fails on a halted CPU with an EI scheduled and IE = 0:
    the step turns IME on, so not everything but the cycle counter is
    unchanged. *)
Lemma halted_step_counterexample :
  CPU.halted halted_ei_cpu = true
  /\ pending MMU.new = 0
  /\ CPU.ime halted_ei_cpu = false
  /\ option_map (fun s => CPU.ime (fst s)) (CPU.step (halted_ei_cpu, MMU.new))
     = Some true
  /\ CPU.step (halted_ei_cpu, MMU.new)
     <> Some (CPU.set_cycles (u32 (CPU.cycles halted_ei_cpu + 4))
                             halted_ei_cpu,
              MMU.new).
Proof.
  repeat split; try reflexivity.
  intros H.
  apply (f_equal (option_map (fun s => CPU.ime (fst s)))) in H.
  vm_compute in H. discriminate.
Qed.

Lemma service_flags (i IF : Z) (s : CPU.t * MMU.t) :
  CPU.ime_scheduled (fst (CPU.service i IF s)) = CPU.ime_scheduled (fst s)
  /\ CPU.halted (fst (CPU.service i IF s)) = false.
Proof. destruct s as [c m]. split; reflexivity. Qed.

Lemma handleInterrupts_flags (s : CPU.t * MMU.t) :
  CPU.ime_scheduled (fst (CPU.handleInterrupts s)) = CPU.ime_scheduled (fst s)
  /\ (CPU.halted (fst (CPU.handleInterrupts s)) = true ->
      CPU.halted (fst s) = true).
Proof.
  destruct s as [c m]. unfold CPU.handleInterrupts.
  destruct (negb (CPU.ime c)); [done |].
  cbv zeta. destruct (_ =? 0); [done |].
  generalize [0; 1; 2; 3; 4]. intros todo.
  induction todo as [| i todo IH]; cbn [CPU.dispatch]; [done |].
  destruct (nz _); [| exact IH].
  destruct (service_flags i (MMU.read 0xFF0F m) (c, m)) as [-> ->].
  split; [reflexivity | discriminate].
Qed.

Lemma DAA_keeps_control (c : CPU.t) :
  CPU.halted (CPU.DAA c) = CPU.halted c
  /\ CPU.ime_scheduled (CPU.DAA c) = CPU.ime_scheduled c.
Proof.
  unfold CPU.DAA, CPU.setFlag. cbv zeta.
  repeat match goal with
    | |- context [if ?b then _ else _] => destruct b
    end; split; reflexivity.
Qed.

(** No embedded instruction both halts and schedules an EI. *)
Lemma executeOpcode_halt_or_schedule
      (opcode : Z) (c : CPU.t) (m : MMU.t) (s1 : CPU.t * MMU.t) :
  CPU.executeOpcode opcode (c, m) = Some s1 ->
  CPU.halted c = false -> CPU.ime_scheduled c = false ->
  CPU.halted (fst s1) = true -> CPU.ime_scheduled (fst s1) = false.
Proof.
  intros Hex Hh Hs. unfold CPU.executeOpcode in Hex.
  destruct (DAA_keeps_control c) as [Hd1 Hd2].
  repeat match type of Hex with
    | (if ?a =? ?b then _ else _) = _ => destruct (a =? b)
    end; try discriminate Hex; injection Hex as <-;
    unfold CPU.NOP, CPU.STOP, CPU.HALT, CPU.DI, CPU.EI; cpu_proj;
    rewrite ?Hd1, ?Hd2, ?Hh, ?Hs; congruence.
Qed.

(** No step ends halted with an EI still scheduled: the schedule is applied
    at the start of every step, ahead of the HALT check.  (For the
    instructions of the embedded part of the dispatch table.) *)
Lemma step_halted_no_schedule (s s' : CPU.t * MMU.t) :
  CPU.step s = Some s' ->
  CPU.halted (fst s') = true -> CPU.ime_scheduled (fst s') = false.
Proof.
  destruct s as [c m]. unfold CPU.step.
  set (c0 := if CPU.ime_scheduled c then _ else c).
  assert (H0 : CPU.ime_scheduled c0 = false)
    by (subst c0; destruct (CPU.ime_scheduled c) eqn:E; [reflexivity | exact E]).
  destruct (CPU.halted c0) eqn:Hh.
  - destruct (nz _); intros [= <-]; cpu_proj; intros _; exact H0.
  - unfold CPU.read8.
    destruct (CPU.executeOpcode _ _) as [s1 |] eqn:Hex; [| discriminate].
    intros [= <-] Hfinal.
    destruct (handleInterrupts_flags s1) as [-> Hhalt].
    eapply executeOpcode_halt_or_schedule; [exact Hex | | | auto];
      cpu_proj; assumption.
Qed.

(** ** CPU: EI; NOP; DI *)

(** C4, as the code has it.  With EI at PC, NOP behind it and the V-Blank
    interrupt pending and enabled: the EI step leaves IME clear and services
    nothing; the schedule is applied at the very start of the next step,
    before the NOP is fetched, so the interrupt check that follows the NOP
    finds IME set and services the interrupt: IF bit 0 is cleared, IME is
    cleared, the address of the DI is pushed and PC goes to 0x0040.  The DI
    is not the third instruction executed. *)
Theorem EI_NOP_services_interrupt (c : CPU.t) (m : MMU.t) :
  CPU.halted c = false -> CPU.ime c = false -> CPU.ime_scheduled c = false ->
  MMU.read (CPU.PC c) m = 0xFB ->
  MMU.read (CPU.PC c + 1) m = 0x00 ->
  Z.land (pending m) 0x01 = 0x01 ->
  exists c1 c2 m2,
    CPU.step (c, m) = Some (c1, m)
    /\ CPU.ime c1 = false /\ CPU.ime_scheduled c1 = true
    /\ CPU.PC c1 = u16 (CPU.PC c + 1) /\ CPU.SP c1 = CPU.SP c
    /\ CPU.step (c1, m) = Some (c2, m2)
    /\ CPU.ime c2 = false /\ CPU.ime_scheduled c2 = false
    /\ CPU.PC c2 = 0x0040
    /\ CPU.SP c2 = u16 (CPU.SP c - 2)
    /\ CPU.cycles c2 = u32 (CPU.cycles c + 36)
    /\ m2 = MMU.write (u16 (CPU.SP c - 2) + 1)
                      (Z.shiftr (u16 (u16 (CPU.PC c + 1) + 1)) 8)
              (MMU.write (u16 (CPU.SP c - 2))
                         (Z.land (u16 (u16 (CPU.PC c + 1) + 1)) 0xFF)
                 (MMU.write 0xFF0F
                            (Z.land (MMU.read 0xFF0F m) (Z.lnot 1)) m)).
Proof.
  intros Hh Hime Hsch Hei Hnop Hpend.
  destruct c as [a b cc d e f h l sp pc hl st im ims cy].
  cbn [CPU.halted CPU.ime CPU.ime_scheduled CPU.PC CPU.SP CPU.cycles] in *.
  subst hl im ims.
  assert (Hnz : (pending m =? 0) = false).
  { apply Z.eqb_neq. intros H0. rewrite H0 in Hpend. discriminate. }
  assert (Hb0 : nz (Z.land (pending m) (Z.shiftl 1 0)) = true).
  { change (Z.shiftl 1 0) with 1. rewrite Hpend. reflexivity. }
  exists (CPU.mk a b cc d e f h l sp (u16 (pc + 1)) false st false true
                 (u32 (cy + 4))).
  do 2 eexists.
  split.
  { unfold CPU.step, CPU.read8. cpu_proj.
    rewrite Hei. cbn [CPU.executeOpcode Z.eqb Pos.eqb].
    unfold CPU.EI, CPU.handleInterrupts. cpu_proj. reflexivity. }
  cpu_proj. do 4 (split; [reflexivity |]).
  split.
  { unfold CPU.step, CPU.read8. cpu_proj.
    rewrite read_u16, Hnop. cbn [CPU.executeOpcode Z.eqb].
    unfold CPU.NOP, CPU.handleInterrupts. cpu_proj.
    fold (pending m). rewrite Hnz.
    cbn [CPU.dispatch]. rewrite Hb0.
    unfold CPU.service, CPU.push16, CPU.write16, CPU.write8. cpu_proj.
    reflexivity. }
  cpu_proj. repeat split.
  repeat (rewrite u32_add_idem; rewrite <- ?Z.add_assoc). reflexivity.
Qed.

Lemma EI_NOP_services_interrupt_witness :
  exists c1 c2 m2,
    CPU.step (ei_cpu, ei_mmu) = Some (c1, ei_mmu)
    /\ CPU.ime c1 = false /\ CPU.ime_scheduled c1 = true
    /\ CPU.PC c1 = u16 (CPU.PC ei_cpu + 1) /\ CPU.SP c1 = CPU.SP ei_cpu
    /\ CPU.step (c1, ei_mmu) = Some (c2, m2)
    /\ CPU.ime c2 = false /\ CPU.ime_scheduled c2 = false
    /\ CPU.PC c2 = 0x0040
    /\ CPU.SP c2 = u16 (CPU.SP ei_cpu - 2)
    /\ CPU.cycles c2 = u32 (CPU.cycles ei_cpu + 36)
    /\ m2 = MMU.write (u16 (CPU.SP ei_cpu - 2) + 1)
                      (Z.shiftr (u16 (u16 (CPU.PC ei_cpu + 1) + 1)) 8)
              (MMU.write (u16 (CPU.SP ei_cpu - 2))
                         (Z.land (u16 (u16 (CPU.PC ei_cpu + 1) + 1)) 0xFF)
                 (MMU.write 0xFF0F
                            (Z.land (MMU.read 0xFF0F ei_mmu) (Z.lnot 1))
                            ei_mmu)).
Proof.
  apply (EI_NOP_services_interrupt ei_cpu ei_mmu); reflexivity.
Defined.

(** C4, as stated, fails in its own scenario: after the EI and the NOP the
    CPU is at the V-Blank vector, not at the DI. *)
Lemma EI_NOP_DI_counterexample : ~ EI_NOP_DI_unserviced ei_cpu ei_mmu.
Proof.
  intros (s2 & s3 & H2 & Hpc & _).
  assert (Hrun : option_map (fun s => CPU.PC (fst s))
                            (steps 2 (ei_cpu, ei_mmu))
                 = Some 0x0040) by (vm_compute; reflexivity).
  rewrite H2 in Hrun. cbn [option_map] in Hrun.
  injection Hrun as Hrun. rewrite Hpc in Hrun. vm_compute in Hrun.
  discriminate.
Qed.

(** After the two steps: PC at the vector, the address of the DI on the
    stack, IF bit 0 cleared. *)
Example EI_NOP_then_vector :
  option_map (fun s => (CPU.PC (fst s), CPU.SP (fst s),
                        MMU.read 0xFFFC (snd s), MMU.read 0xFFFD (snd s),
                        MMU.read 0xFF0F (snd s)))
             (steps 2 (ei_cpu, ei_mmu))
  = Some (0x0040, 0xFFFC, 0x02, 0xC0, 0x00).
Proof. vm_compute. reflexivity. Qed.

(** ** CPU: flags and DAA *)

Lemma getFlag_bit (k : Z) (c : CPU.t) :
  0 <= k -> CPU.getFlag (2 ^ k) c = Z.testbit (CPU.F c) k.
Proof. intros Hk. unfold CPU.getFlag. by apply nz_land_pow2. Qed.

Lemma setFlag_F_bit (k j : Z) (b : bool) (c : CPU.t) :
  0 <= k < 8 -> 0 <= j < 8 ->
  Z.testbit (CPU.F (CPU.setFlag (2 ^ k) b c)) j
  = if k =? j then b else Z.testbit (CPU.F c) j.
Proof.
  intros Hk Hj. unfold CPU.setFlag.
  destruct b; cbn [CPU.F CPU.set_F]; rewrite testbit_u8 by lia.
  - rewrite Z.lor_spec, Z.pow2_bits_eqb by lia.
    destruct (k =? j); [apply orb_true_r | apply orb_false_r].
  - rewrite Z.land_spec, Z.lnot_spec, Z.pow2_bits_eqb by lia.
    destruct (k =? j); [apply andb_false_r | apply andb_true_r].
Qed.

Lemma setFlag_keeps (flag : Z) (b : bool) (c : CPU.t) :
  CPU.A (CPU.setFlag flag b c) = CPU.A c.
Proof. unfold CPU.setFlag. destruct b; reflexivity. Qed.

(** C7.  DAA on every accumulator and flag state.  After an addition (N
    clear) 0x06 is added if H is set or the low nibble of A exceeds 9, and
    0x60 is added and C set if C is set or A exceeds 0x99, both tests on
    the value A had before the instruction; after a subtraction (N set)
    0x06 is subtracted if H is set and 0x60 if C is set, and C is kept.  In
    both cases Z tells whether the new A is zero, H is cleared and N is
    kept. *)
Theorem DAA_adjusts (c : CPU.t) :
  let n := CPU.getFlag CPU.FLAG_N c in
  let h := CPU.getFlag CPU.FLAG_H c in
  let cy := CPU.getFlag CPU.FLAG_C c in
  let c' := CPU.DAA c in
  CPU.A c'
  = (if n then u8 (CPU.A c - daa_sub_correction h cy)
     else u8 (CPU.A c + daa_add_correction h cy (CPU.A c)))
  /\ CPU.getFlag CPU.FLAG_C c' = (if n then cy else cy || (0x99 <? CPU.A c))
  /\ CPU.getFlag CPU.FLAG_Z c' = (CPU.A c' =? 0)
  /\ CPU.getFlag CPU.FLAG_H c' = false
  /\ CPU.getFlag CPU.FLAG_N c' = n.
Proof.
  cbv zeta. unfold CPU.DAA. cbv zeta.
  set (n := CPU.getFlag CPU.FLAG_N c).
  set (h := CPU.getFlag CPU.FLAG_H c).
  set (cy := CPU.getFlag CPU.FLAG_C c).
  set (r := if negb n then _ else _).
  assert (Hr : r = (if n then u8 (CPU.A c - daa_sub_correction h cy)
                    else u8 (CPU.A c + daa_add_correction h cy (CPU.A c)),
                    if n then cy else cy || (0x99 <? CPU.A c))).
  { subst r. unfold daa_add_correction, daa_sub_correction.
    destruct n, h, cy; cbn [negb orb];
      repeat match goal with
        | |- context [if ?b then _ else _] => destruct b
        end; reflexivity. }
  rewrite Hr. clear Hr r.
  set (a := if n then _ else _). set (k := if n then _ else _).
  change CPU.FLAG_Z with (2 ^ 7). change CPU.FLAG_N with (2 ^ 6) in *.
  change CPU.FLAG_H with (2 ^ 5) in *. change CPU.FLAG_C with (2 ^ 4) in *.
  rewrite !setFlag_keeps. cbn [CPU.A CPU.set_A].
  rewrite !getFlag_bit by lia.
  rewrite !setFlag_F_bit by lia. cbn [Z.eqb Pos.eqb CPU.F CPU.set_A].
  subst n. rewrite getFlag_bit by lia. repeat split.
Qed.

(** 0x9A after an addition becomes 0x00 with Z and C; 0x0F after a
    subtraction with H becomes 0x09 with N kept. *)
Example DAA_after_add :
  (CPU.A (CPU.DAA (CPU.set_F 0x00 (CPU.set_A 0x9A ei_cpu))),
   CPU.F (CPU.DAA (CPU.set_F 0x00 (CPU.set_A 0x9A ei_cpu))))
  = (0x00, 0x90).
Proof. reflexivity. Qed.

(** Both tests of the addition case look at the old A: 0x94 with H set
    becomes 0x9A and C stays clear. *)
Example DAA_tests_old_A :
  (CPU.A (CPU.DAA (CPU.set_F 0x20 (CPU.set_A 0x94 ei_cpu))),
   CPU.F (CPU.DAA (CPU.set_F 0x20 (CPU.set_A 0x94 ei_cpu))))
  = (0x9A, 0x00).
Proof. reflexivity. Qed.

Example DAA_after_sub :
  (CPU.A (CPU.DAA (CPU.set_F 0x60 (CPU.set_A 0x0F ei_cpu))),
   CPU.F (CPU.DAA (CPU.set_F 0x60 (CPU.set_A 0x0F ei_cpu))))
  = (0x09, 0x40).
Proof. reflexivity. Qed.

(** ** Cartridge: MBC1 bank selection *)

Lemma load_fresh (file : list Z) :
  0x0150 <= Cartridge.size file ->
  Cartridge.load file = Some (fresh_cartridge file).
Proof.
  intros Hsz. unfold Cartridge.load.
  destruct (Cartridge.size file <? 0x0150) eqn:Hlt; [lia | reflexivity].
Qed.

Section MBC1.

Variable c : Cartridge.t.
Hypothesis Hmbc1 : is_mbc1 (Cartridge.mbc_type c) = true.

Lemma MBC1_dispatch : (Cartridge.mbc_type c =? 0x00) = false.
Proof.
  unfold is_mbc1 in Hmbc1.
  destruct (Cartridge.mbc_type c =? 0x00) eqn:E; [| reflexivity].
  apply Z.eqb_eq in E. rewrite E in Hmbc1. discriminate.
Qed.

Lemma MBC1_ram_enable (addr value : Z) :
  u16 addr < 0x2000 ->
  Cartridge.writeROM addr value c
  = Cartridge.set_ram_enabled (Z.land (u8 value) 0x0F =? 0x0A) c.
Proof.
  intros Ha. unfold Cartridge.writeROM. cbv zeta.
  rewrite MBC1_dispatch. unfold is_mbc1 in Hmbc1. rewrite Hmbc1.
  destruct (u16 addr <? 0x2000) eqn:E; [reflexivity | lia].
Qed.

Lemma MBC1_rom_bank (addr value : Z) :
  0x2000 <= u16 addr < 0x4000 ->
  Cartridge.writeROM addr value c
  = Cartridge.set_rom_bank
      (Z.lor (Z.land (Cartridge.rom_bank c) 0x60)
             (Cartridge.bank_or_1 (u8 value) 0x1F)) c.
Proof.
  intros Ha. unfold Cartridge.writeROM. cbv zeta.
  rewrite MBC1_dispatch. unfold is_mbc1 in Hmbc1. rewrite Hmbc1.
  destruct (u16 addr <? 0x2000) eqn:E; [lia |].
  destruct (u16 addr <? 0x4000) eqn:E'; [reflexivity | lia].
Qed.

End MBC1.

Lemma u16_idem (x : Z) : u16 (u16 x) = u16 x.
Proof. unfold u16. apply Z.mod_mod. lia. Qed.

Lemma u8_idem (x : Z) : u8 (u8 x) = u8 x.
Proof. unfold u8. apply Z.mod_mod. lia. Qed.

Lemma MBC1_bus_write (addr value : Z) (m : MMU.t) (c : Cartridge.t) :
  MMU.cartridge m = Some c -> u16 addr < 0x8000 ->
  MMU.write addr value m
  = MMU.set_cartridge
      (Some (Cartridge.writeROM (u16 addr) (u8 value) c)) m.
Proof.
  intros Hc Ha. unfold MMU.write. cbv zeta.
  destruct (u16 addr <? 0x8000) eqn:E; [| lia].
  rewrite Hc. reflexivity.
Qed.

Lemma MBC1_bus_read (addr : Z) (m : MMU.t) (c : Cartridge.t) :
  MMU.cartridge m = Some c -> u16 addr < 0x8000 ->
  MMU.read addr m = Cartridge.readROM (u16 addr) c.
Proof.
  intros Hc Ha. unfold MMU.read. cbv zeta.
  rewrite Hc.
  destruct (u16 addr <? 0x4000); [reflexivity |].
  destruct (u16 addr <? 0x8000) eqn:E; [reflexivity | lia].
Qed.

(** Bits 0-4 and bits 5-6 of the MBC1 bank register are disjoint. *)
Lemma MBC1_low_bits (rb low : Z) :
  0 <= low < 32 ->
  Z.land (Z.lor (Z.land rb 0x60) low) 0x1F = low
  /\ Z.land (Z.lor (Z.land rb 0x60) low) 0x60 = Z.land rb 0x60.
Proof.
  intros Hlow.
  rewrite !Z.land_lor_distr_l, <- !Z.land_assoc.
  change (Z.land 0x60 0x1F) with 0. change (Z.land 0x60 0x60) with 0x60.
  rewrite Z.land_0_r, Z.lor_0_l.
  assert (H1 : Z.land low 0x1F = low).
  { change 0x1F with (Z.ones 5). rewrite Z.land_ones by lia.
    apply Z.mod_small. simpl. lia. }
  assert (H2 : Z.land low 0x60 = 0).
  { rewrite <- H1, <- Z.land_assoc. change (Z.land 0x1F 0x60) with 0.
    apply Z.land_0_r. }
  rewrite H1, H2, Z.lor_0_r. split; reflexivity.
Qed.

(** A bank register with bits 5-6 clear: the byte that the bus reads at
    0x4000 after a write of [value] to the bank-select region. *)
Lemma MBC1_select_read (addr value bank : Z) (m : MMU.t) (c : Cartridge.t) :
  MMU.cartridge m = Some c ->
  is_mbc1 (Cartridge.mbc_type c) = true ->
  0x2000 <= u16 addr < 0x4000 ->
  Z.land (Cartridge.rom_bank c) 0x60 = 0 ->
  Cartridge.bank_or_1 (u8 value) 0x1F = bank -> 0 <= bank < 32 ->
  bank * 0x4000 < Cartridge.size (Cartridge.rom c) ->
  MMU.write addr value m
  = MMU.set_cartridge (Some (Cartridge.set_rom_bank bank c)) m
  /\ MMU.read 0x4000 (MMU.write addr value m)
     = arr_get (Cartridge.rom c) (bank * 0x4000).
Proof.
  intros Hc Hty Ha Hup Hb Hbank Hsz.
  assert (Hw : MMU.write addr value m
               = MMU.set_cartridge (Some (Cartridge.set_rom_bank bank c)) m).
  { rewrite (MBC1_bus_write addr value m c Hc) by lia.
    rewrite MBC1_rom_bank by (assumption || (rewrite u16_idem; lia)).
    rewrite u8_idem, Hup, Hb, Z.lor_0_l. reflexivity. }
  split; [exact Hw |].
  rewrite Hw.
  rewrite (MBC1_bus_read 0x4000 _ (Cartridge.set_rom_bank bank c))
    by (reflexivity || (vm_compute; reflexivity)).
  change (u16 0x4000) with 0x4000.
  unfold Cartridge.readROM. cbv zeta.
  change (u16 0x4000) with 0x4000. change (0x4000 <? 0x4000) with false.
  cbv iota.
  cbn [Cartridge.rom Cartridge.rom_bank Cartridge.set_rom_bank].
  replace (u32 (bank * 0x4000 + (0x4000 - 0x4000))) with (bank * 0x4000)
    by (unfold u32; rewrite Z.mod_small; lia).
  destruct (bank * 0x4000 <? Cartridge.size (Cartridge.rom c)) eqn:E;
    [reflexivity | lia].
Qed.

Lemma MBC1_scenario (m : MMU.t) (c : Cartridge.t) :
  MMU.cartridge m = Some c ->
  is_mbc1 (Cartridge.mbc_type c) = true ->
  Z.land (Cartridge.rom_bank c) 0x60 = 0 ->
  0x8001 <= Cartridge.size (Cartridge.rom c) ->
  select_bank_2 m
  = MMU.set_cartridge
      (Some (Cartridge.set_rom_bank 2 (Cartridge.set_ram_enabled true c))) m
  /\ MMU.read 0x4000 (select_bank_2 m) = arr_get (Cartridge.rom c) 0x8000.
Proof.
  intros Hc Hty Hup Hsz. unfold select_bank_2.
  assert (H1 : MMU.write 0x0000 0x0A m
               = MMU.set_cartridge
                   (Some (Cartridge.set_ram_enabled true c)) m).
  { rewrite (MBC1_bus_write 0x0000 0x0A m c Hc) by (vm_compute; reflexivity).
    rewrite MBC1_ram_enable by (assumption || (vm_compute; reflexivity)).
    reflexivity. }
  rewrite H1.
  destruct (MBC1_select_read 0x2100 0x02 2
              (MMU.set_cartridge (Some (Cartridge.set_ram_enabled true c)) m)
              (Cartridge.set_ram_enabled true c))
    as [Hw Hr].
  - reflexivity.
  - exact Hty.
  - vm_compute. split; [discriminate | reflexivity].
  - exact Hup.
  - reflexivity.
  - lia.
  - cbn [Cartridge.rom Cartridge.set_ram_enabled]. lia.
  - rewrite Hr, Hw. split; reflexivity.
Qed.

(** C8.  On a bus with an MBC1 cartridge, whatever its state, a write of
    [value] to an address of 0x2000-0x3FFF changes the ROM bank register
    only: bits 5-6 are kept and bits 0-4 become [value & 0x1F], with 0
    replaced by 1; so that a write of 0 leaves 1 in bits 0-4.  When bits
    5-6 of the register are clear and the ROM has at least 0x8001 bytes,
    the writes 0x0A to 0x0000 and 0x02 to 0x2100 enable RAM and select
    bank 2, and a read at 0x4000 returns the byte at ROM offset 0x8000; a
    write of 0 to the bank-select region then selects bank 1, and a read
    at 0x4000 returns the byte at ROM offset 0x4000.  A cartridge is in
    that state after [loadCartridge]. *)
Theorem MBC1_bank_select (addr value : Z) (m : MMU.t) (c : Cartridge.t) :
  MMU.cartridge m = Some c ->
  is_mbc1 (Cartridge.mbc_type c) = true ->
  0x2000 <= u16 addr < 0x4000 ->
  let low := Z.land (u8 value) 0x1F in
  let bank := if low =? 0 then 1 else low in
  MMU.write addr value m
  = MMU.set_cartridge
      (Some (Cartridge.set_rom_bank
               (Z.lor (Z.land (Cartridge.rom_bank c) 0x60) bank) c)) m
  /\ option_map
       (fun c0 => (Z.land (Cartridge.rom_bank c0) 0x1F,
                   Z.land (Cartridge.rom_bank c0) 0x60))
       (MMU.cartridge (MMU.write addr 0 m))
     = Some (1, Z.land (Cartridge.rom_bank c) 0x60)
  /\ (Z.land (Cartridge.rom_bank c) 0x60 = 0 ->
      0x8001 <= Cartridge.size (Cartridge.rom c) ->
      select_bank_2 m
      = MMU.set_cartridge
          (Some (Cartridge.set_rom_bank 2 (Cartridge.set_ram_enabled true c)))
          m
      /\ MMU.read 0x4000 (select_bank_2 m) = arr_get (Cartridge.rom c) 0x8000
      /\ MMU.write addr 0 m
         = MMU.set_cartridge (Some (Cartridge.set_rom_bank 1 c)) m
      /\ MMU.read 0x4000 (MMU.write addr 0 m)
         = arr_get (Cartridge.rom c) 0x4000)
  /\ (forall file m0,
        0x8001 <= Cartridge.size file ->
        is_mbc1 (arr_get file 0x0147) = true ->
        exists m1,
          MMU.loadCartridge file m0 = Some m1
          /\ option_map
               (fun c2 => (Cartridge.ram_enabled c2, Cartridge.rom_bank c2))
               (MMU.cartridge (select_bank_2 m1))
             = Some (true, 2)
          /\ MMU.read 0x4000 (select_bank_2 m1) = arr_get file 0x8000
          /\ MMU.read 0x4000 (MMU.write addr 0 m1) = arr_get file 0x4000).
Proof.
  intros Hc Hty Ha low bank.
  assert (Hw : forall v,
             MMU.write addr v m
             = MMU.set_cartridge
                 (Some (Cartridge.set_rom_bank
                          (Z.lor (Z.land (Cartridge.rom_bank c) 0x60)
                                 (Cartridge.bank_or_1 (u8 v) 0x1F)) c)) m).
  { intros v. rewrite (MBC1_bus_write addr v m c Hc) by lia.
    rewrite MBC1_rom_bank by (assumption || (rewrite u16_idem; lia)).
    rewrite u8_idem. reflexivity. }
  split; [exact (Hw value) |].
  split; [| split].
  - rewrite (Hw 0).
    cbn [MMU.cartridge MMU.set_cartridge option_map
         Cartridge.rom_bank Cartridge.set_rom_bank].
    change (Cartridge.bank_or_1 (u8 0) 0x1F) with 1.
    destruct (MBC1_low_bits (Cartridge.rom_bank c) 1) as [-> ->];
      [lia | reflexivity].
  - intros Hup Hsz.
    destruct (MBC1_scenario m c Hc Hty Hup Hsz) as [Hs Hr].
    destruct (MBC1_select_read addr 0 1 m c) as [Hw1 Hr1];
      [exact Hc | exact Hty | exact Ha | exact Hup | reflexivity | lia
      | lia |].
    repeat split; assumption.
  - intros file m0 Hsz Hfile.
    exists (MMU.set_cartridge (Some (fresh_cartridge file)) m0).
    split; [unfold MMU.loadCartridge; rewrite load_fresh by lia; reflexivity |].
    destruct (MBC1_scenario
                (MMU.set_cartridge (Some (fresh_cartridge file)) m0)
                (fresh_cartridge file))
      as [Hs Hr]; [reflexivity | exact Hfile | reflexivity | exact Hsz |].
    split; [rewrite Hs; reflexivity |].
    split.
    + exact Hr.
    + apply (MBC1_select_read addr 0 1 _ (fresh_cartridge file));
        [reflexivity | exact Hfile | exact Ha | reflexivity | reflexivity
        | lia | cbn [Cartridge.rom fresh_cartridge]; lia].
Qed.

Lemma MBC1_bank_select_witness :
  let c := fresh_cartridge mbc1_image_17 in
  let m := MMU.set_cartridge (Some c) MMU.new in
  MMU.write 0x2100 0x20 m
  = MMU.set_cartridge (Some (Cartridge.set_rom_bank 1 c)) m
  /\ MMU.read 0x4000 (select_bank_2 m) = 0x42
  /\ MMU.read 0x4000 (MMU.write 0x2100 0 m) = 0x17.
Proof.
  intros c m.
  destruct (MBC1_bank_select 0x2100 0x20 m c) as (Hw & _ & Hsel & _);
    [reflexivity | reflexivity | vm_compute; split; [discriminate | reflexivity]
    |].
  destruct Hsel as (_ & Hr2 & _ & Hr1);
    [reflexivity | vm_compute; discriminate |].
  split; [exact Hw |]. split; [exact Hr2 | exact Hr1].
Defined.

(** C8, as stated for every MBC1 cartridge, fails once bits 5-6 of the bank
    register are set: after a write of 0x01 to 0x4000 on a loaded 0x8001-byte
    MBC1 image, the writes of the scenario select bank 0x22, and the read at
    0x4000 is 0xFF, not the 0x42 at ROM offset 0x8000. *)
Lemma MBC1_bank_select_counterexample :
  0x8001 <= Cartridge.size mbc1_image
  /\ is_mbc1 (arr_get mbc1_image 0x0147) = true
  /\ option_map
       (fun m =>
          let m2 := select_bank_2 (MMU.write 0x4000 0x01 m) in
          (option_map Cartridge.rom_bank (MMU.cartridge m2),
           MMU.read 0x4000 m2))
       (MMU.loadCartridge mbc1_image MMU.new)
     = Some (Some 0x22, 0xFF)
  /\ arr_get mbc1_image 0x8000 = 0x42.
Proof.
  split; [vm_compute; discriminate |].
  repeat split; vm_compute; reflexivity.
Qed.

Example MBC1_reads_bank_2 :
  option_map (fun m => MMU.read 0x4000
                         (MMU.write 0x2100 0x02 (MMU.write 0x0000 0x0A m)))
             (MMU.loadCartridge mbc1_image MMU.new)
  = Some 0x42.
Proof. vm_compute. reflexivity. Qed.

(** ** Save states: the header check *)

(** [strcmp] against the magic accepts exactly the magic: the buffer holds
    at most seven bytes of the file, padded by the zeros it was
    initialised with. *)
Lemma strcmp_magic (bs : list Z) :
  (length bs <= 7)%nat ->
  SaveState.strcmp_eq (SaveState.overwrite (replicate 8 0) bs)
                      SaveState.MAGIC_cstr = true ->
  bs = SaveState.MAGIC.
Proof.
  intros Hlen H.
  destruct bs as [| b0 [| b1 [| b2 [| b3 [| b4 [| b5 [| b6 [| b7 bs]]]]]]]];
    cbn in H, Hlen; try lia.
  all: repeat match type of H with
         | (if ?x =? ?y then _ else _) = true =>
             destruct (Z.eqb_spec x y); [subst | discriminate H]; cbn in H
         end.
  all: try discriminate H.
  reflexivity.
Qed.

Lemma read_enough (n : nat) (bytes : list Z) :
  (n <= length bytes)%nat ->
  SaveState.read n (SaveState.mkStream bytes true)
  = (take n bytes, SaveState.mkStream (drop n bytes) true).
Proof.
  intros H. unfold SaveState.read. cbn [SaveState.good SaveState.rest negb].
  destruct (n <=? length bytes)%nat eqn:E; [reflexivity |].
  apply Nat.leb_gt in E. lia.
Qed.

Lemma read_short (n : nat) (bytes : list Z) :
  (length bytes < n)%nat ->
  SaveState.read n (SaveState.mkStream bytes true)
  = (bytes, SaveState.mkStream [] false).
Proof.
  intros H. unfold SaveState.read. cbn [SaveState.good SaveState.rest negb].
  destruct (n <=? length bytes)%nat eqn:E; [| reflexivity].
  apply Nat.leb_le in E. lia.
Qed.

(** The version byte as [load] reads it behind a full magic. *)
Lemma version_read (bytes : list Z) :
  fst (SaveState.read_uint 1 0 (SaveState.mkStream (drop 7 bytes) true))
  = default 0 (bytes !! 7%nat).
Proof.
  unfold SaveState.read_uint.
  destruct (drop 7 bytes) as [| b rest] eqn:Hd.
  - rewrite read_short by (cbn; lia). cbn.
    rewrite lookup_ge_None_2; [reflexivity |].
    apply (f_equal length) in Hd. rewrite length_drop in Hd. cbn in Hd. lia.
  - rewrite read_enough by (cbn; lia). cbn [take fst].
    assert (Hb : bytes !! 7%nat = Some b).
    { replace 7%nat with (7 + 0)%nat by reflexivity.
      rewrite <- lookup_drop, Hd. reflexivity. }
    rewrite Hb, take_0. cbn. lia.
Qed.

(** C9.  A file whose first seven bytes are not "GBSTATE", or whose eighth
    byte is not the version 1 (or is missing), is refused: [load] returns
    false and hands back the CPU, the bus (with its APU and timer) and the
    PPU exactly as it was given them. *)
Theorem load_rejects_bad_header (bytes : list Z)
        (cpu : CPU.t) (mmu : MMU.t) (ppu : PPU.t) :
  take 7 bytes <> SaveState.MAGIC
  \/ bytes !! 7%nat <> Some SaveState.VERSION ->
  SaveState.load (Some bytes) cpu mmu ppu = (false, (cpu, mmu, ppu)).
Proof.
  intros Hbad. unfold SaveState.load. cbv zeta.
  destruct (le_lt_dec 7 (length bytes)) as [Hlen | Hlen].
  - rewrite read_enough by exact Hlen.
    destruct (SaveState.read_uint 1 0 _) as [version f] eqn:Hv.
    destruct (SaveState.strcmp_eq _ _) eqn:Hs; [| reflexivity].
    cbn [negb].
    apply strcmp_magic in Hs; [| rewrite length_take; lia].
    destruct Hbad as [Hm | Hver]; [contradiction |].
    assert (Hversion : version = default 0 (bytes !! 7%nat)).
    { rewrite <- version_read, Hv. reflexivity. }
    destruct (version =? SaveState.VERSION) eqn:E; [| reflexivity].
    apply Z.eqb_eq in E. exfalso. apply Hver.
    destruct (bytes !! 7%nat) as [b |] eqn:Hb; cbn in Hversion.
    + congruence.
    + unfold SaveState.VERSION in E. lia.
  - rewrite read_short by exact Hlen.
    destruct (SaveState.read_uint 1 0 _) as [version f].
    destruct (SaveState.strcmp_eq _ _) eqn:Hs; [| reflexivity].
    apply strcmp_magic in Hs; [| lia].
    rewrite Hs in Hlen. cbn in Hlen. lia.
Qed.

Lemma load_rejects_bad_header_witness :
  SaveState.load (Some version2_file) ei_cpu ei_mmu PPU.new
  = (false, (ei_cpu, ei_mmu, PPU.new)).
Proof.
  apply (load_rejects_bad_header version2_file).
  right. vm_compute. discriminate.
Defined.

(** The loader does load: a good header is accepted and the registers are
    taken from the file. *)
Example load_accepts :
  fst (SaveState.load
         (Some [71; 66; 83; 84; 65; 84; 69; 1; 0x12; 0x80])
         ei_cpu MMU.new PPU.new) = true
  /\ CPU.A (fst (fst (snd (SaveState.load
         (Some [71; 66; 83; 84; 65; 84; 69; 1; 0x12; 0x80])
         ei_cpu MMU.new PPU.new)))) = 0x12.
Proof. vm_compute. repeat split. Qed.

(** ** PPU: scanline changes and the LYC=LY coincidence *)

Lemma setMode_io (md : PPU.Mode) (p : PPU.t) (m : MMU.t) :
  snd (PPU.setMode md (p, m))
  = MMU.set_io
      (arr_set (MMU.io m) 0x41
         (u8 (u8 (Z.lor (Z.land (arr_get (MMU.io m) 0x41) 0xFC)
                        (PPU.mode_num md))))) m.
Proof. reflexivity. Qed.

(** [setMode] rewrites the two mode bits of STAT and nothing above them. *)
Lemma setMode_keeps_bit (md : PPU.Mode) (stat k : Z) :
  2 <= k < 8 ->
  Z.testbit (u8 (u8 (Z.lor (Z.land stat 0xFC) (PPU.mode_num md)))) k
  = Z.testbit stat k.
Proof.
  intros Hk. rewrite !testbit_u8, Z.lor_spec, Z.land_spec by lia.
  assert (H : k = 2 \/ k = 3 \/ k = 4 \/ k = 5 \/ k = 6 \/ k = 7) by lia.
  assert (Hm : Z.testbit (PPU.mode_num md) k = false)
    by (destruct md, H as [-> | [-> | [-> | [-> | [-> | ->]]]]]; reflexivity).
  assert (Hc : Z.testbit 0xFC k = true)
    by (destruct H as [-> | [-> | [-> | [-> | [-> | ->]]]]]; reflexivity).
  rewrite Hm, Hc, andb_true_r, orb_false_r. reflexivity.
Qed.

Lemma coincidence_io (ly : Z) (m : MMU.t) :
  PPU.coincidence ly m
  = let lyc := arr_get (MMU.io m) 0x45 in
    let stat := arr_get (MMU.io m) 0x41 in
    if ly =? lyc then
      let stat := u8 (Z.lor stat 0x04) in
      if nz (Z.land stat 0x40) then
        MMU.set_io
          (arr_set (arr_set (MMU.io m) 0x0F
                            (u8 (Z.lor (arr_get (MMU.io m) 0x0F) 0x02)))
                   0x41 (u8 stat)) m
      else MMU.set_io (arr_set (MMU.io m) 0x41 (u8 stat)) m
    else
      MMU.set_io
        (arr_set (MMU.io m) 0x41 (u8 (u8 (Z.land stat (Z.lnot 0x04))))) m.
Proof.
  unfold PPU.coincidence. cbv zeta.
  change (MMU.read 0xFF45 m) with (arr_get (MMU.io m) 0x45).
  change (MMU.read 0xFF41 m) with (arr_get (MMU.io m) 0x41).
  destruct (ly =? arr_get (MMU.io m) 0x45); [| reflexivity].
  destruct (nz (Z.land (u8 (Z.lor (arr_get (MMU.io m) 0x41) 0x04)) 0x40));
    reflexivity.
Qed.

(** What the end of the H-Blank case does after the coincidence block:
    LY, STAT bit 2 and IF bit 1 are as that block left them. *)
Lemma after_coincidence (q : PPU.t) (n : MMU.t) (vblank : bool) :
  length (MMU.io n) = 128%nat ->
  let s := if vblank
           then (let (p0, m0) := PPU.setMode PPU.VBLANK (q, n) in
                 (PPU.set_frame_ready true p0,
                  MMU.write (0xFF00 + 0x0F)
                            (Z.lor (MMU.read (0xFF00 + 0x0F) m0) 0x01) m0))
           else PPU.setMode PPU.OAM (q, n) in
  PPU.scanline (fst s) = PPU.scanline q
  /\ MMU.read (0xFF00 + 0x44) (snd s) = arr_get (MMU.io n) 0x44
  /\ Z.testbit (MMU.read (0xFF00 + 0x41) (snd s)) 2
     = Z.testbit (arr_get (MMU.io n) 0x41) 2
  /\ Z.testbit (MMU.read (0xFF00 + 0x0F) (snd s)) 1
     = Z.testbit (arr_get (MMU.io n) 0x0F) 1.
Proof.
  intros Hn. cbv zeta. destruct vblank.
  - change (PPU.setMode PPU.VBLANK (q, n))
      with (PPU.set_mode PPU.VBLANK q, snd (PPU.setMode PPU.VBLANK (q, n))).
    rewrite setMode_io. cbv iota beta.
    change (MMU.write (0xFF00 + 0x0F) ?v ?x)
      with (MMU.set_io (arr_set (MMU.io x) 0x0F (u8 v)) x).
    ppu_proj. mmu_proj. rewrite !io_read by lia. mmu_proj. arr_simpl.
    rewrite setMode_keeps_bit by lia.
    rewrite testbit_u8, Z.lor_spec by lia.
    change (Z.testbit 1 1) with false. rewrite orb_false_r.
    repeat split.
  - change (PPU.setMode PPU.OAM (q, n))
      with (PPU.set_mode PPU.OAM q, snd (PPU.setMode PPU.OAM (q, n))).
    rewrite setMode_io. ppu_proj. rewrite !io_read by lia. mmu_proj.
    arr_simpl. rewrite setMode_keeps_bit by lia. repeat split.
Qed.

(** The H-Blank case of [PPU::step] does evaluate the coincidence at the
    scanline change: LY takes the new line, STAT bit 2 tells whether it
    equals LYC, and IF bit 1 is raised when it does and STAT bit 6 is set. *)
Lemma HBlank_evaluates_coincidence (cycles : Z) (p : PPU.t) (m : MMU.t) :
  PPU.mode p = PPU.HBLANK ->
  nz (Z.land (MMU.read 0xFF40 m) 0x80) = true ->
  204 <= PPU.mode_cycles p + cycles ->
  length (MMU.io m) = 128%nat ->
  let ly := PPU.scanline p + 1 in
  let s := PPU.step cycles (p, m) in
  PPU.scanline (fst s) = ly
  /\ MMU.read 0xFF44 (snd s) = u8 ly
  /\ Z.testbit (MMU.read 0xFF41 (snd s)) 2 = (ly =? MMU.read 0xFF45 m)
  /\ ((ly =? MMU.read 0xFF45 m) && Z.testbit (MMU.read 0xFF41 m) 6 = true ->
      Z.testbit (MMU.read 0xFF0F (snd s)) 1 = true).
Proof.
  intros Hmode Hlcd Hcyc Hlen. cbv zeta.
  unfold PPU.step. ppu_proj. rewrite Hlcd, Hmode. cbn [negb].
  destruct (204 <=? PPU.mode_cycles p + cycles) eqn:E;
    [clear E | exfalso; lia].
  rewrite coincidence_io. cbv zeta.
  change 0xFF44 with (0xFF00 + 0x44). change 0xFF45 with (0xFF00 + 0x45).
  change 0xFF0F with (0xFF00 + 0x0F). change 0xFF41 with (0xFF00 + 0x41).
  unfold MMU.setLY. mmu_proj. rewrite !(io_read _ m) by lia. arr_simpl.
  set (ly := PPU.scanline p + 1).
  set (stat := arr_get (MMU.io m) 0x41).
  set (lyc := arr_get (MMU.io m) 0x45).
  change 0x40 with (2 ^ 6). rewrite nz_land_pow2, testbit_u8 by lia.
  rewrite Z.lor_spec. change (Z.testbit 4 6) with false. rewrite orb_false_r.
  match goal with
  | |- context [PPU.setMode PPU.OAM (?q, ?n)] =>
      set (q0 := q) in *; set (n0 := n) in *
  end.
  assert (Hn0 : length (MMU.io n0) = 128%nat).
  { subst n0. destruct (ly =? lyc); [destruct (Z.testbit stat 6) |];
      mmu_proj; rewrite !arr_set_length; exact Hlen. }
  assert (Hcell :
            arr_get (MMU.io n0) 0x44 = u8 ly
            /\ Z.testbit (arr_get (MMU.io n0) 0x41) 2 = (ly =? lyc)
            /\ ((ly =? lyc) && Z.testbit stat 6 = true ->
                Z.testbit (arr_get (MMU.io n0) 0x0F) 1 = true)).
  { subst n0. destruct (ly =? lyc); [destruct (Z.testbit stat 6) |];
      mmu_proj; arr_simpl; rewrite ?testbit_u8 by lia;
      rewrite ?Z.lor_spec, ?Z.land_spec, ?Z.lnot_spec by lia;
      (split; [reflexivity |]); (split; [| intros H; try discriminate H]).
    - apply orb_true_r.
    - apply orb_true_r.
    - apply orb_true_r.
    - apply andb_false_r. }
  destruct Hcell as (H44 & H41 & H0F).
  pose proof (after_coincidence q0 n0 (ly =? 144) Hn0) as Hafter.
  cbv zeta in Hafter.
  destruct (ly =? 144); destruct Hafter as (Hs & -> & -> & ->); rewrite Hs;
    (split; [reflexivity |]); repeat split; assumption.
Qed.

(** C6, the V-Blank lines.  While the PPU is in mode 1 a scanline change
    stores the new line in LY (0 on the wrap) and does nothing else about
    the coincidence: whatever LYC and STAT bit 6 are, IF is left as it was
    and STAT bit 2 keeps its old value.  The H-Blank case of the same
    [switch] evaluates the coincidence ([HBlank_evaluates_coincidence]). *)
Theorem VBlank_skips_coincidence (cycles : Z) (p : PPU.t) (m : MMU.t) :
  PPU.mode p = PPU.VBLANK ->
  nz (Z.land (MMU.read 0xFF40 m) 0x80) = true ->
  456 <= PPU.mode_cycles p + cycles ->
  length (MMU.io m) = 128%nat ->
  let s := PPU.step cycles (p, m) in
  PPU.scanline (fst s)
  = (if PPU.scanline p + 1 =? 154 then 0 else PPU.scanline p + 1)
  /\ MMU.read 0xFF44 (snd s) = u8 (PPU.scanline (fst s))
  /\ MMU.read 0xFF45 (snd s) = MMU.read 0xFF45 m
  /\ MMU.read 0xFF0F (snd s) = MMU.read 0xFF0F m
  /\ Z.testbit (MMU.read 0xFF41 (snd s)) 2 = Z.testbit (MMU.read 0xFF41 m) 2.
Proof.
  intros Hmode Hlcd Hcyc Hlen. cbv zeta.
  unfold PPU.step. ppu_proj. rewrite Hlcd, Hmode. cbn [negb].
  destruct (456 <=? PPU.mode_cycles p + cycles) eqn:E;
    [clear E | exfalso; lia].
  change 0xFF44 with (0xFF00 + 0x44). change 0xFF45 with (0xFF00 + 0x45).
  change 0xFF0F with (0xFF00 + 0x0F). change 0xFF41 with (0xFF00 + 0x41).
  rewrite !io_read by lia.
  destruct (PPU.scanline p + 1 =? 154) eqn:Hwrap.
  - rewrite setMode_io. unfold PPU.setMode, MMU.setLY. ppu_proj. mmu_proj.
    arr_simpl. rewrite setMode_keeps_bit by lia. repeat split.
  - unfold MMU.setLY. ppu_proj. mmu_proj. arr_simpl. repeat split.
Qed.

Lemma VBlank_skips_coincidence_witness :
  PPU.scanline (fst (PPU.step 1 (vblank_ppu, vblank_mmu)))
  = (if PPU.scanline vblank_ppu + 1 =? 154 then 0
     else PPU.scanline vblank_ppu + 1)
  /\ MMU.read 0xFF44 (snd (PPU.step 1 (vblank_ppu, vblank_mmu)))
     = u8 (PPU.scanline (fst (PPU.step 1 (vblank_ppu, vblank_mmu))))
  /\ MMU.read 0xFF45 (snd (PPU.step 1 (vblank_ppu, vblank_mmu)))
     = MMU.read 0xFF45 vblank_mmu
  /\ MMU.read 0xFF0F (snd (PPU.step 1 (vblank_ppu, vblank_mmu)))
     = MMU.read 0xFF0F vblank_mmu
  /\ Z.testbit (MMU.read 0xFF41 (snd (PPU.step 1 (vblank_ppu, vblank_mmu)))) 2
     = Z.testbit (MMU.read 0xFF41 vblank_mmu) 2.
Proof.
  apply (VBlank_skips_coincidence 1 vblank_ppu vblank_mmu).
  - reflexivity.
  - reflexivity.
  - simpl. lia.
  - reflexivity.
Defined.

(** At that input LY becomes 145 = LYC with STAT bit 6 set, yet STAT bit 2
    stays clear and IF bit 1 is not raised. *)
Example VBlank_line_145 :
  MMU.read 0xFF44 (snd (PPU.step 1 (vblank_ppu, vblank_mmu))) = 145
  /\ MMU.read 0xFF45 (snd (PPU.step 1 (vblank_ppu, vblank_mmu))) = 145
  /\ MMU.read 0xFF41 (snd (PPU.step 1 (vblank_ppu, vblank_mmu))) = 0x41
  /\ MMU.read 0xFF0F (snd (PPU.step 1 (vblank_ppu, vblank_mmu))) = 0xE0.
Proof. vm_compute. repeat split. Qed.

(** The same line change out of H-Blank (line 44 to 45 with LYC = 45) sets
    STAT bit 2 and raises IF bit 1. *)
Example HBlank_line_45 :
  MMU.read 0xFF41
    (snd (PPU.step 1 (PPU.mk (arr_fill (160 * 144) 0) false PPU.HBLANK 203 44,
                      MMU.write 0xFF41 0x40 (MMU.write 0xFF45 45 MMU.new))))
  = 0x46
  /\ MMU.read 0xFF0F
       (snd (PPU.step 1 (PPU.mk (arr_fill (160 * 144) 0) false PPU.HBLANK 203 44,
                         MMU.write 0xFF41 0x40 (MMU.write 0xFF45 45 MMU.new))))
     = 0xE2.
Proof. vm_compute. repeat split. Qed.

(** * Further properties of the code *)

(** ** The bus (memory/mmu.h) *)

Lemma u16_range (a : Z) : 0 <= u16 a < 65536.
Proof. unfold u16. apply Z.mod_pos_bound. lia. Qed.

Lemma u16_small (a : Z) : 0 <= a < 65536 -> u16 a = a.
Proof. unfold u16. intros. apply Z.mod_small. lia. Qed.

(** Split on every test of an address decoder, the compound ones first. *)
Ltac decode_all :=
  repeat match goal with
    | |- context [if ?a && ?b then _ else _] =>
        destruct (a && b) eqn:?; try lia
    | |- context [if ?a || ?b then _ else _] =>
        destruct (a || b) eqn:?; try lia
    end;
  repeat match goal with
    | |- context [if ?a <? ?b then _ else _] =>
        destruct (a <? b) eqn:?; try lia
    | |- context [if ?a =? ?b then _ else _] =>
        destruct (a =? b) eqn:?; try lia
    | |- context [if ?a <=? ?b then _ else _] =>
        destruct (a <=? b) eqn:?; try lia
    end.

(** A cell read back after a store to the same array. *)
Ltac ram_case :=
  first
    [ reflexivity
    | lia
    | rewrite arr_get_set_ne by lia; reflexivity
    | match goal with
      | |- arr_get (arr_set ?a ?i ?v) ?j = _ =>
          replace j with i by lia; rewrite arr_get_set_eq by lia; reflexivity
      end ].

(** X1.  Echo RAM: every address in 0xE000-0xFDFF reads the byte that the
    address 0x2000 below it reads, and a write to it is the same write as
    one to the address 0x2000 below it. *)
Theorem echo_RAM_mirror (a v : Z) (m : MMU.t) :
  0xE000 <= a <= 0xFDFF ->
  MMU.read a m = MMU.read (a - 0x2000) m
  /\ MMU.write a v m = MMU.write (a - 0x2000) v m.
Proof.
  intros Ha. unfold MMU.read, MMU.write. cbv zeta.
  rewrite !u16_small by lia.
  split; decode_all; replace (a - 8192 - 49152) with (a - 57344) by lia;
    reflexivity.
Qed.

Lemma echo_RAM_mirror_witness :
  MMU.read 0xE123 (MMU.write 0xC123 0x5A MMU.new)
  = MMU.read (0xE123 - 0x2000) (MMU.write 0xC123 0x5A MMU.new)
  /\ MMU.write 0xE123 0x77 (MMU.write 0xC123 0x5A MMU.new)
     = MMU.write (0xE123 - 0x2000) 0x77 (MMU.write 0xC123 0x5A MMU.new).
Proof.
  apply (echo_RAM_mirror 0xE123 0x77 (MMU.write 0xC123 0x5A MMU.new)). lia.
Defined.

(** A store to RAM, read back through any address. *)
Lemma read_write_ram (a b v : Z) (m : MMU.t) :
  mem_ok m -> is_ram a = true ->
  MMU.read b (MMU.write a v m)
  = if cell b =? cell a then u8 v else MMU.read b m.
Proof.
  intros (Hw & Hv & Hh & Ho & Hi) Ha.
  unfold is_ram, cell, len in *. cbv zeta in *.
  pose proof (u16_range a) as Hra. pose proof (u16_range b) as Hrb.
  unfold MMU.read, MMU.write. cbv zeta.
  set (x := u16 a) in *. set (y := u16 b) in *.
  destruct (x <? 0x8000) eqn:H1; [lia |].
  destruct (x <? 0xA000) eqn:H2; [mmu_proj; decode_all; mmu_proj; ram_case |].
  destruct (x <? 0xC000) eqn:H3; [lia |].
  destruct (x <? 0xE000) eqn:H4; [mmu_proj; decode_all; mmu_proj; ram_case |].
  destruct (x <? 0xFE00) eqn:H5; [mmu_proj; decode_all; mmu_proj; ram_case |].
  destruct (x <? 0xFEA0) eqn:H6; [mmu_proj; decode_all; mmu_proj; ram_case |].
  destruct (x <? 0xFF00) eqn:H7; [lia |].
  destruct (x <? 0xFF80) eqn:H8; [lia |].
  destruct (x <? 0xFFFF) eqn:H9; mmu_proj; decode_all; mmu_proj; ram_case.
Qed.

Lemma write_mem_ok (a v : Z) (m : MMU.t) :
  mem_ok m -> is_ram a = true -> mem_ok (MMU.write a v m).
Proof.
  intros (Hw & Hv & Hh & Ho & Hi) Ha.
  unfold is_ram, mem_ok, len in *. cbv zeta in *.
  pose proof (u16_range a) as Hra.
  unfold MMU.write. cbv zeta.
  decode_all; mmu_proj; rewrite ?arr_set_length; repeat split; assumption.
Qed.

(** X2.  A store to an address backed by RAM (video RAM, work RAM, its
    echo, OAM, high RAM or the IE register) changes the cell it names and
    nothing else that the bus can read: afterwards every address of that
    cell (the address itself and its echo alias) reads the byte stored,
    every other address reads what it read before, and the memories keep
    their sizes. *)
Theorem RAM_store (a b v : Z) (m : MMU.t) :
  mem_ok m -> is_ram a = true ->
  (cell b = cell a -> MMU.read b (MMU.write a v m) = u8 v)
  /\ (cell b <> cell a -> MMU.read b (MMU.write a v m) = MMU.read b m)
  /\ mem_ok (MMU.write a v m).
Proof.
  intros Hok Ha. split; [| split].
  - intros Hc. rewrite read_write_ram by assumption.
    rewrite Hc, Z.eqb_refl. reflexivity.
  - intros Hc. rewrite read_write_ram by assumption.
    apply Z.eqb_neq in Hc. rewrite Hc. reflexivity.
  - apply write_mem_ok; assumption.
Qed.

Lemma mem_ok_new : mem_ok MMU.new.
Proof. repeat split. Qed.

Lemma RAM_store_witness :
  (cell 0xE010 = cell 0xC010 ->
   MMU.read 0xE010 (MMU.write 0xC010 0x1234 MMU.new) = u8 0x1234)
  /\ (cell 0xE010 <> cell 0xC010 ->
      MMU.read 0xE010 (MMU.write 0xC010 0x1234 MMU.new)
      = MMU.read 0xE010 MMU.new)
  /\ mem_ok (MMU.write 0xC010 0x1234 MMU.new).
Proof.
  apply (RAM_store 0xC010 0xE010 0x1234 MMU.new);
    [exact mem_ok_new | reflexivity].
Defined.

(** X3.  Open bus: the unusable region 0xFEA0-0xFEFF reads 0xFF and
    ignores writes, and so does every address decoded to the cartridge
    (0x0000-0x7FFF and 0xA000-0xBFFF) while no cartridge is loaded. *)
Theorem open_bus (a v : Z) (m : MMU.t) :
  0xFEA0 <= u16 a <= 0xFEFF
  \/ (MMU.cartridge m = None /\ is_cartridge_addr a = true) ->
  MMU.read a m = 0xFF /\ MMU.write a v m = m.
Proof.
  unfold is_cartridge_addr. cbv zeta.
  pose proof (u16_range a) as Hra.
  unfold MMU.read, MMU.write. cbv zeta.
  intros [Ha | [Hc Ha]].
  - split; decode_all; reflexivity.
  - rewrite Hc. split; decode_all; reflexivity.
Qed.

Lemma open_bus_witness :
  MMU.read 0x4000 MMU.new = 0xFF /\ MMU.write 0x4000 0x12 MMU.new = MMU.new.
Proof.
  apply (open_bus 0x4000 0x12 MMU.new). right. split; reflexivity.
Defined.

(** *** DMA *)

Lemma read_set_oam (a : Z) (o : list Z) (m : MMU.t) :
  MMU.read a (MMU.set_oam o m)
  = if (0xFE00 <=? u16 a) && (u16 a <? 0xFEA0)
    then arr_get o (u16 a - 0xFE00) else MMU.read a m.
Proof.
  pose proof (u16_range a). unfold MMU.read. cbv zeta. mmu_proj.
  decode_all; reflexivity.
Qed.

Lemma read_oam (a : Z) (m : MMU.t) :
  0xFE00 <= u16 a < 0xFEA0 -> MMU.read a m = arr_get (MMU.oam m) (u16 a - 0xFE00).
Proof.
  intros Ha. unfold MMU.read. cbv zeta. decode_all; reflexivity.
Qed.

Lemma dma_oam_S (source : Z) (m : MMU.t) (n : nat) :
  dma_oam source m (S n)
  = arr_set (dma_oam source m n) (Z.of_nat n)
            (MMU.read (source + Z.of_nat n) m).
Proof.
  unfold dma_oam. rewrite seq_S, fold_left_app. reflexivity.
Qed.

Lemma dma_oam_length (source : Z) (m : MMU.t) (n : nat) :
  length (dma_oam source m n) = length (MMU.oam m).
Proof.
  induction n as [| n IH]; [reflexivity |].
  rewrite dma_oam_S, arr_set_length. exact IH.
Qed.

Lemma dma_oam_ge (source : Z) (m : MMU.t) (n : nat) (j : Z) :
  Z.of_nat n <= j -> arr_get (dma_oam source m n) j = arr_get (MMU.oam m) j.
Proof.
  induction n as [| n IH]; intros Hj; [reflexivity |].
  rewrite dma_oam_S, arr_get_set_ne by lia. apply IH. lia.
Qed.

Lemma dma_oam_lt (source : Z) (m : MMU.t) (n : nat) (j : Z) :
  0 <= j < Z.of_nat n -> Z.of_nat n <= len (MMU.oam m) ->
  arr_get (dma_oam source m n) j = MMU.read (source + j) m.
Proof.
  unfold len.
  induction n as [| n IH]; intros Hj Hn; [lia |].
  rewrite dma_oam_S.
  destruct (Z.eq_dec j (Z.of_nat n)) as [-> | Hne].
  - rewrite arr_get_set_eq; [reflexivity |].
    rewrite dma_oam_length. lia.
  - rewrite arr_get_set_ne by lia. apply IH; lia.
Qed.

(** The loop of [doDMATransfer] reads every source byte as it was before
    the transfer: a source inside OAM is read at the index about to be
    written. *)
Lemma doDMATransfer_eq (value : Z) (m : MMU.t) (n : nat) :
  (n <= 0xA0)%nat ->
  let source := u16 (Z.shiftl (u8 value) 8) in
  fold_left
    (fun m i => MMU.set_oam (arr_set (MMU.oam m) (Z.of_nat i)
                               (MMU.read (source + Z.of_nat i) m)) m)
    (seq 0 n) m
  = MMU.set_oam (dma_oam source m n) m.
Proof.
  intros Hn source.
  assert (Hsrc : exists k, 0 <= k < 256 /\ source = k * 256).
  { exists (u8 value). pose proof (u8_byte value) as Hb. unfold is_byte in Hb.
    split; [exact Hb |]. subst source. rewrite Z.shiftl_mul_pow2 by lia.
    apply u16_small. change (2 ^ 8) with 256. lia. }
  destruct Hsrc as (k & Hk & Hsrc).
  induction n as [| n IH].
  - destruct m; reflexivity.
  - rewrite seq_S, fold_left_app. cbn [fold_left Nat.add].
    rewrite IH by lia. mmu_proj.
    rewrite dma_oam_S, read_set_oam.
    destruct ((0xFE00 <=? u16 (source + Z.of_nat n))
              && (u16 (source + Z.of_nat n) <? 0xFEA0)) eqn:Hin;
      [| reflexivity].
    rewrite u16_small in Hin |- * by lia.
    assert (k = 254) by lia. subst k.
    rewrite dma_oam_ge by lia.
    rewrite read_oam by (rewrite u16_small; lia).
    rewrite u16_small by lia. reflexivity.
Qed.

(** X4.  OAM DMA: a write of [v] to 0xFF46 copies the 160 bytes that the
    bus read at [v * 0x100 .. v * 0x100 + 0x9F] before the write into OAM,
    stores [v] in the DMA register, and changes no other byte that the bus
    can read. *)
Theorem DMA_copies_page (v b : Z) (m : MMU.t) :
  mem_ok m ->
  MMU.read b (MMU.write 0xFF46 v m)
  = if (0xFE00 <=? u16 b) && (u16 b <? 0xFEA0)
    then MMU.read (u8 v * 0x100 + (u16 b - 0xFE00)) m
    else if u16 b =? 0xFF46 then u8 v
    else MMU.read b m.
Proof.
  intros (Hw & Hv & Hh & Ho & Hi). unfold len in *.
  assert (Hw46 : MMU.write 0xFF46 v m
                 = MMU.set_io (arr_set (MMU.io m) 0x46 (u8 v))
                     (MMU.set_oam
                        (dma_oam (u16 (Z.shiftl (u8 v) 8)) m 0xA0) m)).
  { unfold MMU.write. cbv zeta. change (u16 0xFF46) with 0xFF46.
    cbv iota. change (0xFF46 <? 0x8000) with false.
    cbn [Z.ltb Z.eqb Z.leb Z.compare Pos.compare Pos.compare_cont andb].
    cbv iota.
    unfold MMU.doDMATransfer. cbv zeta.
    rewrite (doDMATransfer_eq (u8 v) m 0xA0) by lia. cbv zeta.
    rewrite (u8_small (u8 v)) by apply u8_byte. reflexivity. }
  rewrite Hw46.
  pose proof (u8_byte v) as Hbv. unfold is_byte in Hbv.
  assert (Hsrc : u16 (Z.shiftl (u8 v) 8) = u8 v * 256).
  { rewrite Z.shiftl_mul_pow2 by lia. apply u16_small.
    change (2 ^ 8) with 256. lia. }
  rewrite Hsrc.
  pose proof (u16_range b) as Hrb.
  destruct ((0xFE00 <=? u16 b) && (u16 b <? 0xFEA0)) eqn:Hoam.
  - unfold MMU.read at 1. cbv zeta. mmu_proj.
    decode_all. apply dma_oam_lt; unfold len; lia.
  - unfold MMU.read. cbv zeta. mmu_proj.
    decode_all; try reflexivity; ram_case.
Qed.

Lemma DMA_copies_page_witness :
  MMU.read 0xFE03 (MMU.write 0xFF46 0xC1 (MMU.write 0xC103 0x42 MMU.new))
  = if (0xFE00 <=? u16 0xFE03) && (u16 0xFE03 <? 0xFEA0)
    then MMU.read (u8 0xC1 * 0x100 + (u16 0xFE03 - 0xFE00))
           (MMU.write 0xC103 0x42 MMU.new)
    else if u16 0xFE03 =? 0xFF46 then u8 0xC1
    else MMU.read 0xFE03 (MMU.write 0xC103 0x42 MMU.new).
Proof.
  apply (DMA_copies_page 0xC1 0xFE03 (MMU.write 0xC103 0x42 MMU.new)).
  repeat split.
Defined.
Lemma doDMATransfer_set_oam (value : Z) (m : MMU.t) :
  MMU.doDMATransfer value m
  = MMU.set_oam (dma_oam (u16 (Z.shiftl (u8 value) 8)) m 0xA0) m.
Proof.
  unfold MMU.doDMATransfer. cbv zeta.
  apply (doDMATransfer_eq value m 0xA0). lia.
Qed.

(** *** The cartridge ROM *)

Lemma writeROM_rom (addr value : Z) (c : Cartridge.t) :
  Cartridge.rom (Cartridge.writeROM addr value c) = Cartridge.rom c.
Proof.
  unfold Cartridge.writeROM. cbv zeta.
  repeat match goal with
    | |- context [if ?b then _ else _] => destruct b
    end; reflexivity.
Qed.

Lemma writeRAM_rom (addr value : Z) (c : Cartridge.t) :
  Cartridge.rom (Cartridge.writeRAM addr value c) = Cartridge.rom c.
Proof.
  unfold Cartridge.writeRAM. cbv zeta.
  repeat match goal with
    | |- context [if ?b then _ else _] => destruct b
    end; reflexivity.
Qed.

Lemma write_rom_of (a v : Z) (m : MMU.t) :
  rom_of (MMU.write a v m) = rom_of m.
Proof.
  unfold rom_of, MMU.write. cbv zeta.
  rewrite doDMATransfer_set_oam.
  destruct (MMU.cartridge m) as [c |] eqn:Hc;
    decode_all; mmu_proj; rewrite ?Hc, ?writeROM_rom, ?writeRAM_rom;
    reflexivity.
Qed.

Lemma bus_writes_rom_of (ws : list (Z * Z)) (m : MMU.t) :
  rom_of (bus_writes ws m) = rom_of m.
Proof.
  revert m. induction ws as [| [a v] ws IH]; intros m; [reflexivity |].
  unfold bus_writes. cbn [fold_left fst snd]. fold (bus_writes ws (MMU.write a v m)).
  rewrite IH. apply write_rom_of.
Qed.

Lemma write_has_cartridge (a v : Z) (m : MMU.t) :
  MMU.cartridge (MMU.write a v m) = None <-> MMU.cartridge m = None.
Proof.
  unfold MMU.write. cbv zeta.
  rewrite doDMATransfer_set_oam.
  destruct (MMU.cartridge m) as [c |] eqn:Hc;
    decode_all; mmu_proj; rewrite ?Hc; split; intros; done.
Qed.

Lemma read_bank0 (b : Z) (m : MMU.t) :
  u16 b < 0x4000 ->
  MMU.read b m
  = match MMU.cartridge m with
    | Some _ =>
        if u16 b <? len (rom_of m) then arr_get (rom_of m) (u16 b) else 0xFF
    | None => 0xFF
    end.
Proof.
  intros Hb. pose proof (u16_range b).
  unfold MMU.read, rom_of, len. cbv zeta.
  destruct (u16 b <? 0x4000) eqn:H4; [| lia].
  destruct (MMU.cartridge m) as [c |]; [| reflexivity].
  unfold Cartridge.readROM, Cartridge.size. cbv zeta.
  rewrite (u16_small (u16 b)) by lia. rewrite H4. reflexivity.
Qed.

(** X5.  The ROM is read-only: no sequence of bus writes, to any addresses
    and with any values, changes the ROM image of the cartridge or the byte
    that any address of the fixed bank 0x0000-0x3FFF reads. *)
Theorem ROM_is_read_only (ws : list (Z * Z)) (b : Z) (m : MMU.t) :
  rom_of (bus_writes ws m) = rom_of m
  /\ (u16 b < 0x4000 -> MMU.read b (bus_writes ws m) = MMU.read b m).
Proof.
  split; [apply bus_writes_rom_of |].
  intros Hb. rewrite !read_bank0 by assumption.
  rewrite bus_writes_rom_of.
  assert (Hc : MMU.cartridge (bus_writes ws m) = None
               <-> MMU.cartridge m = None).
  { revert m. induction ws as [| [a v] ws IH]; intros m; [reflexivity |].
    unfold bus_writes. cbn [fold_left fst snd].
    fold (bus_writes ws (MMU.write a v m)).
    rewrite IH. apply write_has_cartridge. }
  destruct (MMU.cartridge (bus_writes ws m)), (MMU.cartridge m);
    try reflexivity.
  - destruct Hc as [_ Hc]. specialize (Hc eq_refl). discriminate.
  - destruct Hc as [Hc _]. specialize (Hc eq_refl). discriminate.
Qed.

Lemma ROM_is_read_only_witness :
  let m := MMU.set_cartridge (Some (fresh_cartridge mbc1_image)) MMU.new in
  let ws := [(0x0147, 0x55); (0x2100, 0x03); (0x6000, 0x01)] in
  rom_of (bus_writes ws m) = rom_of m
  /\ MMU.read 0x0147 (bus_writes ws m) = MMU.read 0x0147 m.
Proof.
  intros m ws.
  destruct (ROM_is_read_only ws 0x0147 m) as [Hrom Hread].
  split; [exact Hrom | apply Hread; vm_compute; reflexivity].
Defined.

(** *** Sound registers *)

Lemma channel_writes_spec (b10 b11 b12 b13 b14 b16 b17 b18 b19 : bool)
      (value : Z) (a : APU.t) :
  let a' := channel_writes b10 b11 b12 b13 b14 b16 b17 b18 b19 value a in
  APU.registers a' = APU.registers a
  /\ APU.frame_sequencer a' = APU.frame_sequencer a
  /\ APU.frame_sequencer_cycles a' = APU.frame_sequencer_cycles a
  /\ APU.ch1 a'
     = upd b14 (APU.write_nr4 value)
         (upd b13 (APU.set_nr_3 value)
            (upd b12 (APU.set_nr_2 value)
               (upd b11 (APU.write_nr1 value)
                  (upd b10 (APU.set_nr_0 value) (APU.ch1 a)))))
  /\ APU.ch2 a'
     = upd b19 (APU.write_nr4 value)
         (upd b18 (APU.set_nr_3 value)
            (upd b17 (APU.set_nr_2 value)
               (upd b16 (APU.write_nr1 value) (APU.ch2 a)))).
Proof.
  destruct b10, b11, b12, b13, b14, b16, b17, b18, b19;
    repeat split; reflexivity.
Qed.

(** [APU::write] with its tail folded into [channel_writes]. *)
Lemma APU_write_eq (addr value : Z) (a : APU.t) :
  APU.write addr value a
  = if (0xFF10 <=? addr) && (addr <=? 0xFF3F) then
      let a := APU.set_registers
                 (arr_set (APU.registers a) (addr - 0xFF10) value) a in
      if addr =? 0xFF26 then
        if negb (nz (Z.land value 0x80)) then
          APU.mk (arr_set (APU.clear_low (APU.registers a)) (0x26 - 0x10)
                          (Z.land value 0x80))
                 (APU.frame_sequencer a) (APU.frame_sequencer_cycles a)
                 (APU.set_enabled false (APU.ch1 a))
                 (APU.set_enabled false (APU.ch2 a))
        else a
      else if Z.land (arr_get (APU.registers a) (0x26 - 0x10)) 0x80 =? 0
      then a
      else channel_writes (addr =? 0xFF10) (addr =? 0xFF11) (addr =? 0xFF12)
             (addr =? 0xFF13) (addr =? 0xFF14) (addr =? 0xFF16)
             (addr =? 0xFF17) (addr =? 0xFF18) (addr =? 0xFF19) value a
    else a.
Proof. reflexivity. Qed.

Lemma APU_write_registers (addr value : Z) (a : APU.t) :
  0xFF10 <= addr <= 0xFF3F -> addr <> 0xFF26 ->
  APU.registers (APU.write addr value a)
  = arr_set (APU.registers a) (addr - 0xFF10) value.
Proof.
  intros Hin Hne. rewrite APU_write_eq. cbv zeta.
  destruct ((0xFF10 <=? addr) && (addr <=? 0xFF3F)) eqn:Hr; [| lia].
  destruct (addr =? 0xFF26) eqn:H26; [lia |].
  destruct (Z.land _ 0x80 =? 0); [reflexivity |].
  match goal with
  | |- APU.registers (channel_writes ?b0 ?b1 ?b2 ?b3 ?b4 ?b6 ?b7 ?b8 ?b9 ?v ?x)
       = _ =>
      destruct (channel_writes_spec b0 b1 b2 b3 b4 b6 b7 b8 b9 v x)
        as (Hregs & _)
  end.
  rewrite Hregs. reflexivity.
Qed.

(** X6.  The sound registers are write-only on the bus: a write to
    0xFF10-0xFF3F is handed to the APU, whose register file records it (so
    that [APU::read] would return it), but [MMU::read] never asks the APU:
    after the write every bus address, the one written included, reads
    what it read before. *)
Theorem sound_registers_write_only (a b v : Z) (m : MMU.t) :
  0xFF10 <= u16 a <= 0xFF3F ->
  len (APU.registers (MMU.apu m)) = 0x30 ->
  MMU.read b (MMU.write a v m) = MMU.read b m
  /\ (u16 a <> 0xFF26 ->
      APU.read a (MMU.apu (MMU.write a v m)) = u8 v).
Proof.
  intros Ha Hlen. unfold len in Hlen.
  assert (Hw : MMU.write a v m
               = MMU.set_apu (APU.write (u16 a) (u8 v) (MMU.apu m)) m).
  { unfold MMU.write. cbv zeta. decode_all; reflexivity. }
  rewrite Hw. split.
  - unfold MMU.read. cbv zeta. mmu_proj. reflexivity.
  - intros Hne. mmu_proj. unfold APU.read. cbv zeta.
    destruct ((0xFF10 <=? u16 a) && (u16 a <=? 0xFF3F)) eqn:Hin; [| lia].
    destruct (u16 a =? 0xFF26) eqn:H26; [lia |].
    rewrite APU_write_registers by lia.
    apply arr_get_set_eq. lia.
Qed.

Lemma sound_registers_write_only_witness :
  MMU.read 0xFF12 (MMU.write 0xFF12 0x55 MMU.new) = MMU.read 0xFF12 MMU.new
  /\ (u16 0xFF12 <> 0xFF26 ->
      APU.read 0xFF12 (MMU.apu (MMU.write 0xFF12 0x55 MMU.new)) = u8 0x55).
Proof.
  apply (sound_registers_write_only 0xFF12 0xFF12 0x55 MMU.new).
  - vm_compute. split; discriminate.
  - reflexivity.
Defined.

(** After power-on NR52 reads 0xF1 from the bus whatever is written to it,
    while the APU sees the master switch go off. *)
Example NR52_reads_stale :
  MMU.read 0xFF26 (MMU.write 0xFF26 0x00 MMU.new) = 0xF1
  /\ APU.read 0xFF26 (MMU.apu (MMU.write 0xFF26 0x00 MMU.new)) = 0x00.
Proof. split; vm_compute; reflexivity. Qed.

(** ** Sound unit (apu.cpp) *)

Lemma clear_low_get (r : list Z) (i : Z) :
  arr_get (APU.clear_low r) i = if (0 <=? i) && (i <? 0x20) then 0 else arr_get r i.
Proof.
  unfold APU.clear_low.
  assert (H : forall n : nat,
             arr_get (fold_left (fun acc i => arr_set acc (Z.of_nat i) 0)
                                (seq 0 n) r) i
             = if (0 <=? i) && (i <? Z.of_nat n) then 0 else arr_get r i).
  { induction n as [| n IH].
    - cbn [seq fold_left]. change (Z.of_nat 0) with 0.
      destruct (_ && _) eqn:E; [lia | reflexivity].
    - rewrite seq_S, fold_left_app. cbn [fold_left Nat.add].
      rewrite Nat2Z.inj_succ. unfold Z.succ.
      pose proof (Nat2Z.is_nonneg n) as Hn. revert IH Hn.
      generalize (Z.of_nat n) as k. intros k IH Hk.
      destruct (Z.eq_dec i k) as [-> | Hne].
      + rewrite arr_get_set_zero.
        destruct ((0 <=? k) && (k <? k + 1)) eqn:E; [reflexivity | lia].
      + rewrite arr_get_set_ne by lia. rewrite IH.
        destruct ((0 <=? i) && (i <? k)) eqn:E1,
                 ((0 <=? i) && (i <? k + 1)) eqn:E2;
          try reflexivity; lia. }
  apply (H 0x20%nat).
Qed.

(** X7.  Switching the sound unit off: a write to NR52 (0xFF26) with bit 7
    clear zeroes the registers 0xFF10-0xFF2F (NR52 included), keeps the
    wave RAM 0xFF30-0xFF3F and disables both square channels; from then on
    a write to any other sound register leaves both channels exactly as
    they are, a trigger included. *)
Theorem NR52_power_off (value : Z) (a : APU.t) :
  Z.land value 0x80 = 0 ->
  let a' := APU.write 0xFF26 value a in
  (forall i, 0 <= i < 0x20 -> arr_get (APU.registers a') i = 0)
  /\ (forall i, 0x20 <= i < 0x30 ->
      arr_get (APU.registers a') i = arr_get (APU.registers a) i)
  /\ APU.enabled (APU.ch1 a') = false
  /\ APU.enabled (APU.ch2 a') = false
  /\ (forall addr v, addr <> 0xFF26 ->
      APU.ch1 (APU.write addr v a') = APU.ch1 a'
      /\ APU.ch2 (APU.write addr v a') = APU.ch2 a').
Proof.
  intros Hoff a'.
  assert (Ha' : a' = APU.mk
            (arr_set (APU.clear_low
                        (arr_set (APU.registers a) (0xFF26 - 0xFF10) value))
                     (0x26 - 0x10) 0)
            (APU.frame_sequencer a) (APU.frame_sequencer_cycles a)
            (APU.set_enabled false (APU.ch1 a))
            (APU.set_enabled false (APU.ch2 a))).
  { subst a'. rewrite APU_write_eq. cbv zeta.
    change ((0xFF10 <=? 0xFF26) && (0xFF26 <=? 0xFF3F)) with true.
    change (0xFF26 =? 0xFF26) with true. cbv iota.
    rewrite Hoff. reflexivity. }
  clearbody a'. subst a'. cbn [APU.registers APU.ch1 APU.ch2].
  assert (Hlow : forall i, 0 <= i < 0x20 ->
            arr_get (arr_set (APU.clear_low
                        (arr_set (APU.registers a) (0xFF26 - 0xFF10) value))
                        (0x26 - 0x10) 0) i = 0).
  { intros i Hi. destruct (Z.eq_dec i (0x26 - 0x10)) as [-> | Hne].
    - apply arr_get_set_zero.
    - rewrite arr_get_set_ne by lia. rewrite clear_low_get.
      destruct ((0 <=? i) && (i <? 0x20)) eqn:E; [reflexivity | lia]. }
  split; [exact Hlow |]. split; [| split; [reflexivity |]; split; [reflexivity |]].
  - intros i Hi. rewrite arr_get_set_ne by lia. rewrite clear_low_get.
    destruct ((0 <=? i) && (i <? 0x20)) eqn:E; [lia |].
    apply arr_get_set_ne. lia.
  - intros addr v Hne. rewrite APU_write_eq. cbv zeta.
    destruct ((0xFF10 <=? addr) && (addr <=? 0xFF3F)) eqn:Hr;
      [| split; reflexivity].
    destruct (addr =? 0xFF26) eqn:H26; [lia |].
    cbn [APU.registers APU.set_registers].
    rewrite (arr_get_set_ne _ (addr - 0xFF10) (0x26 - 0x10)) by lia.
    rewrite (Hlow (0x26 - 0x10)) by lia.
    change (Z.land 0 0x80 =? 0) with true. cbv iota.
    split; reflexivity.
Qed.

Lemma NR52_power_off_witness :
  (forall i, 0 <= i < 0x20 ->
     arr_get (APU.registers (APU.write 0xFF26 0x00 APU.new)) i = 0)
  /\ (forall i, 0x20 <= i < 0x30 ->
      arr_get (APU.registers (APU.write 0xFF26 0x00 APU.new)) i
      = arr_get (APU.registers APU.new) i)
  /\ APU.enabled (APU.ch1 (APU.write 0xFF26 0x00 APU.new)) = false
  /\ APU.enabled (APU.ch2 (APU.write 0xFF26 0x00 APU.new)) = false
  /\ (forall addr v, addr <> 0xFF26 ->
      APU.ch1 (APU.write addr v (APU.write 0xFF26 0x00 APU.new))
      = APU.ch1 (APU.write 0xFF26 0x00 APU.new)
      /\ APU.ch2 (APU.write addr v (APU.write 0xFF26 0x00 APU.new))
         = APU.ch2 (APU.write 0xFF26 0x00 APU.new)).
Proof. apply (NR52_power_off 0x00 APU.new). reflexivity. Defined.
Lemma shiftr4_byte (x : Z) : is_byte x -> 0 <= Z.shiftr x 4 <= 15.
Proof.
  unfold is_byte. intros Hx. rewrite Z.shiftr_div_pow2 by lia.
  change (2 ^ 4) with 16. split.
  - apply Z.div_pos; lia.
  - apply Z.lt_succ_r. apply Z.div_lt_upper_bound; lia.
Qed.

Lemma land_ones_range (x n : Z) : 0 <= n -> 0 <= Z.land x (Z.ones n) < 2 ^ n.
Proof.
  intros Hn. rewrite Z.land_ones by assumption.
  apply Z.mod_pos_bound. apply Z.pow_pos_nonneg; lia.
Qed.

Lemma land7_range (x : Z) : 0 <= Z.land x 0x07 <= 7.
Proof.
  pose proof (land_ones_range x 3 ltac:(lia)) as H.
  change (Z.ones 3) with 7 in H. change (2 ^ 3) with 8 in H. lia.
Qed.

Lemma land3F_range (x : Z) : 0 <= Z.land x 0x3F <= 63.
Proof.
  pose proof (land_ones_range x 6 ltac:(lia)) as H.
  change (Z.ones 6) with 63 in H. change (2 ^ 6) with 64 in H. lia.
Qed.

Ltac ch_fields :=
  cbn [APU.nr_0 APU.nr_1 APU.nr_2 APU.nr_3 APU.nr_4 APU.enabled APU.timer
       APU.duty_pos APU.length_counter APU.volume APU.envelope_timer
       APU.output APU.set_enabled APU.set_nr_0 APU.write_nr1 APU.set_nr_2
       APU.set_nr_3 APU.set_nr_4 APU.set_timer APU.set_duty_pos
       APU.set_length_counter APU.set_volume APU.set_envelope_timer
       APU.set_output APU.triggerSquareChannel].

Lemma ch_ok_trigger (c : APU.SquareChannel) :
  ch_ok c -> ch_ok (APU.triggerSquareChannel c).
Proof.
  unfold ch_ok. intros (Hb & Hv & Hl & He & Ho). cbv zeta. ch_fields.
  pose proof (shiftr4_byte _ Hb). pose proof (land7_range (APU.nr_2 c)).
  destruct (APU.length_counter c =? 0); repeat split; lia || apply Hb.
Qed.

Lemma ch_ok_write_nr4 (v : Z) (c : APU.SquareChannel) :
  ch_ok c -> ch_ok (APU.write_nr4 v c).
Proof.
  intros Hc. unfold APU.write_nr4. cbv zeta.
  destruct (nz (Z.land v 0x80)); [apply ch_ok_trigger |]; exact Hc.
Qed.

Lemma ch_ok_write_nr1 (v : Z) (c : APU.SquareChannel) :
  ch_ok c -> ch_ok (APU.write_nr1 v c).
Proof.
  unfold ch_ok. intros (Hb & Hv & Hl & He & Ho). ch_fields.
  pose proof (land3F_range v). repeat split; lia || apply Hb.
Qed.

Lemma ch_ok_set_nr_2 (v : Z) (c : APU.SquareChannel) :
  is_byte v -> ch_ok c -> ch_ok (APU.set_nr_2 v c).
Proof.
  unfold ch_ok. intros Hbv (Hb & Hv & Hl & He & Ho). ch_fields.
  repeat split; lia || apply Hbv.
Qed.

Lemma ch_ok_upd (b : bool) (f : APU.SquareChannel -> APU.SquareChannel)
      (c : APU.SquareChannel) :
  (ch_ok c -> ch_ok (f c)) -> ch_ok c -> ch_ok (upd b f c).
Proof. destruct b; simpl; auto. Qed.

Lemma ch_ok_set_enabled (b : bool) (c : APU.SquareChannel) :
  ch_ok c -> ch_ok (APU.set_enabled b c).
Proof. exact (fun H => H). Qed.

Lemma apu_ok_write (addr value : Z) (a : APU.t) :
  apu_ok a -> is_byte value -> apu_ok (APU.write addr value a).
Proof.
  intros [H1 H2] Hv. rewrite APU_write_eq. cbv zeta.
  destruct ((0xFF10 <=? addr) && (addr <=? 0xFF3F)); [| split; assumption].
  destruct (addr =? 0xFF26).
  { destruct (negb (nz (Z.land value 0x80))); split; assumption. }
  destruct (Z.land _ 0x80 =? 0); [split; assumption |].
  match goal with
  | |- apu_ok (channel_writes ?b0 ?b1 ?b2 ?b3 ?b4 ?b6 ?b7 ?b8 ?b9 ?v ?x) =>
      destruct (channel_writes_spec b0 b1 b2 b3 b4 b6 b7 b8 b9 v x)
        as (_ & _ & _ & Hc1 & Hc2)
  end.
  unfold apu_ok. rewrite Hc1, Hc2. cbn [APU.ch1 APU.ch2 APU.set_registers].
  split.
  - apply ch_ok_upd; [apply ch_ok_write_nr4 |].
    apply ch_ok_upd; [exact (fun H => H) |].
    apply ch_ok_upd; [apply ch_ok_set_nr_2; exact Hv |].
    apply ch_ok_upd; [apply ch_ok_write_nr1 |].
    apply ch_ok_upd; [exact (fun H => H) |]. exact H1.
  - apply ch_ok_upd; [apply ch_ok_write_nr4 |].
    apply ch_ok_upd; [exact (fun H => H) |].
    apply ch_ok_upd; [apply ch_ok_set_nr_2; exact Hv |].
    apply ch_ok_upd; [apply ch_ok_write_nr1 |]. exact H2.
Qed.

Lemma ch_ok_clockLength (c : APU.SquareChannel) :
  ch_ok c -> ch_ok (APU.clockLength_ch c).
Proof.
  unfold ch_ok, APU.clockLength_ch. intros (Hb & Hv & Hl & He & Ho).
  cbv zeta.
  destruct (nz (Z.land (APU.nr_4 c) 0x40) && (0 <? APU.length_counter c))
    eqn:E; [| auto].
  ch_fields. destruct (APU.length_counter c - 1 =? 0); ch_fields;
    repeat split; lia || apply Hb.
Qed.

Lemma ch_ok_clockEnvelope (c : APU.SquareChannel) :
  ch_ok c -> ch_ok (APU.clockEnvelope_ch c).
Proof.
  unfold ch_ok, APU.clockEnvelope_ch. intros (Hb & Hv & Hl & He & Ho).
  cbv zeta. pose proof (land7_range (APU.nr_2 c)).
  destruct (APU.enabled c && nz (Z.land (APU.nr_2 c) 0x07)); [| auto].
  destruct (0 <? APU.envelope_timer c) eqn:E; [| auto].
  ch_fields.
  destruct (APU.envelope_timer c - 1 =? 0); ch_fields;
    [| repeat split; lia || apply Hb].
  destruct (nz (Z.land (APU.nr_2 c) 0x08)).
  - destruct (APU.volume c <? 15) eqn:E2; ch_fields;
      repeat split; lia || apply Hb.
  - destruct (0 <? APU.volume c) eqn:E2; ch_fields;
      repeat split; lia || apply Hb.
Qed.

Lemma ch_ok_update (cycles : Z) (c : APU.SquareChannel) :
  ch_ok c -> ch_ok (APU.updateSquareChannel cycles c).
Proof.
  unfold ch_ok, APU.updateSquareChannel. intros (Hb & Hv & Hl & He & Ho).
  cbv zeta. ch_fields.
  assert (Hout : forall b : bool,
            0 <= u8 (if b then APU.volume c else 0) <= 15).
  { intros b. rewrite u8_small by (unfold is_byte; destruct b; lia).
    destruct b; lia. }
  destruct (APU.timer c - cycles <=? 0); ch_fields;
    repeat split; try lia; try apply Hb; apply Hout.
Qed.

(** X8.  The state of the square channels stays in range: if volume is in
    0..15, the length counter in 0..64, the envelope timer in 0..7 and the
    output in 0..15 (as after construction), they still are after any
    register write of a byte, after a length clock, an envelope clock and a
    frequency-timer update; and then [generateSample] returns a value
    between -26000 and 30000, so that its clamp to the [i16] range never
    changes the sum. *)
Theorem APU_state_ranges (a : APU.t) (addr value cycles : Z) :
  apu_ok a -> is_byte value ->
  apu_ok (APU.write addr value a)
  /\ apu_ok (APU.clockLength a)
  /\ apu_ok (APU.clockEnvelope a)
  /\ ch_ok (APU.updateSquareChannel cycles (APU.ch1 a))
  /\ ch_ok (APU.updateSquareChannel cycles (APU.ch2 a))
  /\ -26000 <= APU.generateSample a <= 30000.
Proof.
  intros Hok Hv. pose proof Hok as [H1 H2].
  split; [apply apu_ok_write; assumption |].
  split; [split; [apply ch_ok_clockLength | apply ch_ok_clockLength];
          assumption |].
  split; [split; [apply ch_ok_clockEnvelope | apply ch_ok_clockEnvelope];
          assumption |].
  split; [apply ch_ok_update; assumption |].
  split; [apply ch_ok_update; assumption |].
  destruct H1 as (_ & _ & _ & _ & Ho1). destruct H2 as (_ & _ & _ & _ & Ho2).
  unfold APU.generateSample. cbv zeta.
  destruct (APU.enabled (APU.ch1 a)), (APU.enabled (APU.ch2 a));
    cbn [andb];
    destruct (0 <? APU.output (APU.ch1 a)) eqn:E1,
             (0 <? APU.output (APU.ch2 a)) eqn:E2;
    match goal with
    | |- context [if 32767 <? ?y then _ else _] =>
        destruct (32767 <? y) eqn:?
    end;
    match goal with
    | |- context [if ?x <? ?y then _ else _] => destruct (x <? y) eqn:?
    end; lia.
Qed.

Lemma apu_ok_new : apu_ok APU.new.
Proof.
  unfold apu_ok, ch_ok, is_byte. simpl. lia.
Qed.

Lemma APU_state_ranges_witness :
  apu_ok (APU.write 0xFF12 0xF3 APU.new)
  /\ apu_ok (APU.clockLength APU.new)
  /\ apu_ok (APU.clockEnvelope APU.new)
  /\ ch_ok (APU.updateSquareChannel 4 (APU.ch1 APU.new))
  /\ ch_ok (APU.updateSquareChannel 4 (APU.ch2 APU.new))
  /\ -26000 <= APU.generateSample APU.new <= 30000.
Proof.
  apply (APU_state_ranges APU.new 0xFF12 0xF3 4).
  - unfold apu_ok, ch_ok, is_byte. simpl. lia.
  - unfold is_byte. lia.
Defined.

Lemma iter_clockLength (n : nat) (c : APU.SquareChannel) :
  nz (Z.land (APU.nr_4 c) 0x40) = true ->
  Z.of_nat n < APU.length_counter c ->
  Nat.iter n APU.clockLength_ch c
  = APU.set_length_counter (APU.length_counter c - Z.of_nat n) c.
Proof.
  intros Hen. induction n as [| n IH]; intros Hn.
  - simpl. rewrite Z.sub_0_r. destruct c; reflexivity.
  - rewrite Nat.iter_succ, IH by lia.
    unfold APU.clockLength_ch. cbv zeta. ch_fields. rewrite Hen.
    destruct (0 <? APU.length_counter c - Z.of_nat n) eqn:E; [| lia].
    cbn [andb].
    destruct (APU.length_counter c - Z.of_nat n - 1 =? 0) eqn:E0; [lia |].
    unfold APU.set_length_counter. ch_fields. f_equal. lia.
Qed.

Lemma iter_clockLength_channels (n : nat) (a : APU.t) :
  APU.ch1 (Nat.iter n APU.clockLength a)
  = Nat.iter n APU.clockLength_ch (APU.ch1 a)
  /\ APU.ch2 (Nat.iter n APU.clockLength a)
     = Nat.iter n APU.clockLength_ch (APU.ch2 a).
Proof.
  induction n as [| n [IH1 IH2]]; [split; reflexivity |].
  rewrite !Nat.iter_succ. unfold APU.clockLength at 1 3. cbv zeta.
  cbn [APU.ch1 APU.ch2 APU.set_ch1 APU.set_ch2].
  rewrite IH1, IH2. split; reflexivity.
Qed.

Lemma clockLength_ch_expiry (c : APU.SquareChannel) (n : nat) :
  nz (Z.land (APU.nr_4 c) 0x40) = true ->
  0 < APU.length_counter c ->
  Nat.iter n APU.clockLength_ch c
  = if Z.of_nat n <? APU.length_counter c
    then APU.set_length_counter (APU.length_counter c - Z.of_nat n) c
    else APU.set_enabled false (APU.set_length_counter 0 c).
Proof.
  intros Hen Hpos.
  destruct (Z.of_nat n <? APU.length_counter c) eqn:Hlt.
  - apply iter_clockLength; [assumption | lia].
  - apply Z.ltb_ge in Hlt.
    induction n as [| n IH]; [simpl in Hlt; lia |].
    rewrite Nat.iter_succ.
    destruct (Z.eq_dec (Z.of_nat (S n)) (APU.length_counter c)) as [Heq | Hne].
    + rewrite iter_clockLength by (assumption || lia).
      unfold APU.clockLength_ch. cbv zeta. ch_fields. rewrite Hen.
      destruct (0 <? APU.length_counter c - Z.of_nat n) eqn:E; [| lia].
      cbn [andb].
      destruct (APU.length_counter c - Z.of_nat n - 1 =? 0) eqn:E0; [| lia].
      apply Z.eqb_eq in E0. rewrite E0. reflexivity.
    + rewrite IH by lia.
      unfold APU.clockLength_ch. cbv zeta. ch_fields. rewrite Hen.
      reflexivity.
Qed.

(** X9.  Length counter: on a square channel (the first when [first] is
    true, else the second) whose length enable bit (NRx4 bit 6) is set and
    whose length counter holds L > 0, the first L - 1 calls of
    [clockLength] only count down, leaving the channel as enabled as it
    was, the L-th call brings the counter to 0 and disables the channel,
    and every later call changes nothing. *)
Theorem length_counter_expiry (first : bool) (a : APU.t) (n : nat) :
  let chan := fun a => if first then APU.ch1 a else APU.ch2 a in
  nz (Z.land (APU.nr_4 (chan a)) 0x40) = true ->
  0 < APU.length_counter (chan a) ->
  chan (Nat.iter n APU.clockLength a)
  = if Z.of_nat n <? APU.length_counter (chan a)
    then APU.set_length_counter
           (APU.length_counter (chan a) - Z.of_nat n) (chan a)
    else APU.set_enabled false (APU.set_length_counter 0 (chan a)).
Proof.
  cbv zeta. intros Hen Hpos.
  destruct (iter_clockLength_channels n a) as [H1 H2].
  destruct first; [rewrite H1 | rewrite H2];
    apply clockLength_ch_expiry; assumption.
Qed.

Lemma length_counter_expiry_witness :
  APU.ch1 (Nat.iter 4 APU.clockLength
             (APU.write 0xFF14 0xC0 (APU.write 0xFF11 0x3D APU.new)))
  = if Z.of_nat 4
       <? APU.length_counter
            (APU.ch1 (APU.write 0xFF14 0xC0 (APU.write 0xFF11 0x3D APU.new)))
    then APU.set_length_counter
           (APU.length_counter
              (APU.ch1 (APU.write 0xFF14 0xC0
                          (APU.write 0xFF11 0x3D APU.new)))
            - Z.of_nat 4)
           (APU.ch1 (APU.write 0xFF14 0xC0 (APU.write 0xFF11 0x3D APU.new)))
    else APU.set_enabled false
           (APU.set_length_counter 0
              (APU.ch1 (APU.write 0xFF14 0xC0
                          (APU.write 0xFF11 0x3D APU.new)))).
Proof.
  apply (length_counter_expiry true
           (APU.write 0xFF14 0xC0 (APU.write 0xFF11 0x3D APU.new)) 4);
    reflexivity.
Defined.

(** A note of length 3 (NR11 = 0x3D) triggered with the length enable bit:
    playing after two length clocks, silent after the third. *)
Example note_of_length_3 :
  APU.enabled
    (APU.ch1 (Nat.iter 2 APU.clockLength
                (APU.write 0xFF14 0xC0 (APU.write 0xFF11 0x3D APU.new))))
  = true
  /\ APU.enabled
       (APU.ch1 (Nat.iter 3 APU.clockLength
                   (APU.write 0xFF14 0xC0 (APU.write 0xFF11 0x3D APU.new))))
     = false.
Proof. split; vm_compute; reflexivity. Qed.
(** *** The PCM ring buffer *)

Lemma wrap_cases (x : Z) :
  0 <= x < 2 * 4096 -> x mod 4096 = if x <? 4096 then x else x - 4096.
Proof.
  intros Hx. destruct (x <? 4096) eqn:E.
  - apply Z.mod_small. lia.
  - replace x with (x - 4096 + 1 * 4096) at 1 by lia.
    rewrite Z.mod_add by lia. apply Z.mod_small. lia.
Qed.

Lemma rem_wrap (x : Z) : 0 <= x -> Z.rem x 4096 = x mod 4096.
Proof. intros Hx. apply Z.rem_mod_nonneg; lia. Qed.

Lemma ring_contents_lookup (r : APU.ring) (i : nat) :
  ring_contents r !! i
  = if Z.of_nat i <? APU.getBufferedSampleCount r
    then Some (arr_get (APU.sample_buffer r)
                 ((APU.buffer_read_pos r + Z.of_nat i) mod 4096))
    else None.
Proof.
  unfold ring_contents. rewrite list_lookup_fmap.
  destruct (Z.of_nat i <? APU.getBufferedSampleCount r) eqn:E.
  - rewrite lookup_seq_lt by lia. reflexivity.
  - rewrite lookup_seq_ge by lia. reflexivity.
Qed.

Lemma ring_count_range (r : APU.ring) :
  ring_ok r ->
  0 <= APU.getBufferedSampleCount r <= 4095
  /\ APU.buffer_write_pos r
     = (APU.buffer_read_pos r + APU.getBufferedSampleCount r) mod 4096.
Proof.
  unfold ring_ok, APU.getBufferedSampleCount, APU.BUFFER_SIZE.
  intros (_ & Hw & Hr).
  destruct (APU.buffer_read_pos r <=? APU.buffer_write_pos r) eqn:E.
  - split; [lia |]. rewrite wrap_cases by lia.
    destruct (_ <? 4096) eqn:E2; lia.
  - split; [lia |]. rewrite wrap_cases by lia.
    destruct (_ <? 4096) eqn:E2; lia.
Qed.

Lemma ring_contents_length (r : APU.ring) :
  ring_ok r ->
  Z.of_nat (length (ring_contents r)) = APU.getBufferedSampleCount r.
Proof.
  intros Hok. destruct (ring_count_range r Hok) as [Hc _].
  unfold ring_contents. rewrite length_map, length_seq. lia.
Qed.

(** Arithmetic, also where the goal itself is not arithmetic. *)
Ltac by_arith := first [lia | exfalso; lia].

(** X10.  The PCM ring buffer is a FIFO of capacity 4095: [pushSample]
    appends the sample to the waiting ones, dropping the oldest one when
    4095 are already waiting; [popSample] returns the oldest waiting sample
    and removes it, or returns 0 and changes nothing when none is waiting;
    [getBufferedSampleCount] is the number of waiting samples. *)
Theorem ring_buffer_fifo (x : Z) (r : APU.ring) :
  ring_ok r ->
  ring_ok (APU.pushSample x r)
  /\ ring_contents (APU.pushSample x r)
     = (if APU.getBufferedSampleCount r <? 4095
        then ring_contents r else tail (ring_contents r)) ++ [x]
  /\ ring_ok (snd (APU.popSample r))
  /\ fst (APU.popSample r) = hd 0 (ring_contents r)
  /\ ring_contents (snd (APU.popSample r)) = tail (ring_contents r)
  /\ APU.getBufferedSampleCount r = Z.of_nat (length (ring_contents r))
  /\ APU.getBufferedSampleCount r <= 4095.
Proof.
  intros Hok.
  destruct (ring_count_range r Hok) as [Hc Hw].
  pose proof (ring_contents_length r Hok) as Hlen.
  pose proof Hok as (Hbuf & Hwr & Hrd).
  unfold len, APU.BUFFER_SIZE in *.
  set (w := APU.buffer_write_pos r) in *.
  set (rd := APU.buffer_read_pos r) in *.
  set (n := APU.getBufferedSampleCount r) in *.
  assert (Hpush_ok : ring_ok (APU.pushSample x r)).
  { unfold ring_ok, APU.pushSample, len, APU.BUFFER_SIZE. cbv zeta.
    cbn [APU.sample_buffer APU.buffer_write_pos APU.buffer_read_pos].
    fold w rd. rewrite arr_set_length, !rem_wrap by by_arith.
    pose proof (Z.mod_pos_bound (w + 1) 4096 ltac:(lia)).
    pose proof (Z.mod_pos_bound (rd + 1) 4096 ltac:(lia)).
    destruct (_ =? rd); repeat split; by_arith. }
  assert (Hpop_ok : ring_ok (snd (APU.popSample r))).
  { unfold ring_ok, APU.popSample, len, APU.BUFFER_SIZE. cbv zeta.
    fold w rd.
    destruct (negb (rd =? w)); cbn [snd APU.sample_buffer
      APU.buffer_write_pos APU.buffer_read_pos]; fold w rd;
      [| repeat split; by_arith].
    rewrite rem_wrap by by_arith.
    pose proof (Z.mod_pos_bound (rd + 1) 4096 ltac:(lia)).
    repeat split; by_arith. }
  split; [exact Hpush_ok |].
  split; [| split; [exact Hpop_ok |]; split; [| split; [| split; by_arith]]].
  - (* push *)
    apply list_eq. intros i. pose proof (Nat2Z.is_nonneg i) as Hi0.
    rewrite ring_contents_lookup.
    unfold APU.getBufferedSampleCount at 1, APU.pushSample, APU.BUFFER_SIZE.
    cbv zeta.
    cbn [APU.sample_buffer APU.buffer_write_pos APU.buffer_read_pos].
    fold w rd. rewrite !rem_wrap by by_arith.
    assert (Hn : n = if rd <=? w then w - rd else 4096 - rd + w)
      by reflexivity.
    rewrite (wrap_cases (w + 1)) by by_arith.
    rewrite (wrap_cases (rd + 1)) by by_arith.
    rewrite wrap_cases in Hw by by_arith.
    destruct (n <? 4095) eqn:Hfull.
    + (* room left *)
      rewrite lookup_app, ring_contents_lookup. fold n rd.
      assert (Hne : ((if w + 1 <? 4096 then w + 1 else w + 1 - 4096) =? rd)
                    = false).
      { destruct (w + 1 <? 4096) eqn:?, (rd <=? w) eqn:?,
          (rd + n <? 4096) eqn:?; by_arith. }
      rewrite Hne.
      assert (Hn' : (if rd <=? (if w + 1 <? 4096 then w + 1 else w + 1 - 4096)
                     then (if w + 1 <? 4096 then w + 1 else w + 1 - 4096) - rd
                     else 4096 - rd
                          + (if w + 1 <? 4096 then w + 1 else w + 1 - 4096))
                    = n + 1).
      { destruct (w + 1 <? 4096) eqn:?, (rd <=? w) eqn:?,
          (rd + n <? 4096) eqn:?;
          repeat match goal with
            | |- context [if ?a <=? ?b then _ else _] =>
                destruct (a <=? b) eqn:?
            end; by_arith. }
      rewrite Hn'.
      destruct (Z.of_nat i <? n) eqn:Hi.
      * destruct (Z.of_nat i <? n + 1) eqn:Hi'; [| by_arith].
        f_equal. apply arr_get_set_ne.
        rewrite wrap_cases by by_arith.
        destruct (rd + Z.of_nat i <? 4096) eqn:?, (rd + n <? 4096) eqn:?;
          by_arith.
      * destruct (Z.of_nat i <? n + 1) eqn:Hi'.
        -- assert (Z.of_nat i = n) by by_arith.
           replace (i - length (ring_contents r))%nat with 0%nat by by_arith.
           cbn [lookup list_lookup]. f_equal.
           replace ((rd + Z.of_nat i) mod 4096) with w
             by (rewrite wrap_cases by by_arith;
                 destruct (rd + Z.of_nat i <? 4096) eqn:?,
                          (rd + n <? 4096) eqn:?; by_arith).
           apply arr_get_set_eq. by_arith.
        -- rewrite lookup_ge_None_2; [reflexivity |]. simpl. by_arith.
    + (* full: the oldest sample goes *)
      assert (n = 4095) by by_arith.
      rewrite lookup_app, lookup_tail, ring_contents_lookup. fold n rd.
      replace (Z.of_nat (S i)) with (Z.of_nat i + 1) by by_arith.
      assert (Heq : ((if w + 1 <? 4096 then w + 1 else w + 1 - 4096) =? rd)
                    = true).
      { destruct (w + 1 <? 4096) eqn:?, (rd <=? w) eqn:?,
          (rd + n <? 4096) eqn:?; by_arith. }
      rewrite Heq.
      assert (Hn' : (if (if rd + 1 <? 4096 then rd + 1 else rd + 1 - 4096)
                        <=? (if w + 1 <? 4096 then w + 1 else w + 1 - 4096)
                     then (if w + 1 <? 4096 then w + 1 else w + 1 - 4096)
                          - (if rd + 1 <? 4096 then rd + 1 else rd + 1 - 4096)
                     else 4096
                          - (if rd + 1 <? 4096 then rd + 1 else rd + 1 - 4096)
                          + (if w + 1 <? 4096 then w + 1 else w + 1 - 4096))
                    = 4095).
      { destruct (w + 1 <? 4096) eqn:?, (rd + 1 <? 4096) eqn:?,
          (rd <=? w) eqn:?, (rd + n <? 4096) eqn:?;
          repeat match goal with
            | |- context [if ?a <=? ?b then _ else _] =>
                destruct (a <=? b) eqn:?
            end; by_arith. }
      rewrite Hn'.
      assert (Hlt : length (tail (ring_contents r)) = 4094%nat).
      { destruct (ring_contents r); simpl in *; by_arith. }
      rewrite Hlt.
      destruct (Z.of_nat i + 1 <? n) eqn:Hi.
      * destruct (Z.of_nat i <? 4095) eqn:Hi'; [| by_arith].
        f_equal.
        replace (((if rd + 1 <? 4096 then rd + 1 else rd + 1 - 4096)
                  + Z.of_nat i) mod 4096)
          with ((rd + (Z.of_nat i + 1)) mod 4096).
        2:{ rewrite !wrap_cases by
              (destruct (rd + 1 <? 4096) eqn:?; by_arith).
            destruct (rd + 1 <? 4096) eqn:?;
            repeat match goal with
              | |- context [if ?a <? ?b then _ else _] =>
                  destruct (a <? b) eqn:?
              end; by_arith. }
        apply arr_get_set_ne.
        rewrite wrap_cases by by_arith.
        destruct (rd + (Z.of_nat i + 1) <? 4096) eqn:?,
                 (rd + n <? 4096) eqn:?; by_arith.
      * destruct (Z.of_nat i <? 4095) eqn:Hi'.
        -- assert (Z.of_nat i = 4094) by by_arith.
           replace (i - 4094)%nat with 0%nat by by_arith.
           cbn [lookup list_lookup]. f_equal.
           replace (((if rd + 1 <? 4096 then rd + 1 else rd + 1 - 4096)
                     + Z.of_nat i) mod 4096) with w.
           2:{ rewrite !wrap_cases by
                 (destruct (rd + 1 <? 4096) eqn:?; by_arith).
               destruct (rd + 1 <? 4096) eqn:?, (rd + n <? 4096) eqn:?;
               repeat match goal with
                 | |- context [if ?a <? ?b then _ else _] =>
                     destruct (a <? b) eqn:?
                 end; by_arith. }
           apply arr_get_set_eq. by_arith.
        -- rewrite lookup_ge_None_2; [reflexivity |]. simpl. by_arith.
  - (* the sample popped *)
    unfold APU.popSample. cbv zeta. fold w rd.
    destruct (rd =? w) eqn:Hempty; cbn [negb fst].
    + assert (n = 0)
        by (subst n; unfold APU.getBufferedSampleCount; fold w rd;
            destruct (rd <=? w) eqn:?; by_arith).
      destruct (ring_contents r) eqn:Hrc; [reflexivity |].
      simpl in Hlen. by_arith.
    + assert (0 < n)
        by (subst n; unfold APU.getBufferedSampleCount, APU.BUFFER_SIZE;
            fold w rd; destruct (rd <=? w) eqn:?; by_arith).
      pose proof (ring_contents_lookup r 0) as H0. fold n rd in H0.
      change (Z.of_nat 0) with 0 in H0.
      destruct (0 <? n) eqn:?; [| by_arith].
      rewrite Z.add_0_r, Z.mod_small in H0 by by_arith.
      destruct (ring_contents r); [discriminate |].
      simpl in H0. injection H0 as ->. reflexivity.
  - (* what is left after a pop *)
    apply list_eq. intros i. pose proof (Nat2Z.is_nonneg i) as Hi0.
    rewrite lookup_tail, !ring_contents_lookup. fold n rd.
    replace (Z.of_nat (S i)) with (Z.of_nat i + 1) by by_arith.
    unfold APU.popSample, APU.getBufferedSampleCount, APU.BUFFER_SIZE.
    cbv zeta. fold w rd.
    assert (Hn : n = if rd <=? w then w - rd else 4096 - rd + w)
      by reflexivity.
    destruct (rd =? w) eqn:Hempty;
      cbn [negb snd APU.sample_buffer APU.buffer_write_pos
           APU.buffer_read_pos]; fold w rd.
    + assert (n = 0) by (destruct (rd <=? w) eqn:?; by_arith).
      destruct (rd <=? w) eqn:?; [| by_arith].
      destruct (Z.of_nat i <? w - rd) eqn:?; [by_arith |].
      destruct (Z.of_nat i + 1 <? n) eqn:?; [by_arith | reflexivity].
    + rewrite rem_wrap by by_arith. rewrite (wrap_cases (rd + 1)) by by_arith.
      assert (Hn' : (if (if rd + 1 <? 4096 then rd + 1 else rd + 1 - 4096)
                        <=? w
                     then w - (if rd + 1 <? 4096 then rd + 1
                               else rd + 1 - 4096)
                     else 4096 - (if rd + 1 <? 4096 then rd + 1
                                  else rd + 1 - 4096) + w)
                    = n - 1).
      { destruct (rd + 1 <? 4096) eqn:?, (rd <=? w) eqn:?;
          repeat match goal with
            | |- context [if ?a <=? ?b then _ else _] =>
                destruct (a <=? b) eqn:?
            end; by_arith. }
      rewrite Hn'.
      destruct (Z.of_nat i <? n - 1) eqn:?, (Z.of_nat i + 1 <? n) eqn:?;
        try by_arith; [| reflexivity].
      f_equal. f_equal.
      rewrite !wrap_cases by (destruct (rd + 1 <? 4096) eqn:?; by_arith).
      destruct (rd + 1 <? 4096) eqn:?;
        repeat match goal with
          | |- context [if ?a <? ?b then _ else _] =>
              destruct (a <? b) eqn:?
          end; by_arith.
Qed.

Lemma ring_buffer_fifo_witness :
  ring_ok (APU.pushSample 5 APU.ring_new)
  /\ ring_contents (APU.pushSample 5 APU.ring_new)
     = (if APU.getBufferedSampleCount APU.ring_new <? 4095
        then ring_contents APU.ring_new
        else tail (ring_contents APU.ring_new)) ++ [5]
  /\ ring_ok (snd (APU.popSample APU.ring_new))
  /\ fst (APU.popSample APU.ring_new) = hd 0 (ring_contents APU.ring_new)
  /\ ring_contents (snd (APU.popSample APU.ring_new))
     = tail (ring_contents APU.ring_new)
  /\ APU.getBufferedSampleCount APU.ring_new
     = Z.of_nat (length (ring_contents APU.ring_new))
  /\ APU.getBufferedSampleCount APU.ring_new <= 4095.
Proof.
  apply (ring_buffer_fifo 5 APU.ring_new).
  unfold ring_ok, len. repeat split; vm_compute; congruence.
Defined.

(** Three samples pushed, then drained by the audio callback: the stereo
    frames carry them in order, and the fourth frame is silence. *)
Example fillBuffer_drains :
  fst (APU.fillBuffer 4
         (APU.pushSample 30 (APU.pushSample 20
            (APU.pushSample 10 APU.ring_new))))
  = [10; 10; 20; 20; 30; 30; 0; 0].
Proof. vm_compute. reflexivity. Qed.
(** ** Cartridge (cartridge.cpp) *)

(** A check over an initial segment of the naturals, run by computation. *)
Lemma range_check (P : Z -> bool) (n : nat) :
  forallb P (map Z.of_nat (seq 0 n)) = true ->
  forall x, 0 <= x < Z.of_nat n -> P x = true.
Proof.
  intros Hall x Hx. rewrite forallb_forall in Hall. apply Hall.
  apply in_map_iff. exists (Z.to_nat x). split; [lia |].
  apply in_seq. lia.
Qed.

Lemma mbc1_low_part (rb bank : Z) :
  0 <= rb < 128 -> 0 <= bank < 32 ->
  0 <= Z.lor (Z.land rb 0x60) bank < 128
  /\ Z.land (Z.lor (Z.land rb 0x60) bank) 0x1F = bank.
Proof.
  intros Hrb Hbank.
  pose proof (range_check
    (fun rb => forallb
       (fun bank =>
          (0 <=? Z.lor (Z.land rb 0x60) bank)
          && (Z.lor (Z.land rb 0x60) bank <? 128)
          && (Z.land (Z.lor (Z.land rb 0x60) bank) 0x1F =? bank))
       (map Z.of_nat (seq 0 32)))
    128 ltac:(vm_compute; reflexivity) rb ltac:(lia)) as H.
  cbv beta in H.
  pose proof (range_check _ 32 H bank ltac:(lia)) as H'.
  cbv beta in H'. lia.
Qed.

Lemma mbc1_high_part (rb v : Z) :
  0 <= rb < 128 -> 0 <= v < 4 ->
  0 <= Z.lor (Z.land rb 0x1F) (Z.shiftl v 5) < 128
  /\ Z.land (Z.lor (Z.land rb 0x1F) (Z.shiftl v 5)) 0x1F = Z.land rb 0x1F.
Proof.
  intros Hrb Hv.
  pose proof (range_check
    (fun rb => forallb
       (fun v =>
          (0 <=? Z.lor (Z.land rb 0x1F) (Z.shiftl v 5))
          && (Z.lor (Z.land rb 0x1F) (Z.shiftl v 5) <? 128)
          && (Z.land (Z.lor (Z.land rb 0x1F) (Z.shiftl v 5)) 0x1F
              =? Z.land rb 0x1F))
       (map Z.of_nat (seq 0 4)))
    128 ltac:(vm_compute; reflexivity) rb ltac:(lia)) as H.
  cbv beta in H.
  pose proof (range_check _ 4 H v ltac:(lia)) as H'.
  cbv beta in H'. lia.
Qed.

Lemma land1F_range (x : Z) : 0 <= Z.land x 0x1F <= 31.
Proof.
  pose proof (land_ones_range x 5 ltac:(lia)) as H.
  change (Z.ones 5) with 31 in H. change (2 ^ 5) with 32 in H. lia.
Qed.

Lemma land3_range (x : Z) : 0 <= Z.land x 0x03 <= 3.
Proof.
  pose proof (land_ones_range x 2 ltac:(lia)) as H.
  change (Z.ones 2) with 3 in H. change (2 ^ 2) with 4 in H. lia.
Qed.

Ltac cart_fields :=
  cbn [Cartridge.rom Cartridge.ram Cartridge.mbc_type Cartridge.rom_bank
       Cartridge.ram_bank Cartridge.ram_enabled Cartridge.rom_banking
       Cartridge.rtc_seconds Cartridge.rtc_minutes Cartridge.rtc_hours
       Cartridge.rtc_days_low Cartridge.rtc_days_high Cartridge.rtc_latched
       Cartridge.rtc_latch_state
       Cartridge.set_ram_enabled Cartridge.set_rom_bank
       Cartridge.set_ram_bank Cartridge.set_rom_banking Cartridge.set_ram
       Cartridge.set_rtc Cartridge.set_rtc_latch].

Lemma mbc1_writeROM_ok (addr value : Z) (c : Cartridge.t) :
  mbc1_bank_ok c -> mbc1_bank_ok (Cartridge.writeROM addr value c).
Proof.
  unfold mbc1_bank_ok. intros (Hty & Hrange & Hlow).
  unfold Cartridge.writeROM. cbv zeta.
  assert (H0 : (Cartridge.mbc_type c =? 0) = false)
    by (unfold is_mbc1 in Hty; lia).
  rewrite H0. unfold is_mbc1 in Hty. rewrite Hty.
  destruct (u16 addr <? 0x2000); [cart_fields; auto |].
  destruct (u16 addr <? 0x4000).
  { cart_fields. unfold Cartridge.bank_or_1. cbv zeta.
    pose proof (land1F_range (u8 value)) as Hb.
    destruct (Z.land (u8 value) 0x1F =? 0) eqn:E.
    - destruct (mbc1_low_part (Cartridge.rom_bank c) 1) as [H1 H2];
        [lia | lia |]. rewrite H2. repeat split; try assumption; lia.
    - destruct (mbc1_low_part (Cartridge.rom_bank c)
                  (Z.land (u8 value) 0x1F)) as [H1 H2]; [lia | lia |].
      rewrite H2. repeat split; try assumption; lia. }
  destruct (u16 addr <? 0x6000).
  { destruct (Cartridge.rom_banking c); cart_fields; [| auto].
    pose proof (land3_range (u8 value)) as Hb.
    destruct (mbc1_high_part (Cartridge.rom_bank c) (Z.land (u8 value) 3))
      as [H1 H2]; [lia | lia |].
    rewrite H2. repeat split; try assumption; lia. }
  destruct (u16 addr <? 0x8000); [| auto].
  cart_fields. destruct (Z.land (u8 value) 1 =? 0); cart_fields; auto.
Qed.

Lemma writeRAM_keeps_banking (addr value : Z) (c : Cartridge.t) :
  Cartridge.mbc_type (Cartridge.writeRAM addr value c) = Cartridge.mbc_type c
  /\ Cartridge.rom_bank (Cartridge.writeRAM addr value c)
     = Cartridge.rom_bank c.
Proof.
  unfold Cartridge.writeRAM. cbv zeta.
  repeat match goal with
    | |- context [if ?b then _ else _] => destruct b
    end; split; reflexivity.
Qed.

Lemma write_cartridge (a v : Z) (m : MMU.t) (c : Cartridge.t) :
  MMU.cartridge m = Some c ->
  MMU.cartridge (MMU.write a v m)
  = Some (if u16 a <? 0x8000 then Cartridge.writeROM (u16 a) (u8 v) c
          else if (0xA000 <=? u16 a) && (u16 a <? 0xC000)
               then Cartridge.writeRAM (u16 a - 0xA000) (u8 v) c
               else c).
Proof.
  intros Hc. unfold MMU.write. cbv zeta.
  rewrite doDMATransfer_set_oam, Hc.
  decode_all; mmu_proj; rewrite ?Hc; reflexivity.
Qed.

(** X11.  MBC1 never maps bank 0 into the switchable window: on a bus whose
    cartridge is an MBC1 with its ROM bank register in 1..127 and a
    non-zero low 5-bit part (as after loading), the register keeps both
    properties through every sequence of bus writes. *)
Theorem MBC1_bank_never_zero (ws : list (Z * Z)) (m : MMU.t)
        (c : Cartridge.t) :
  MMU.cartridge m = Some c -> mbc1_bank_ok c ->
  exists c', MMU.cartridge (bus_writes ws m) = Some c' /\ mbc1_bank_ok c'.
Proof.
  revert m c. induction ws as [| [a v] ws IH]; intros m c Hc Hok.
  - exists c. split; assumption.
  - unfold bus_writes. cbn [fold_left fst snd].
    fold (bus_writes ws (MMU.write a v m)).
    eapply IH; [apply write_cartridge; exact Hc |].
    destruct (u16 a <? 0x8000); [apply mbc1_writeROM_ok; exact Hok |].
    destruct ((0xA000 <=? u16 a) && (u16 a <? 0xC000)); [| exact Hok].
    destruct (writeRAM_keeps_banking (u16 a - 0xA000) (u8 v) c) as [Ht Hb].
    unfold mbc1_bank_ok. rewrite Ht, Hb. exact Hok.
Qed.

Lemma MBC1_bank_never_zero_witness :
  exists c',
    MMU.cartridge
      (bus_writes [(0x2000, 0x00); (0x4000, 0x03); (0x2000, 0x20)]
         (MMU.set_cartridge (Some (fresh_cartridge mbc1_image)) MMU.new))
    = Some c' /\ mbc1_bank_ok c'.
Proof.
  apply (MBC1_bank_never_zero
           [(0x2000, 0x00); (0x4000, 0x03); (0x2000, 0x20)]
           (MMU.set_cartridge (Some (fresh_cartridge mbc1_image)) MMU.new)
           (fresh_cartridge mbc1_image)).
  - reflexivity.
  - unfold mbc1_bank_ok. repeat split; vm_compute; congruence.
Defined.

(** Writing 0x20 to the bank register selects bank 0x61 here, not 0x60. *)
Example MBC1_bank_0x20_becomes_0x61 :
  option_map Cartridge.rom_bank
    (MMU.cartridge
       (bus_writes [(0x2000, 0x00); (0x4000, 0x03); (0x2000, 0x20)]
          (MMU.set_cartridge (Some (fresh_cartridge mbc1_image)) MMU.new)))
  = Some 0x61.
Proof. vm_compute. reflexivity. Qed.
Lemma u32_range (x : Z) : 0 <= u32 x < 4294967296.
Proof. unfold u32. apply Z.mod_pos_bound. lia. Qed.

(** X12.  External RAM on a banked controller (not MBC2, no clock register
    selected): when RAM is enabled and the bank offset of the address lies
    inside the RAM, a write stores the byte at that offset and a read
    there returns it, while every other offset reads as before; otherwise
    the write changes nothing and the address reads 0xFF. *)
Theorem external_RAM (addr addr' value : Z) (c : Cartridge.t) :
  Cartridge.is_mbc2 c = false -> Cartridge.is_rtc_access c = false ->
  if Cartridge.ram_enabled c
     && (ram_offset addr c <? Cartridge.size (Cartridge.ram c))
  then Cartridge.readRAM addr' (Cartridge.writeRAM addr value c)
       = if ram_offset addr' c =? ram_offset addr c then u8 value
         else Cartridge.readRAM addr' c
  else Cartridge.writeRAM addr value c = c
       /\ Cartridge.readRAM addr c = 0xFF.
Proof.
  intros H2 Hrtc. unfold ram_offset.
  pose proof (u32_range (Cartridge.ram_bank c * 0x2000 + u16 addr)) as Hp.
  pose proof (u32_range (Cartridge.ram_bank c * 0x2000 + u16 addr')) as Hp'.
  unfold Cartridge.readRAM, Cartridge.writeRAM, Cartridge.size. cbv zeta.
  rewrite H2, Hrtc. cbn [andb].
  set (p := u32 (Cartridge.ram_bank c * 0x2000 + u16 addr)) in *.
  set (p' := u32 (Cartridge.ram_bank c * 0x2000 + u16 addr')) in *.
  destruct (Cartridge.ram_enabled c) eqn:Hen; cbn [negb andb orb].
  - destruct (p <? Z.of_nat (length (Cartridge.ram c))) eqn:Hin.
    + destruct (Z.of_nat (length (Cartridge.ram c)) =? 0) eqn:H0; [lia |].
      cart_fields. unfold Cartridge.is_rtc_access, Cartridge.is_mbc2 in *.
      cart_fields. rewrite Hen. rewrite H2. rewrite Hrtc.
      rewrite arr_set_length. rewrite H0.
      cbn [negb orb andb]. cbv iota. fold p'.
      destruct (p' =? p) eqn:Heq.
      * apply Z.eqb_eq in Heq. rewrite Heq, Hin.
        apply arr_get_set_eq. lia.
      * rewrite arr_get_set_ne by lia. reflexivity.
    + destruct (Z.of_nat (length (Cartridge.ram c)) =? 0); split; reflexivity.
  - split; reflexivity.
Qed.

Lemma external_RAM_witness :
  if Cartridge.ram_enabled
       (Cartridge.set_ram_enabled true (fresh_cartridge (image_of 0x03 0x02)))
     && (ram_offset 0x0010
           (Cartridge.set_ram_enabled true
              (fresh_cartridge (image_of 0x03 0x02)))
         <? Cartridge.size
              (Cartridge.ram
                 (Cartridge.set_ram_enabled true
                    (fresh_cartridge (image_of 0x03 0x02)))))
  then Cartridge.readRAM 0x0010
         (Cartridge.writeRAM 0x0010 0x99
            (Cartridge.set_ram_enabled true
               (fresh_cartridge (image_of 0x03 0x02))))
       = if ram_offset 0x0010
              (Cartridge.set_ram_enabled true
                 (fresh_cartridge (image_of 0x03 0x02)))
            =? ram_offset 0x0010
                 (Cartridge.set_ram_enabled true
                    (fresh_cartridge (image_of 0x03 0x02)))
         then u8 0x99
         else Cartridge.readRAM 0x0010
                (Cartridge.set_ram_enabled true
                   (fresh_cartridge (image_of 0x03 0x02)))
  else Cartridge.writeRAM 0x0010 0x99
         (Cartridge.set_ram_enabled true
            (fresh_cartridge (image_of 0x03 0x02)))
       = Cartridge.set_ram_enabled true
           (fresh_cartridge (image_of 0x03 0x02))
       /\ Cartridge.readRAM 0x0010
            (Cartridge.set_ram_enabled true
               (fresh_cartridge (image_of 0x03 0x02))) = 0xFF.
Proof.
  apply (external_RAM 0x0010 0x0010 0x99
           (Cartridge.set_ram_enabled true
              (fresh_cartridge (image_of 0x03 0x02))));
    vm_compute; reflexivity.
Defined.

Lemma land_F_u8 (v : Z) : Z.land (u8 v) 0x0F = Z.land v 0x0F.
Proof.
  apply Z.bits_inj'. intros n Hn. rewrite !Z.land_spec.
  destruct (Z.ltb_spec n 8) as [Hlt | Hge].
  - rewrite testbit_u8 by lia. reflexivity.
  - change 0x0F with (Z.ones 4). rewrite Z.ones_spec_high by lia.
    rewrite !andb_false_r. reflexivity.
Qed.

(** X13.  MBC2 keeps 512 half-bytes: with RAM of at least 512 cells, a
    write while RAM is enabled stores the low four bits of the value at
    the address taken modulo 512, and a read of any address with the same
    low nine bits returns those four bits, with the upper four clear;
    reads do not depend on the enable flag, writes with RAM disabled are
    dropped. *)
Theorem MBC2_nibble_RAM (addr addr' value : Z) (c : Cartridge.t) :
  Cartridge.is_mbc2 c = true ->
  512 <= Cartridge.size (Cartridge.ram c) ->
  Z.land (u16 addr') 0x01FF = Z.land (u16 addr) 0x01FF ->
  (Cartridge.ram_enabled c = true ->
   Cartridge.readRAM addr' (Cartridge.writeRAM addr value c)
   = Z.land value 0x0F)
  /\ (Cartridge.ram_enabled c = false ->
      Cartridge.writeRAM addr value c = c)
  /\ Cartridge.readRAM addr (Cartridge.set_ram_enabled false c)
     = Cartridge.readRAM addr (Cartridge.set_ram_enabled true c).
Proof.
  intros H2 Hsize Hsame.
  assert (Hrtc : forall c', Cartridge.mbc_type c' = Cartridge.mbc_type c ->
                   Cartridge.is_rtc_access c' = false).
  { intros c' Ht. unfold Cartridge.is_rtc_access, Cartridge.is_mbc2 in *.
    rewrite Ht. lia. }
  pose proof (land_ones_range (u16 addr) 9 ltac:(lia)) as Hidx.
  change (Z.ones 9) with 0x01FF in Hidx. change (2 ^ 9) with 512 in Hidx.
  unfold Cartridge.size in Hsize.
  split; [| split].
  - intros Hen. unfold Cartridge.writeRAM. cbv zeta.
    rewrite Hen, (Hrtc c eq_refl), H2. cbn [negb].
    destruct (Cartridge.size (Cartridge.ram c) =? 0) eqn:H0;
      [unfold Cartridge.size in H0; lia |].
    unfold Cartridge.readRAM. cbv zeta.
    rewrite (Hrtc (Cartridge.set_ram _ c) eq_refl).
    unfold Cartridge.is_mbc2 in *. cart_fields. rewrite Hen, H2.
    unfold Cartridge.size. rewrite arr_set_length.
    unfold Cartridge.size in H0. rewrite H0. cbn [negb orb].
    rewrite Hsame, arr_get_set_eq by lia.
    rewrite land_F_u8.
    rewrite <- Z.land_assoc. reflexivity.
  - intros Hen. unfold Cartridge.writeRAM. cbv zeta. rewrite Hen.
    reflexivity.
  - unfold Cartridge.readRAM. cbv zeta.
    rewrite (Hrtc (Cartridge.set_ram_enabled false c) eq_refl).
    rewrite (Hrtc (Cartridge.set_ram_enabled true c) eq_refl).
    unfold Cartridge.is_mbc2 in *. cart_fields. rewrite H2.
    unfold Cartridge.size.
    destruct (512 <=? Z.of_nat (length (Cartridge.ram c))) eqn:E; [| lia].
    destruct (Z.of_nat (length (Cartridge.ram c)) =? 0) eqn:E0; [lia |].
    reflexivity.
Qed.

Lemma MBC2_nibble_RAM_witness :
  (Cartridge.ram_enabled
     (Cartridge.set_ram_enabled true (fresh_cartridge (image_of 0x05 0x01)))
   = true ->
   Cartridge.readRAM 0x0203
     (Cartridge.writeRAM 0x0003 0xAB
        (Cartridge.set_ram_enabled true
           (fresh_cartridge (image_of 0x05 0x01))))
   = Z.land 0xAB 0x0F)
  /\ (Cartridge.ram_enabled
        (Cartridge.set_ram_enabled true
           (fresh_cartridge (image_of 0x05 0x01))) = false ->
      Cartridge.writeRAM 0x0003 0xAB
        (Cartridge.set_ram_enabled true
           (fresh_cartridge (image_of 0x05 0x01)))
      = Cartridge.set_ram_enabled true
          (fresh_cartridge (image_of 0x05 0x01)))
  /\ Cartridge.readRAM 0x0003
       (Cartridge.set_ram_enabled false
          (Cartridge.set_ram_enabled true
             (fresh_cartridge (image_of 0x05 0x01))))
     = Cartridge.readRAM 0x0003
         (Cartridge.set_ram_enabled true
            (Cartridge.set_ram_enabled true
               (fresh_cartridge (image_of 0x05 0x01)))).
Proof.
  apply (MBC2_nibble_RAM 0x0003 0x0203 0xAB
           (Cartridge.set_ram_enabled true
              (fresh_cartridge (image_of 0x05 0x01))));
    vm_compute; congruence.
Defined.

(** With RAM size code 0 in the header the constructor allocates no RAM,
    and an MBC2 then has none: the write is dropped and the read is 0xFF. *)
Example MBC2_without_declared_RAM :
  Cartridge.readRAM 0x0003
    (Cartridge.writeRAM 0x0003 0xAB
       (Cartridge.set_ram_enabled true
          (fresh_cartridge (image_of 0x05 0x00)))) = 0xFF.
Proof. vm_compute. reflexivity. Qed.

(** X14.  MBC3 clock registers: with RAM enabled and a selector 0x08-0x0C
    in the RAM bank register, a write to any address of 0xA000-0xBFFF
    stores the byte in the selected clock register and in nothing else;
    a read returns the selected register if the cartridge has RAM, and
    0xFF if it has none. *)
Theorem MBC3_clock_registers (addr addr' value : Z) (c : Cartridge.t) :
  is_mbc3 (Cartridge.mbc_type c) = true ->
  Cartridge.ram_enabled c = true ->
  0x08 <= Cartridge.ram_bank c <= 0x0C ->
  let k := Z.to_nat (Cartridge.ram_bank c - 0x08) in
  let c' := Cartridge.writeRAM addr value c in
  rtc_regs c' = <[k := u8 value]> (rtc_regs c)
  /\ c' = Cartridge.set_rtc (arr_get (rtc_regs c') 0) (arr_get (rtc_regs c') 1)
            (arr_get (rtc_regs c') 2) (arr_get (rtc_regs c') 3)
            (arr_get (rtc_regs c') 4) c
  /\ Cartridge.readRAM addr' c'
     = if Cartridge.size (Cartridge.ram c) =? 0 then 0xFF else u8 value.
Proof.
  intros Hty Hen Hsel k c'.
  assert (Hrtc : Cartridge.is_rtc_access c = true).
  { unfold Cartridge.is_rtc_access, is_mbc3 in *. lia. }
  assert (Hcases : Cartridge.ram_bank c = 8 \/ Cartridge.ram_bank c = 9
                   \/ Cartridge.ram_bank c = 10 \/ Cartridge.ram_bank c = 11
                   \/ Cartridge.ram_bank c = 12) by lia.
  assert (Hm2 : forall s mi h dl dh,
            Cartridge.is_mbc2 (Cartridge.set_rtc s mi h dl dh c) = false).
  { intros. unfold Cartridge.is_mbc2, is_mbc3 in *. cart_fields. lia. }
  assert (Hacc : forall s mi h dl dh,
            Cartridge.is_rtc_access (Cartridge.set_rtc s mi h dl dh c)
            = true) by (intros; exact Hrtc).
  subst c' k. unfold Cartridge.writeRAM. cbv zeta.
  rewrite Hen, Hrtc. cbn [negb].
  destruct Hcases as [Hb | [Hb | [Hb | [Hb | Hb]]]]; rewrite Hb;
    cbn [Z.eqb Pos.eqb]; cbv iota;
    (split; [reflexivity |]); (split; [reflexivity |]);
    unfold Cartridge.readRAM; cbv zeta; rewrite Hacc, Hm2;
    cart_fields; rewrite Hen, Hb; cbn [negb orb andb Z.eqb Pos.eqb];
    destruct (Cartridge.size (Cartridge.ram c) =? 0); reflexivity.
Qed.

Lemma MBC3_clock_registers_witness :
  rtc_regs (Cartridge.writeRAM 0x0000 0x3B
              (Cartridge.writeROM 0x4000 0x09
                 (Cartridge.writeROM 0x0000 0x0A
                    (fresh_cartridge (image_of 0x10 0x02)))))
  = <[Z.to_nat
        (Cartridge.ram_bank
           (Cartridge.writeROM 0x4000 0x09
              (Cartridge.writeROM 0x0000 0x0A
                 (fresh_cartridge (image_of 0x10 0x02)))) - 0x08)
      := u8 0x3B]>
      (rtc_regs (Cartridge.writeROM 0x4000 0x09
                   (Cartridge.writeROM 0x0000 0x0A
                      (fresh_cartridge (image_of 0x10 0x02)))))
  /\ Cartridge.readRAM 0x1234
       (Cartridge.writeRAM 0x0000 0x3B
          (Cartridge.writeROM 0x4000 0x09
             (Cartridge.writeROM 0x0000 0x0A
                (fresh_cartridge (image_of 0x10 0x02)))))
     = if Cartridge.size
            (Cartridge.ram
               (Cartridge.writeROM 0x4000 0x09
                  (Cartridge.writeROM 0x0000 0x0A
                     (fresh_cartridge (image_of 0x10 0x02))))) =? 0
       then 0xFF else u8 0x3B.
Proof.
  pose proof (MBC3_clock_registers 0x0000 0x1234 0x3B
                (Cartridge.writeROM 0x4000 0x09
                   (Cartridge.writeROM 0x0000 0x0A
                      (fresh_cartridge (image_of 0x10 0x02)))))
    as H.
  cbv zeta in H.
  destruct H as (H1 & _ & H3);
    [vm_compute; reflexivity | vm_compute; reflexivity
     | vm_compute; split; discriminate |].
  split; [exact H1 | exact H3].
Defined.

(** An MBC3 with a clock and no RAM (type 0x0F): the clock registers can
    be written but always read 0xFF. *)
Example MBC3_clock_without_RAM :
  Cartridge.readRAM 0x0000
    (Cartridge.writeRAM 0x0000 0x3B
       (Cartridge.writeROM 0x4000 0x08
          (Cartridge.writeROM 0x0000 0x0A
             (fresh_cartridge (image_of 0x0F 0x00))))) = 0xFF
  /\ Cartridge.rtc_seconds
       (Cartridge.writeRAM 0x0000 0x3B
          (Cartridge.writeROM 0x4000 0x08
             (Cartridge.writeROM 0x0000 0x0A
                (fresh_cartridge (image_of 0x0F 0x00))))) = 0x3B.
Proof. split; vm_compute; reflexivity. Qed.

Lemma land_lor_byte_100 (rb l : Z) :
  is_byte l -> Z.land (Z.lor (Z.land rb 0x100) l) 0xFF = l.
Proof.
  intros Hl. rewrite Z.land_lor_distr_l, <- Z.land_assoc.
  change (Z.land 0x100 0xFF) with 0. rewrite Z.land_0_r, Z.lor_0_l.
  change 0xFF with (Z.ones 8). rewrite Z.land_ones by lia.
  change (2 ^ 8) with 256. apply Z.mod_small. exact Hl.
Qed.

Lemma land_lor_bit8 (rb h : Z) :
  Z.land (Z.lor (Z.land rb 0xFF) (Z.shiftl (Z.land h 1) 8)) 0x100
  = Z.shiftl (Z.land h 1) 8.
Proof.
  rewrite Z.land_lor_distr_l, <- Z.land_assoc.
  change (Z.land 0xFF 0x100) with 0. rewrite Z.land_0_r, Z.lor_0_l.
  pose proof (land_ones_range h 1 ltac:(lia)) as Hh.
  change (Z.ones 1) with 1 in Hh. change (2 ^ 1) with 2 in Hh.
  assert (Hc : Z.land h 1 = 0 \/ Z.land h 1 = 1) by lia.
  destruct Hc as [-> | ->]; reflexivity.
Qed.

(** X15.  MBC5 has a 9-bit ROM bank register written in two parts: after
    a write of [l] to 0x2000-0x2FFF and a write of [h] to 0x3000-0x3FFF,
    in either order and whatever the register held, the bank is
    [l | (h & 1) << 8]; bank 0 is selected as 0, not replaced by 1. *)
Theorem MBC5_bank_register (al ah l h : Z) (c : Cartridge.t) :
  is_mbc5 (Cartridge.mbc_type c) = true ->
  0x2000 <= u16 al < 0x3000 -> 0x3000 <= u16 ah < 0x4000 ->
  Cartridge.rom_bank
    (Cartridge.writeROM ah h (Cartridge.writeROM al l c))
  = Z.lor (u8 l) (Z.shiftl (Z.land (u8 h) 1) 8)
  /\ Cartridge.rom_bank
       (Cartridge.writeROM al l (Cartridge.writeROM ah h c))
     = Z.lor (u8 l) (Z.shiftl (Z.land (u8 h) 1) 8).
Proof.
  intros Hty Hal Hah.
  assert (Hlo : forall c', Cartridge.mbc_type c' = Cartridge.mbc_type c ->
            Cartridge.writeROM al l c'
            = Cartridge.set_rom_bank
                (Z.lor (Z.land (Cartridge.rom_bank c') 0x100) (u8 l)) c').
  { intros c' Ht. unfold Cartridge.writeROM. cbv zeta. rewrite Ht.
    unfold is_mbc5 in Hty. rewrite Hty.
    repeat match goal with
      | |- context [if ?b then _ else _] =>
          destruct b eqn:?; try lia
      end. reflexivity. }
  assert (Hhi : forall c', Cartridge.mbc_type c' = Cartridge.mbc_type c ->
            Cartridge.writeROM ah h c'
            = Cartridge.set_rom_bank
                (Z.lor (Z.land (Cartridge.rom_bank c') 0xFF)
                       (Z.shiftl (Z.land (u8 h) 1) 8)) c').
  { intros c' Ht. unfold Cartridge.writeROM. cbv zeta. rewrite Ht.
    unfold is_mbc5 in Hty. rewrite Hty.
    repeat match goal with
      | |- context [if ?b then _ else _] =>
          destruct b eqn:?; try lia
      end. reflexivity. }
  split.
  - rewrite (Hlo c eq_refl), (Hhi (Cartridge.set_rom_bank _ c) eq_refl).
    cart_fields.
    rewrite land_lor_byte_100 by apply u8_byte. reflexivity.
  - rewrite (Hhi c eq_refl), (Hlo (Cartridge.set_rom_bank _ c) eq_refl).
    cart_fields.
    rewrite land_lor_bit8. apply Z.lor_comm.
Qed.

Lemma MBC5_bank_register_witness :
  Cartridge.rom_bank
    (Cartridge.writeROM 0x3000 0x01
       (Cartridge.writeROM 0x2000 0x00 (fresh_cartridge (image_of 0x19 0))))
  = Z.lor (u8 0x00) (Z.shiftl (Z.land (u8 0x01) 1) 8)
  /\ Cartridge.rom_bank
       (Cartridge.writeROM 0x2000 0x00
          (Cartridge.writeROM 0x3000 0x01
             (fresh_cartridge (image_of 0x19 0))))
     = Z.lor (u8 0x00) (Z.shiftl (Z.land (u8 0x01) 1) 8).
Proof.
  apply (MBC5_bank_register 0x2000 0x3000 0x00 0x01
           (fresh_cartridge (image_of 0x19 0)));
    vm_compute; try reflexivity; split; congruence.
Defined.
(** ** Timer (timer.cpp) *)

Lemma checkTIMA_rate (cycles : Z) (m : MMU.t) :
  io_ok m -> nz (Z.land (MMU.read 0xFF07 m) 0x04) = true ->
  0 <= Timer.tima_counter (MMU.timer m) + cycles ->
  timer_keeps m (Timer_checkTIMA cycles m)
  /\ timer_regs (Timer_checkTIMA cycles m)
     = iter_tick (Z.to_nat ((Timer.tima_counter (MMU.timer m) + cycles)
                            / tima_threshold (MMU.read 0xFF07 m)))
                 (MMU.read 0xFF06 m) (timer_regs m)
  /\ Timer.tima_counter (MMU.timer (Timer_checkTIMA cycles m))
     = (Timer.tima_counter (MMU.timer m) + cycles)
       mod tima_threshold (MMU.read 0xFF07 m).
Proof.
  intros Hok Hon Hc.
  unfold Timer_checkTIMA. cbv zeta. rewrite Hon. cbn [negb].
  pose proof (tima_threshold_pos (MMU.read 0xFF07 m)) as Hth.
  set (th := tima_threshold (MMU.read 0xFF07 m)) in *.
  set (c := Timer.tima_counter (MMU.timer m) + cycles) in *.
  set (m0 := set_tima_counter c m).
  change (Timer.tima_counter (MMU.timer m0)) with c.
  assert (Hok0 : io_ok m0) by exact Hok.
  pose proof (Z.div_mod c th ltac:(lia)) as Hdm.
  pose proof (Z.mod_pos_bound c th ltac:(lia)) as Hmod.
  assert (Hq : 0 <= c / th) by (apply Z.div_pos; lia).
  destruct (tima_loop_spec (Z.to_nat (c / th)) th m0) as (Hk & Hr & Hcnt);
    [assumption | lia
     | rewrite Z2Nat.id by lia;
       change (Timer.tima_counter (MMU.timer m0)) with c; lia |].
  split; [exact Hk |]. split; [exact Hr |].
  rewrite Hcnt. change (Timer.tima_counter (MMU.timer m0)) with c.
  rewrite Z2Nat.id by lia. lia.
Qed.

Lemma Timer_step_rate (cycles : Z) (m : MMU.t) :
  io_ok m -> nz (Z.land (MMU.read 0xFF07 m) 0x04) = true ->
  0 <= Timer.tima_counter (MMU.timer m) + cycles ->
  timer_keeps m (Timer_step cycles m)
  /\ timer_regs (Timer_step cycles m)
     = iter_tick (Z.to_nat ((Timer.tima_counter (MMU.timer m) + cycles)
                            / tima_threshold (MMU.read 0xFF07 m)))
                 (MMU.read 0xFF06 m) (timer_regs m)
  /\ Timer.tima_counter (MMU.timer (Timer_step cycles m))
     = (Timer.tima_counter (MMU.timer m) + cycles)
       mod tima_threshold (MMU.read 0xFF07 m).
Proof.
  intros Hok Hon Hc. unfold Timer_step. cbv zeta.
  destruct (div_stage_keeps cycles m Hok) as (Hk & Hr & Hcnt).
  cbv zeta in Hk, Hr, Hcnt.
  set (m1 := div_loop _ _) in *.
  destruct Hk as (Hok1 & H6 & H7).
  destruct (checkTIMA_rate cycles m1) as (Hk' & Hr' & Hcnt');
    [assumption | rewrite H7; exact Hon | rewrite Hcnt; exact Hc |].
  rewrite Hcnt, H7 in Hr', Hcnt'. rewrite Hr, H6 in Hr'.
  split; [| split; assumption].
  eapply timer_keeps_trans; [| exact Hk'].
  split; [exact Hok1 | split; assumption].
Qed.

(** X16.  The timer at each of its four rates: with TAC bit 2 set, the
    period is 256, 4, 16 or 64 cycles for TAC bits 1-0 equal to 0, 1, 2 or
    3; a run of [Timer::step] calls that starts with less than one period
    accumulated applies one TIMA period (increment, or reload from TMA
    with IF bit 2 raised when TIMA was 0xFF) per whole period contained in
    the accumulated cycles, keeps the remainder for the next call, and
    leaves TMA and TAC as they were. *)
Theorem Timer_rate (cs : list Z) (m : MMU.t) :
  io_ok m -> nz (Z.land (MMU.read 0xFF07 m) 0x04) = true ->
  Forall (fun c => 0 <= c) cs ->
  0 <= Timer.tima_counter (MMU.timer m)
    < tima_threshold (MMU.read 0xFF07 m) ->
  timer_regs (Timer_run cs m)
  = iter_tick
      (Z.to_nat ((Timer.tima_counter (MMU.timer m) + total cs)
                 / tima_threshold (MMU.read 0xFF07 m)))
      (MMU.read 0xFF06 m) (timer_regs m)
  /\ Timer.tima_counter (MMU.timer (Timer_run cs m))
     = (Timer.tima_counter (MMU.timer m) + total cs)
       mod tima_threshold (MMU.read 0xFF07 m)
  /\ MMU.read 0xFF06 (Timer_run cs m) = MMU.read 0xFF06 m
  /\ MMU.read 0xFF07 (Timer_run cs m) = MMU.read 0xFF07 m
  /\ tima_threshold (MMU.read 0xFF07 m)
     = nth (Z.to_nat (Z.land (MMU.read 0xFF07 m) 0x03)) [256; 4; 16; 64] 0.
Proof.
  intros Hok Hon Hcs Htc.
  assert (Hth4 : tima_threshold (MMU.read 0xFF07 m)
                 = nth (Z.to_nat (Z.land (MMU.read 0xFF07 m) 0x03))
                       [256; 4; 16; 64] 0).
  { unfold tima_threshold. cbv zeta.
    pose proof (land3_range (MMU.read 0xFF07 m)) as H3.
    destruct (Z.land (MMU.read 0xFF07 m) 3 =? 0) eqn:E0;
      [apply Z.eqb_eq in E0; rewrite E0; reflexivity |].
    destruct (Z.land (MMU.read 0xFF07 m) 3 =? 1) eqn:E1;
      [apply Z.eqb_eq in E1; rewrite E1; reflexivity |].
    destruct (Z.land (MMU.read 0xFF07 m) 3 =? 2) eqn:E2;
      [apply Z.eqb_eq in E2; rewrite E2; reflexivity |].
    assert (E3 : Z.land (MMU.read 0xFF07 m) 3 = 3) by lia.
    rewrite E3. reflexivity. }
  cut (timer_keeps m (Timer_run cs m)
       /\ timer_regs (Timer_run cs m)
          = iter_tick
              (Z.to_nat ((Timer.tima_counter (MMU.timer m) + total cs)
                         / tima_threshold (MMU.read 0xFF07 m)))
              (MMU.read 0xFF06 m) (timer_regs m)
       /\ Timer.tima_counter (MMU.timer (Timer_run cs m))
          = (Timer.tima_counter (MMU.timer m) + total cs)
            mod tima_threshold (MMU.read 0xFF07 m)).
  { intros ((_ & H6 & H7) & Hr & Hcnt). repeat split; assumption. }
  clear Hth4. revert m Hok Hon Htc.
  induction cs as [| c cs IH]; intros m Hok Hon Htc.
  - simpl. rewrite Z.add_0_r, Z.div_small, Z.mod_small by lia.
    split; [by apply timer_keeps_refl | done].
  - inversion Hcs as [| ? ? Hc Hcs']; subst.
    pose proof (total_nonneg cs Hcs') as Hrest.
    cbn [Timer_run fold_left total fold_right].
    fold (total cs). fold (Timer_run cs (Timer_step c m)).
    pose proof (tima_threshold_pos (MMU.read 0xFF07 m)) as Hth.
    set (th := tima_threshold (MMU.read 0xFF07 m)) in *.
    set (tc := Timer.tima_counter (MMU.timer m)) in *.
    destruct (Timer_step_rate c m Hok Hon) as (Hk & Hr & Hcnt);
      [fold tc; lia |]. fold tc th in Hr, Hcnt.
    pose proof (Z.div_mod (tc + c) th ltac:(lia)) as Hdm.
    pose proof (Z.mod_pos_bound (tc + c) th ltac:(lia)) as Hmod.
    assert (Hq : 0 <= (tc + c) / th) by (apply Z.div_pos; lia).
    destruct Hk as (Hok1 & H6 & H7).
    destruct (IH Hcs' (Timer_step c m)) as (Hk' & Hr' & Hcnt');
      [assumption | rewrite H7; exact Hon
       | rewrite H7, Hcnt; fold th; lia |].
    rewrite H7 in Hr', Hcnt'. fold th in Hr', Hcnt'.
    rewrite Hcnt in Hr', Hcnt'. rewrite Hr, H6 in Hr'.
    assert (Hsplit : tc + (c + total cs)
                     = (tc + c) / th * th + ((tc + c) mod th + total cs))
      by lia.
    assert (Hq2 : 0 <= ((tc + c) mod th + total cs) / th)
      by (apply Z.div_pos; lia).
    split; [| split].
    + eapply timer_keeps_trans; [| exact Hk'].
      split; [exact Hok1 | split; assumption].
    + rewrite Hr', Hsplit, Z.div_add_l, Z2Nat.inj_add, iter_tick_add by lia.
      reflexivity.
    + rewrite Hcnt', Hsplit.
      rewrite (Z.add_comm (_ * th)), Z.mod_add by lia. reflexivity.
Qed.

Lemma io_ok_tac6 : io_ok tac6_mmu.
Proof. split; [reflexivity | apply is_bytes_check; vm_compute; reflexivity]. Qed.

Lemma Timer_rate_witness :
  timer_regs (Timer_run [10; 30; 9] tac6_mmu)
  = iter_tick
      (Z.to_nat ((Timer.tima_counter (MMU.timer tac6_mmu)
                  + total [10; 30; 9])
                 / tima_threshold (MMU.read 0xFF07 tac6_mmu)))
      (MMU.read 0xFF06 tac6_mmu) (timer_regs tac6_mmu)
  /\ Timer.tima_counter (MMU.timer (Timer_run [10; 30; 9] tac6_mmu))
     = (Timer.tima_counter (MMU.timer tac6_mmu) + total [10; 30; 9])
       mod tima_threshold (MMU.read 0xFF07 tac6_mmu)
  /\ MMU.read 0xFF06 (Timer_run [10; 30; 9] tac6_mmu)
     = MMU.read 0xFF06 tac6_mmu
  /\ MMU.read 0xFF07 (Timer_run [10; 30; 9] tac6_mmu)
     = MMU.read 0xFF07 tac6_mmu
  /\ tima_threshold (MMU.read 0xFF07 tac6_mmu)
     = nth (Z.to_nat (Z.land (MMU.read 0xFF07 tac6_mmu) 0x03))
           [256; 4; 16; 64] 0.
Proof.
  apply (Timer_rate [10; 30; 9] tac6_mmu).
  - exact io_ok_tac6.
  - reflexivity.
  - repeat constructor; lia.
  - vm_compute. split; [discriminate | reflexivity].
Defined.

(** 49 cycles at 16 per period: three periods, one cycle left over. *)
Example Timer_TAC6_49_cycles :
  timer_regs (Timer_run [10; 30; 9] tac6_mmu) = (3, 0xE0)
  /\ Timer.tima_counter (MMU.timer (Timer_run [10; 30; 9] tac6_mmu)) = 1.
Proof. split; vm_compute; reflexivity. Qed.

Lemma Timer_step_off (cycles : Z) (m : MMU.t) :
  io_ok m -> nz (Z.land (MMU.read 0xFF07 m) 0x04) = false ->
  timer_keeps m (Timer_step cycles m)
  /\ timer_regs (Timer_step cycles m) = timer_regs m
  /\ Timer.tima_counter (MMU.timer (Timer_step cycles m))
     = Timer.tima_counter (MMU.timer m).
Proof.
  intros Hok Hoff. unfold Timer_step. cbv zeta.
  destruct (div_stage_keeps cycles m Hok) as (Hk & Hr & Hcnt).
  cbv zeta in Hk, Hr, Hcnt.
  set (m1 := div_loop _ _) in *.
  unfold Timer_checkTIMA. cbv zeta.
  destruct Hk as (Hok1 & H6 & H7).
  rewrite H7, Hoff. cbn [negb].
  split; [split; [exact Hok1 | split; assumption] |].
  split; assumption.
Qed.

(** X17.  A stopped timer does not count: while TAC bit 2 is clear, no
    run of [Timer::step] calls changes TIMA, IF, TMA or TAC, and the
    cycles are not accumulated either, so that enabling the timer later
    starts from the remainder it had when it was stopped. *)
Theorem Timer_stopped (cs : list Z) (m : MMU.t) :
  io_ok m -> nz (Z.land (MMU.read 0xFF07 m) 0x04) = false ->
  timer_regs (Timer_run cs m) = timer_regs m
  /\ Timer.tima_counter (MMU.timer (Timer_run cs m))
     = Timer.tima_counter (MMU.timer m)
  /\ MMU.read 0xFF06 (Timer_run cs m) = MMU.read 0xFF06 m
  /\ MMU.read 0xFF07 (Timer_run cs m) = MMU.read 0xFF07 m.
Proof.
  intros Hok Hoff.
  cut (timer_keeps m (Timer_run cs m)
       /\ timer_regs (Timer_run cs m) = timer_regs m
       /\ Timer.tima_counter (MMU.timer (Timer_run cs m))
          = Timer.tima_counter (MMU.timer m)).
  { intros ((_ & H6 & H7) & Hr & Hcnt). repeat split; assumption. }
  revert m Hok Hoff. induction cs as [| c cs IH]; intros m Hok Hoff.
  - simpl. split; [by apply timer_keeps_refl | done].
  - cbn [Timer_run fold_left]. fold (Timer_run cs (Timer_step c m)).
    destruct (Timer_step_off c m Hok Hoff) as (Hk & Hr & Hcnt).
    pose proof Hk as (Hok1 & H6 & H7).
    destruct (IH (Timer_step c m)) as (Hk' & Hr' & Hcnt');
      [assumption | rewrite H7; exact Hoff |].
    split; [eapply timer_keeps_trans; eassumption |].
    split; congruence.
Qed.

Lemma Timer_stopped_witness :
  timer_regs (Timer_run [100; 2000; 7] MMU.new) = timer_regs MMU.new
  /\ Timer.tima_counter (MMU.timer (Timer_run [100; 2000; 7] MMU.new))
     = Timer.tima_counter (MMU.timer MMU.new)
  /\ MMU.read 0xFF06 (Timer_run [100; 2000; 7] MMU.new)
     = MMU.read 0xFF06 MMU.new
  /\ MMU.read 0xFF07 (Timer_run [100; 2000; 7] MMU.new)
     = MMU.read 0xFF07 MMU.new.
Proof.
  apply (Timer_stopped [100; 2000; 7] MMU.new).
  - split; [reflexivity | apply is_bytes_check; vm_compute; reflexivity].
  - reflexivity.
Defined.
(** ** Joypad (joypad.cpp) *)

Lemma Joypad_read_lines (a d : bool) (b : Z) :
  is_byte b ->
  (let result := 0xCF in
   let result :=
     if a
     then Joypad.release (Joypad.mk b 0) Joypad.BTN_START 0x08
            (Joypad.release (Joypad.mk b 0) Joypad.BTN_SELECT 0x04
               (Joypad.release (Joypad.mk b 0) Joypad.BTN_B 0x02
                  (Joypad.release (Joypad.mk b 0) Joypad.BTN_A 0x01 result)))
     else result in
   if d
   then Joypad.release (Joypad.mk b 0) Joypad.BTN_DOWN 0x08
          (Joypad.release (Joypad.mk b 0) Joypad.BTN_UP 0x04
             (Joypad.release (Joypad.mk b 0) Joypad.BTN_LEFT 0x02
                (Joypad.release (Joypad.mk b 0) Joypad.BTN_RIGHT 0x01
                   result)))
   else result)
  = 0xCF - Z.lor (if a then Z.land b 0x0F else 0)
                 (if d then Z.shiftr b 4 else 0).
Proof.
  intros Hb. unfold is_byte in Hb.
  apply Z.eqb_eq.
  revert b Hb.
  apply (range_check
    (fun b =>
       (let result := 0xCF in
        let result :=
          if a
          then Joypad.release (Joypad.mk b 0) Joypad.BTN_START 0x08
                 (Joypad.release (Joypad.mk b 0) Joypad.BTN_SELECT 0x04
                    (Joypad.release (Joypad.mk b 0) Joypad.BTN_B 0x02
                       (Joypad.release (Joypad.mk b 0) Joypad.BTN_A 0x01
                          result)))
          else result in
        if d
        then Joypad.release (Joypad.mk b 0) Joypad.BTN_DOWN 0x08
               (Joypad.release (Joypad.mk b 0) Joypad.BTN_UP 0x04
                  (Joypad.release (Joypad.mk b 0) Joypad.BTN_LEFT 0x02
                     (Joypad.release (Joypad.mk b 0) Joypad.BTN_RIGHT 0x01
                        result)))
        else result)
       =? 0xCF - Z.lor (if a then Z.land b 0x0F else 0)
                       (if d then Z.shiftr b 4 else 0)) 256).
  destruct a, d; vm_compute; reflexivity.
Qed.

Lemma nz_land_bit (x k : Z) :
  0 <= k < 8 -> nz (Z.land (u8 x) (2 ^ k)) = Z.testbit x k.
Proof.
  intros Hk. rewrite nz_land_pow2 by lia. apply testbit_u8. exact Hk.
Qed.

(** X18.  The joypad register through the bus: after the select byte is
    written to 0xFF00, a read of 0xFF00 returns 0xCF with a 0 in each of
    bits 3-0 whose button is held in a selected group (bit 5 of the select
    byte clear selects Start, Select, B, A; bit 4 clear selects Down, Up,
    Left, Right); bits 7-6 read 1 and bits 5-4 read 0 whatever was
    selected. *)
Theorem joypad_matrix (sel : Z) (m : MMU.t) :
  mem_ok m -> is_byte (Joypad.buttons (MMU.joypad m)) ->
  MMU.read 0xFF00 (MMU.write 0xFF00 sel m)
  = 0xCF - joypad_lines sel (Joypad.buttons (MMU.joypad m))
  /\ 0 <= joypad_lines sel (Joypad.buttons (MMU.joypad m)) <= 0x0F.
Proof.
  intros (_ & _ & _ & _ & Hio) Hb. unfold len in Hio.
  split.
  - unfold MMU.read, MMU.write. cbv zeta.
    change (u16 0xFF00) with 0xFF00.
    cbn [Z.ltb Z.eqb Z.compare Pos.compare Pos.compare_cont Pos.eqb].
    cbv iota. mmu_proj.
    rewrite arr_get_set_eq by lia.
    unfold Joypad.read, Joypad.write. cbv zeta.
    change 0x20 with (2 ^ 5). change 0x10 with (2 ^ 4).
    rewrite !nz_land_bit by lia.
    change (2 ^ 5) with 0x20. change (2 ^ 4) with 0x10.
    unfold joypad_lines.
    pose proof (Joypad_read_lines (negb (Z.testbit sel 5))
                  (negb (Z.testbit sel 4))
                  (Joypad.buttons (MMU.joypad m)) Hb) as H.
    cbv zeta in H.
    unfold Joypad.release in *.
    cbn [Joypad.buttons Joypad.select_reg] in *.
    destruct (Z.testbit sel 5), (Z.testbit sel 4); cbn [negb] in *;
      exact H.
  - unfold joypad_lines. unfold is_byte in Hb.
    pose proof (land_ones_range (Joypad.buttons (MMU.joypad m)) 4
                  ltac:(lia)) as Hlo.
    change (Z.ones 4) with 0x0F in Hlo. change (2 ^ 4) with 16 in Hlo.
    assert (Hhi : 0 <= Z.shiftr (Joypad.buttons (MMU.joypad m)) 4 <= 15)
      by (apply shiftr4_byte; exact Hb).
    assert (Hlor : forall x y, 0 <= x <= 15 -> 0 <= y <= 15 ->
                     0 <= Z.lor x y <= 15).
    { intros x y Hx Hy.
      pose proof (range_check
        (fun x => forallb (fun y => (0 <=? Z.lor x y) && (Z.lor x y <=? 15))
                          (map Z.of_nat (seq 0 16)))
        16 ltac:(vm_compute; reflexivity) x ltac:(lia)) as H.
      cbv beta in H.
      pose proof (range_check _ 16 H y ltac:(lia)) as H'.
      cbv beta in H'. lia. }
    destruct (Z.testbit sel 5), (Z.testbit sel 4); apply Hlor; lia.
Qed.

Lemma joypad_matrix_witness :
  MMU.read 0xFF00
    (MMU.write 0xFF00 0x10
       (MMU.set_joypad (Joypad.setButton Joypad.BTN_A true Joypad.new)
          MMU.new))
  = 0xCF - joypad_lines 0x10
             (Joypad.buttons
                (MMU.joypad
                   (MMU.set_joypad
                      (Joypad.setButton Joypad.BTN_A true Joypad.new)
                      MMU.new)))
  /\ 0 <= joypad_lines 0x10
            (Joypad.buttons
               (MMU.joypad
                  (MMU.set_joypad
                     (Joypad.setButton Joypad.BTN_A true Joypad.new)
                     MMU.new))) <= 0x0F.
Proof.
  apply (joypad_matrix 0x10
           (MMU.set_joypad (Joypad.setButton Joypad.BTN_A true Joypad.new)
              MMU.new)).
  - repeat split.
  - unfold is_byte. vm_compute. split; congruence.
Defined.

(** A held with the action group selected reads 0xCE; with only the d-pad
    selected the same button does not show. *)
Example joypad_A_held :
  MMU.read 0xFF00
    (MMU.write 0xFF00 0x10
       (MMU.set_joypad (Joypad.setButton Joypad.BTN_A true Joypad.new)
          MMU.new)) = 0xCE
  /\ MMU.read 0xFF00
       (MMU.write 0xFF00 0x20
          (MMU.set_joypad (Joypad.setButton Joypad.BTN_A true Joypad.new)
             MMU.new)) = 0xCF.
Proof. split; vm_compute; reflexivity. Qed.
(** ** CPU (cpu.cpp, instructions.cpp) *)

Ltac cpu_regs :=
  cbn [CPU.A CPU.B CPU.C CPU.D CPU.E CPU.F CPU.H CPU.L CPU.SP CPU.PC
       CPU.halted CPU.stopped CPU.ime CPU.ime_scheduled CPU.cycles
       CPU.set_A CPU.set_B CPU.set_C CPU.set_D CPU.set_E CPU.set_F
       CPU.set_H CPU.set_L CPU.set_SP CPU.set_PC CPU.set_halted
       CPU.set_stopped CPU.set_ime CPU.set_ime_scheduled CPU.set_cycles
       CPU.tick fst snd].

(** Read the flags off a chain of [setFlag] calls. *)
Ltac flag_bits :=
  change CPU.FLAG_Z with (2 ^ 7) in *; change CPU.FLAG_N with (2 ^ 6) in *;
  change CPU.FLAG_H with (2 ^ 5) in *; change CPU.FLAG_C with (2 ^ 4) in *;
  rewrite ?getFlag_bit by lia;
  repeat (rewrite ?setFlag_F_bit by lia; rewrite ?setFlag_keeps; cpu_regs);
  cbn [Z.eqb Pos.eqb].

Lemma land_F_mod (x : Z) : Z.land x 0x0F = x mod 16.
Proof. change 0x0F with (Z.ones 4). rewrite Z.land_ones by lia. reflexivity. Qed.

Lemma land_FF_mod (x : Z) : Z.land x 0xFF = x mod 256.
Proof. change 0xFF with (Z.ones 8). rewrite Z.land_ones by lia. reflexivity. Qed.

Lemma setFlag_A (flag : Z) (b : bool) (c : CPU.t) :
  CPU.A (CPU.setFlag flag b c) = CPU.A c.
Proof. unfold CPU.setFlag. destruct b; reflexivity. Qed.

Lemma add_exact (a y cin : Z) (c c' : CPU.t) :
  is_byte a -> is_byte y -> 0 <= cin <= 1 ->
  CPU.A c' = u8 (Z.land (u16 (a + y + cin)) 0xFF) ->
  CPU.getFlag CPU.FLAG_C c' = (0xFF <? u16 (a + y + cin)) ->
  CPU.getFlag CPU.FLAG_H c'
  = (0x0F <? Z.land a 0x0F + Z.land y 0x0F + cin) ->
  CPU.getFlag CPU.FLAG_Z c' = (CPU.A c' =? 0) ->
  CPU.getFlag CPU.FLAG_N c' = false ->
  add_result a y cin c'.
Proof.
  unfold is_byte, add_result, carry_in. intros Ha Hy Hc HA HC HH HZ HN.
  rewrite HC, HH, HZ, HN, !land_F_mod, HA.
  rewrite (u16_small (a + y + cin)) by lia.
  rewrite land_FF_mod. unfold u8. rewrite Z.mod_mod by lia.
  pose proof (Z.mod_pos_bound (a + y + cin) 256 ltac:(lia)) as Hm.
  repeat split; try lia.
  destruct (0xFF <? a + y + cin) eqn:E.
  - replace (a + y + cin) with (a + y + cin - 256 + 1 * 256) at 1 by lia.
    rewrite Z.mod_add, Z.mod_small by lia. lia.
  - rewrite Z.mod_small by lia. lia.
Qed.

(** X19.  ADD and ADC are exact: for a byte in A, the new A and the carry
    flag together hold the sum of A, the operand and (for ADC) the carry
    flag, A' + 256 * C' = A + value + carry; H is the carry out of bit 3, Z
    tells whether the new A is zero, and N is cleared. *)
Theorem ADD_ADC_exact (value : Z) (c : CPU.t) :
  is_byte (CPU.A c) ->
  add_result (CPU.A c) (u8 value) 0 (CPU.ADD_A_r value c)
  /\ add_result (CPU.A c) (u8 value) (carry_in c) (CPU.ADC_A_r value c).
Proof.
  intros Ha. pose proof (u8_byte value) as Hy. split.
  - apply (add_exact _ _ 0 c); try assumption; try lia;
      rewrite ?Z.add_0_r; unfold CPU.ADD_A_r; cbv zeta; flag_bits;
      reflexivity.
  - assert (Hc : 0 <= carry_in c <= 1)
      by (unfold carry_in; destruct (CPU.getFlag CPU.FLAG_C c); lia).
    apply (add_exact _ _ (carry_in c) c); try assumption;
      unfold CPU.ADC_A_r, carry_in; cbv zeta; flag_bits; reflexivity.
Qed.

Lemma ADD_ADC_exact_witness :
  add_result (CPU.A irq_cpu) (u8 0xFF) 0
    (CPU.ADD_A_r 0xFF irq_cpu)
  /\ add_result (CPU.A irq_cpu) (u8 0xFF)
       (carry_in irq_cpu)
       (CPU.ADC_A_r 0xFF irq_cpu).
Proof.
  apply (ADD_ADC_exact 0xFF irq_cpu).
  unfold is_byte. simpl. lia.
Defined.

Lemma sub_exact (a y cin : Z) (c' : CPU.t) :
  is_byte a -> is_byte y -> 0 <= cin <= 1 ->
  CPU.A c' = u8 (a - y - cin) ->
  CPU.getFlag CPU.FLAG_C c' = (a <? y + cin) ->
  CPU.getFlag CPU.FLAG_H c' = (Z.land a 0x0F <? Z.land y 0x0F + cin) ->
  CPU.getFlag CPU.FLAG_Z c' = (CPU.A c' =? 0) ->
  CPU.getFlag CPU.FLAG_N c' = true ->
  sub_result a y cin c'.
Proof.
  unfold is_byte, sub_result, carry_in. intros Ha Hy Hc HA HC HH HZ HN.
  rewrite HC, HH, HZ, HN, !land_F_mod, HA. unfold u8.
  pose proof (Z.mod_pos_bound (a - y - cin) 256 ltac:(lia)) as Hm.
  repeat split; try lia.
  destruct (a <? y + cin) eqn:E.
  - replace (a - y - cin) with (a - y - cin + 256 + (-1) * 256) at 1 by lia.
    rewrite Z.mod_add, Z.mod_small by lia. lia.
  - rewrite Z.mod_small by lia. lia.
Qed.

Lemma testbit_u8_high (x k : Z) : 8 <= k -> Z.testbit (u8 x) k = false.
Proof.
  intros Hk. unfold u8. change 256 with (2 ^ 8).
  apply Z.mod_pow2_bits_high. lia.
Qed.

Lemma setFlag_F_high (flag : Z) (b : bool) (c : CPU.t) (k : Z) :
  8 <= k -> Z.testbit (CPU.F (CPU.setFlag flag b c)) k = false.
Proof.
  intros Hk. unfold CPU.setFlag.
  destruct b; cpu_regs; apply testbit_u8_high; exact Hk.
Qed.

(** X20.  SUB, SBC and CP are exact: for a byte in A, the new A and the
    carry flag together hold the difference, A' - 256 * C' = A - value -
    carry (carry 0 for SUB), so that C is the borrow; H is the borrow from
    bit 4, Z tells whether the new A is zero, and N is set.  CP leaves A
    alone and sets the very flag byte that SUB sets. *)
Theorem SUB_SBC_CP_exact (value : Z) (c : CPU.t) :
  is_byte (CPU.A c) ->
  sub_result (CPU.A c) (u8 value) 0 (CPU.SUB_A_r value c)
  /\ sub_result (CPU.A c) (u8 value) (carry_in c) (CPU.SBC_A_r value c)
  /\ CPU.A (CPU.CP_A_r value c) = CPU.A c
  /\ CPU.F (CPU.CP_A_r value c) = CPU.F (CPU.SUB_A_r value c).
Proof.
  intros Ha. pose proof (u8_byte value) as Hy.
  split; [| split; [| split]].
  - apply (sub_exact _ _ 0); try assumption; try lia;
      rewrite ?Z.add_0_r, ?Z.sub_0_r; unfold CPU.SUB_A_r; cbv zeta;
      flag_bits; reflexivity.
  - assert (Hc : 0 <= carry_in c <= 1)
      by (unfold carry_in; destruct (CPU.getFlag CPU.FLAG_C c); lia).
    apply (sub_exact _ _ (carry_in c)); try assumption;
      unfold CPU.SBC_A_r, carry_in; cbv zeta; flag_bits; reflexivity.
  - unfold CPU.CP_A_r. cbv zeta. rewrite !setFlag_A. reflexivity.
  - apply Z.bits_inj'. intros k Hk.
    unfold CPU.CP_A_r, CPU.SUB_A_r. cbv zeta.
    destruct (Z.ltb_spec k 8) as [Hlt | Hge].
    + assert (Hz : (CPU.A c =? u8 value) = (u8 (CPU.A c - u8 value) =? 0)).
      { unfold is_byte in *. unfold u8 at 2.
        destruct (CPU.A c =? u8 value) eqn:E.
        - apply Z.eqb_eq in E. rewrite E, Z.sub_diag. reflexivity.
        - apply Z.eqb_neq in E. symmetry. apply Z.eqb_neq.
          destruct (CPU.A c <? u8 value) eqn:E2.
          + replace (CPU.A c - u8 value)
              with (CPU.A c - u8 value + 256 + (-1) * 256) by lia.
            rewrite Z.mod_add, Z.mod_small by lia. lia.
          + rewrite Z.mod_small by lia. lia. }
      assert (Hk8 : k = 0 \/ k = 1 \/ k = 2 \/ k = 3 \/ k = 4 \/ k = 5
                    \/ k = 6 \/ k = 7) by lia.
      destruct Hk8 as [-> | [-> | [-> | [-> | [-> | [-> | [-> | ->]]]]]]];
        flag_bits; rewrite ?Hz; reflexivity.
    + rewrite !setFlag_F_high by lia. reflexivity.
Qed.

Lemma SUB_SBC_CP_exact_witness :
  sub_result (CPU.A irq_cpu) (u8 0x02) 0
    (CPU.SUB_A_r 0x02 irq_cpu)
  /\ sub_result (CPU.A irq_cpu) (u8 0x02)
       (carry_in irq_cpu)
       (CPU.SBC_A_r 0x02 irq_cpu)
  /\ CPU.A (CPU.CP_A_r 0x02 irq_cpu) = CPU.A irq_cpu
  /\ CPU.F (CPU.CP_A_r 0x02 irq_cpu)
     = CPU.F (CPU.SUB_A_r 0x02 irq_cpu).
Proof.
  apply (SUB_SBC_CP_exact 0x02 irq_cpu).
  unfold is_byte. simpl. lia.
Defined.

(** 0x01 - 0x02 with the carry set: 0xFE, with borrow and half borrow. *)
Example SBC_borrows :
  CPU.A (CPU.SBC_A_r 0x02 irq_cpu) = 0xFE
  /\ CPU.F (CPU.SBC_A_r 0x02 irq_cpu) = 0x70.
Proof. split; vm_compute; reflexivity. Qed.

(** X21.  INC and DEC of an 8-bit register wrap modulo 256, undo one
    another and never touch the carry flag; Z tells whether the result is
    zero, H is set by INC when the low nibble was 0xF and by DEC when it
    was 0, N is cleared by INC and set by DEC. *)
Theorem INC_DEC_inverse (reg : Z) (c : CPU.t) :
  is_byte reg ->
  let r1 := fst (CPU.INC_r reg c) in
  let c1 := snd (CPU.INC_r reg c) in
  let r2 := fst (CPU.DEC_r r1 c1) in
  let c2 := snd (CPU.DEC_r r1 c1) in
  r1 = (reg + 1) mod 256 /\ r2 = reg
  /\ CPU.getFlag CPU.FLAG_C c1 = CPU.getFlag CPU.FLAG_C c
  /\ CPU.getFlag CPU.FLAG_C c2 = CPU.getFlag CPU.FLAG_C c
  /\ CPU.getFlag CPU.FLAG_Z c1 = (r1 =? 0)
  /\ CPU.getFlag CPU.FLAG_H c1 = (reg mod 16 =? 15)
  /\ CPU.getFlag CPU.FLAG_N c1 = false
  /\ CPU.getFlag CPU.FLAG_Z c2 = (reg =? 0)
  /\ CPU.getFlag CPU.FLAG_H c2 = (r1 mod 16 =? 0)
  /\ CPU.getFlag CPU.FLAG_N c2 = true.
Proof.
  intros Hr. unfold is_byte in Hr. cbv zeta.
  unfold CPU.INC_r, CPU.DEC_r. cbv zeta. cbn [fst snd].
  assert (Hback : u8 (u8 (reg + 1) - 1) = reg).
  { unfold u8. destruct (Z.eq_dec reg 255) as [-> | Hne]; [reflexivity |].
    rewrite (Z.mod_small (reg + 1)) by lia.
    replace (reg + 1 - 1) with reg by lia. apply Z.mod_small. lia. }
  rewrite Hback, !land_F_mod.
  repeat split; flag_bits; reflexivity.
Qed.

Lemma INC_DEC_inverse_witness :
  fst (CPU.INC_r 0xFF irq_cpu) = (0xFF + 1) mod 256
  /\ fst (CPU.DEC_r (fst (CPU.INC_r 0xFF irq_cpu))
                    (snd (CPU.INC_r 0xFF irq_cpu))) = 0xFF
  /\ CPU.getFlag CPU.FLAG_C (snd (CPU.INC_r 0xFF irq_cpu))
     = CPU.getFlag CPU.FLAG_C irq_cpu.
Proof.
  pose proof (INC_DEC_inverse 0xFF irq_cpu) as H. cbv zeta in H.
  destruct H as (H1 & H2 & H3 & _); [unfold is_byte; lia |].
  split; [exact H1 | split; [exact H2 | exact H3]].
Defined.

Lemma RLA_effect (c : CPU.t) :
  CPU.A (CPU.RLA c)
  = u8 (Z.lor (Z.shiftl (CPU.A c) 1) (carry_in c))
  /\ CPU.getFlag CPU.FLAG_C (CPU.RLA c) = negb (Z.land (CPU.A c) 0x80 =? 0)
  /\ CPU.getFlag CPU.FLAG_Z (CPU.RLA c) = false
  /\ CPU.getFlag CPU.FLAG_N (CPU.RLA c) = false
  /\ CPU.getFlag CPU.FLAG_H (CPU.RLA c) = false.
Proof.
  unfold CPU.RLA, CPU.rot_flags, carry_in. cbv zeta.
  repeat split; flag_bits; reflexivity.
Qed.

Lemma RRA_effect (c : CPU.t) :
  CPU.A (CPU.RRA c)
  = u8 (Z.lor (Z.shiftr (CPU.A c) 1)
              (if CPU.getFlag CPU.FLAG_C c then 0x80 else 0))
  /\ CPU.getFlag CPU.FLAG_C (CPU.RRA c) = negb (Z.land (CPU.A c) 0x01 =? 0)
  /\ CPU.getFlag CPU.FLAG_Z (CPU.RRA c) = false
  /\ CPU.getFlag CPU.FLAG_N (CPU.RRA c) = false
  /\ CPU.getFlag CPU.FLAG_H (CPU.RRA c) = false.
Proof.
  unfold CPU.RRA, CPU.rot_flags. cbv zeta.
  repeat split; flag_bits; reflexivity.
Qed.

(** The two rotations on a byte and a carry bit, checked on all 512
    inputs. *)
Lemma rotate9 (a : Z) (cy : bool) :
  is_byte a ->
  let l := u8 (Z.lor (Z.shiftl a 1) (if cy then 1 else 0)) in
  let lc := negb (Z.land a 0x80 =? 0) in
  let r := u8 (Z.lor (Z.shiftr a 1) (if cy then 0x80 else 0)) in
  let rc := negb (Z.land a 0x01 =? 0) in
  u8 (Z.lor (Z.shiftr l 1) (if lc then 0x80 else 0)) = a
  /\ negb (Z.land l 0x01 =? 0) = cy
  /\ u8 (Z.lor (Z.shiftl r 1) (if rc then 1 else 0)) = a
  /\ negb (Z.land r 0x80 =? 0) = cy
  /\ l + 256 * (if lc then 1 else 0) = 2 * a + (if cy then 1 else 0).
Proof.
  intros Ha. unfold is_byte in Ha. cbv zeta.
  pose proof (range_check
    (fun a =>
       forallb
         (fun cy : bool =>
            let l := u8 (Z.lor (Z.shiftl a 1) (if cy then 1 else 0)) in
            let lc := negb (Z.land a 0x80 =? 0) in
            let r := u8 (Z.lor (Z.shiftr a 1) (if cy then 0x80 else 0)) in
            let rc := negb (Z.land a 0x01 =? 0) in
            (u8 (Z.lor (Z.shiftr l 1) (if lc then 0x80 else 0)) =? a)
            && eqb (negb (Z.land l 0x01 =? 0)) cy
            && (u8 (Z.lor (Z.shiftl r 1) (if rc then 1 else 0)) =? a)
            && eqb (negb (Z.land r 0x80 =? 0)) cy
            && (l + 256 * (if lc then 1 else 0)
                =? 2 * a + (if cy then 1 else 0)))
         [true; false])
    256 ltac:(vm_compute; reflexivity) a ltac:(lia)) as H.
  cbv beta zeta in H. cbn [forallb] in H.
  rewrite !andb_true_iff in H.
  destruct H as [Ht [Hf _]].
  destruct cy.
  - destruct Ht as [[[[H1 H2] H3] H4] H5].
    apply eqb_prop in H2, H4. repeat split; try assumption; lia.
  - destruct Hf as [[[[H1 H2] H3] H4] H5].
    apply eqb_prop in H2, H4. repeat split; try assumption; lia.
Qed.

(** X22.  RLA and RRA rotate the nine bits of A and the carry flag: RLA
    doubles A into carry and A, taking the old carry into bit 0
    (A' + 256 * C' = 2 * A + C), and each of the two undoes the other, on
    A and on the carry flag; both clear Z, N and H. *)
Theorem RLA_RRA_inverse (c : CPU.t) :
  is_byte (CPU.A c) ->
  CPU.A (CPU.RLA c) + 256 * carry_in (CPU.RLA c) = 2 * CPU.A c + carry_in c
  /\ CPU.A (CPU.RRA (CPU.RLA c)) = CPU.A c
  /\ CPU.getFlag CPU.FLAG_C (CPU.RRA (CPU.RLA c)) = CPU.getFlag CPU.FLAG_C c
  /\ CPU.A (CPU.RLA (CPU.RRA c)) = CPU.A c
  /\ CPU.getFlag CPU.FLAG_C (CPU.RLA (CPU.RRA c)) = CPU.getFlag CPU.FLAG_C c
  /\ CPU.getFlag CPU.FLAG_Z (CPU.RLA c) = false
  /\ CPU.getFlag CPU.FLAG_N (CPU.RLA c) = false
  /\ CPU.getFlag CPU.FLAG_H (CPU.RLA c) = false
  /\ CPU.getFlag CPU.FLAG_Z (CPU.RRA c) = false
  /\ CPU.getFlag CPU.FLAG_N (CPU.RRA c) = false
  /\ CPU.getFlag CPU.FLAG_H (CPU.RRA c) = false.
Proof.
  intros Ha.
  destruct (rotate9 (CPU.A c) (CPU.getFlag CPU.FLAG_C c) Ha)
    as (H1 & H2 & H3 & H4 & H5).
  destruct (RLA_effect c) as (HlA & HlC & HlZ & HlN & HlH).
  destruct (RRA_effect c) as (HrA & HrC & HrZ & HrN & HrH).
  destruct (RRA_effect (CPU.RLA c)) as (HrlA & HrlC & _).
  destruct (RLA_effect (CPU.RRA c)) as (HlrA & HlrC & _).
  unfold carry_in in *.
  repeat split; try assumption.
  - rewrite HlA, HlC. exact H5.
  - rewrite HrlA, HlA, HlC. exact H1.
  - rewrite HrlC, HlA. exact H2.
  - rewrite HlrA, HrA, HrC. exact H3.
  - rewrite HlrC, HrA. exact H4.
Qed.

Lemma RLA_RRA_inverse_witness :
  CPU.A (CPU.RRA (CPU.RLA (CPU.set_A 0xB5 irq_cpu)))
  = CPU.A (CPU.set_A 0xB5 irq_cpu)
  /\ CPU.getFlag CPU.FLAG_C (CPU.RRA (CPU.RLA (CPU.set_A 0xB5 irq_cpu)))
     = CPU.getFlag CPU.FLAG_C (CPU.set_A 0xB5 irq_cpu).
Proof.
  destruct (RLA_RRA_inverse (CPU.set_A 0xB5 irq_cpu)) as (_ & H2 & H3 & _);
    [unfold is_byte; simpl; lia |].
  split; [exact H2 | exact H3].
Defined.
(** *** The CB table *)







(** SRA as coded: the sign bit is or-ed back as 1, into bit 0, so that
    0x80 becomes 0x41 where an arithmetic shift gives 0xC0. *)
Example SRA_loses_sign :
  fst (CPU.SRA_r 0x80 irq_cpu) = 0x41
  /\ CPU.B (fst (CPU.executeCBOpcode 0x28 (CPU.set_B 0x80 irq_cpu, MMU.new)))
     = 0x41.
Proof. split; vm_compute; reflexivity. Qed.

(** *** The stack *)

Lemma word_split (v : Z) :
  0 <= v < 65536 ->
  u16 (Z.lor (Z.shiftl (Z.shiftr v 8) 8) (Z.land v 0xFF)) = v.
Proof.
  intros Hv.
  rewrite Z.shiftr_div_pow2, land_FF_mod by lia. change (2 ^ 8) with 256.
  assert (Hhi : 0 <= v / 256 < 256)
    by (split; [apply Z.div_pos; lia | apply Z.div_lt_upper_bound; lia]).
  pose proof (Z.mod_pos_bound v 256 ltac:(lia)) as Hlo.
  assert (Hdisj : Z.land (Z.shiftl (v / 256) 8) (v mod 256) = 0).
  { apply Z.bits_inj'. intros n Hn. rewrite Z.land_spec, Z.bits_0.
    destruct (Z.ltb_spec n 8) as [Hlt | Hge].
    - rewrite Z.shiftl_spec_low by lia. reflexivity.
    - change 256 with (2 ^ 8). rewrite Z.mod_pow2_bits_high by lia.
      apply andb_false_r. }
  rewrite <- Z.lxor_lor, <- Z.add_nocarry_lxor by exact Hdisj.
  rewrite Z.shiftl_mul_pow2 by lia. change (2 ^ 8) with 256.
  rewrite u16_small by lia.
  pose proof (Z.div_mod v 256 ltac:(lia)). lia.
Qed.

Lemma u16_succ (x : Z) : u16 (u16 x + 1) = u16 (x + 1).
Proof. unfold u16. apply Zplus_mod_idemp_l. Qed.

(** Two consecutive RAM addresses never name the same cell. *)
Lemma cell_succ (a : Z) :
  is_ram a = true -> is_ram (a + 1) = true -> cell (a + 1) <> cell a.
Proof.
  unfold is_ram, cell. cbv zeta. rewrite <- (u16_succ a).
  pose proof (u16_range a) as Ha.
  set (x := u16 a) in *.
  destruct (Z.eq_dec x 65535) as [E | E].
  - rewrite E. change (u16 (65535 + 1)) with 0. intros _ H. lia.
  - rewrite (u16_small (x + 1)) by lia. intros H1 H2.
    repeat match goal with
      | |- context [if ?p && ?q then _ else _] =>
          destruct (p && q) eqn:?
      end; lia.
Qed.

Lemma cell_u16 (a : Z) : cell (u16 a) = cell a.
Proof.
  unfold cell. cbv zeta. rewrite (u16_small (u16 a)) by apply u16_range.
  reflexivity.
Qed.

Lemma is_ram_u16 (a : Z) : is_ram (u16 a) = is_ram a.
Proof.
  unfold is_ram. cbv zeta. rewrite (u16_small (u16 a)) by apply u16_range.
  reflexivity.
Qed.

Lemma cell_u16_succ (a : Z) : cell (u16 a + 1) = cell (a + 1).
Proof. unfold cell. cbv zeta. rewrite u16_succ. reflexivity. Qed.

Lemma is_ram_u16_succ (a : Z) : is_ram (u16 a + 1) = is_ram (a + 1).
Proof. unfold is_ram. cbv zeta. rewrite u16_succ. reflexivity. Qed.

(** X24.  The stack round trip: when the two bytes below SP are backed by
    RAM, [push16] moves SP down by 2 and stores the low byte at SP and the
    high byte at SP + 1, changing no other cell that the bus can read, and
    the [pop16] that follows returns the value pushed, leaves the bus as
    the push left it and moves SP back; the pair costs 16 cycles. *)
Theorem push16_pop16 (v : Z) (c : CPU.t) (m : MMU.t) :
  mem_ok m -> 0 <= v < 65536 ->
  is_ram (CPU.SP c - 2) = true -> is_ram (CPU.SP c - 1) = true ->
  let s1 := CPU.push16 v (c, m) in
  let r := CPU.pop16 s1 in
  fst r = v
  /\ CPU.SP (fst s1) = u16 (CPU.SP c - 2)
  /\ CPU.SP (fst (snd r)) = u16 (CPU.SP c)
  /\ CPU.cycles (fst (snd r)) = u32 (CPU.cycles c + 16)
  /\ snd (snd r) = snd s1
  /\ MMU.read (CPU.SP c - 2) (snd s1) = Z.land v 0xFF
  /\ MMU.read (CPU.SP c - 1) (snd s1) = Z.shiftr v 8
  /\ (forall b, cell b <> cell (CPU.SP c - 2) ->
                cell b <> cell (CPU.SP c - 1) ->
                MMU.read b (snd s1) = MMU.read b m).
Proof.
  intros Hok Hv Hlo Hhi. cbv zeta.
  unfold CPU.pop16, CPU.read16, CPU.read8, CPU.push16, CPU.write16,
    CPU.write8.
  cpu_regs.
  set (a := CPU.SP c - 2) in *.
  replace (CPU.SP c - 1) with (a + 1) in * by (subst a; lia).
  assert (Hok1 : mem_ok (MMU.write (u16 a) (Z.land v 0xFF) m))
    by (apply write_mem_ok; [exact Hok | rewrite is_ram_u16; exact Hlo]).
  assert (Hne : cell (a + 1) <> cell a) by (apply cell_succ; assumption).
  assert (Hb_lo : is_byte (Z.land v 0xFF))
    by (rewrite land_FF_mod; unfold is_byte;
        apply Z.mod_pos_bound; lia).
  assert (Hb_hi : is_byte (Z.shiftr v 8)).
  { rewrite Z.shiftr_div_pow2 by lia. change (2 ^ 8) with 256.
    unfold is_byte.
    split; [apply Z.div_pos; lia | apply Z.div_lt_upper_bound; lia]. }
  assert (Hrd_lo : forall x, cell x = cell a ->
            MMU.read x (MMU.write (u16 a + 1) (Z.shiftr v 8)
                          (MMU.write (u16 a) (Z.land v 0xFF) m))
            = Z.land v 0xFF).
  { intros x Hx.
    rewrite read_write_ram
      by (try exact Hok1; rewrite is_ram_u16_succ; exact Hhi).
    rewrite cell_u16_succ.
    destruct (cell x =? cell (a + 1)) eqn:E; [lia |].
    rewrite read_write_ram by (try exact Hok; rewrite is_ram_u16; exact Hlo).
    rewrite cell_u16, Hx, Z.eqb_refl. apply u8_small. exact Hb_lo. }
  assert (Hrd_hi : forall x, cell x = cell (a + 1) ->
            MMU.read x (MMU.write (u16 a + 1) (Z.shiftr v 8)
                          (MMU.write (u16 a) (Z.land v 0xFF) m))
            = Z.shiftr v 8).
  { intros x Hx.
    rewrite read_write_ram
      by (try exact Hok1; rewrite is_ram_u16_succ; exact Hhi).
    rewrite cell_u16_succ, Hx, Z.eqb_refl. apply u8_small. exact Hb_hi. }
  split; [| split; [reflexivity |]; split; [| split; [| split; [reflexivity |]]]].
  - rewrite (Hrd_lo (u16 a)) by apply cell_u16.
    rewrite (Hrd_hi (u16 a + 1)) by apply cell_u16_succ.
    apply word_split. exact Hv.
  - subst a. unfold u16. rewrite Zplus_mod_idemp_l. f_equal. lia.
  - repeat (rewrite u32_add_idem; rewrite <- ?Z.add_assoc). reflexivity.
  - split; [apply Hrd_lo; reflexivity |].
    split; [apply Hrd_hi; reflexivity |].
    intros b Hb1 Hb2.
    rewrite read_write_ram
      by (try exact Hok1; rewrite is_ram_u16_succ; exact Hhi).
    rewrite cell_u16_succ.
    destruct (cell b =? cell (a + 1)) eqn:E; [lia |].
    rewrite read_write_ram by (try exact Hok; rewrite is_ram_u16; exact Hlo).
    rewrite cell_u16.
    destruct (cell b =? cell a) eqn:E'; [lia | reflexivity].
Qed.

Lemma push16_pop16_witness :
  fst (CPU.pop16 (CPU.push16 0x1234 (irq_cpu, MMU.new))) = 0x1234
  /\ CPU.SP (fst (snd (CPU.pop16 (CPU.push16 0x1234 (irq_cpu, MMU.new)))))
     = u16 (CPU.SP irq_cpu)
  /\ CPU.cycles
       (fst (snd (CPU.pop16 (CPU.push16 0x1234 (irq_cpu, MMU.new)))))
     = u32 (CPU.cycles irq_cpu + 16).
Proof.
  pose proof (push16_pop16 0x1234 irq_cpu MMU.new) as H. cbv zeta in H.
  destruct H as (H1 & _ & H3 & H4 & _);
    [exact mem_ok_new | lia | reflexivity | reflexivity |].
  split; [exact H1 | split; [exact H3 | exact H4]].
Defined.

(** CALL then RET comes back: PC is the return address that CALL pushed
    and SP is where it was. *)
Example CALL_then_RET :
  let s := CPU.RET (CPU.CALL_nn 0x4000 (irq_cpu, MMU.new)) in
  CPU.PC (fst s) = CPU.PC irq_cpu /\ CPU.SP (fst s) = CPU.SP irq_cpu
  /\ CPU.PC (fst (CPU.CALL_nn 0x4000 (irq_cpu, MMU.new))) = 0x4000.
Proof. cbv zeta. repeat split; vm_compute; reflexivity. Qed.
(** *** Interrupts and HALT *)

Lemma dispatch_first (t IF i : Z) (s : CPU.t * MMU.t) :
  0 <= i < 5 -> Z.testbit t i = true ->
  (forall j, 0 <= j < i -> Z.testbit t j = false) ->
  CPU.dispatch [0; 1; 2; 3; 4] t IF s = CPU.service i IF s.
Proof.
  intros Hi Hbit Hlow. cbn [CPU.dispatch].
  change (Z.shiftl 1 0) with (2 ^ 0). change (Z.shiftl 1 1) with (2 ^ 1).
  change (Z.shiftl 1 2) with (2 ^ 2). change (Z.shiftl 1 3) with (2 ^ 3).
  change (Z.shiftl 1 4) with (2 ^ 4).
  rewrite !nz_land_pow2 by lia.
  assert (Hc : i = 0 \/ i = 1 \/ i = 2 \/ i = 3 \/ i = 4) by lia.
  destruct Hc as [-> | [-> | [-> | [-> | ->]]]];
    rewrite ?(Hlow 0), ?(Hlow 1), ?(Hlow 2), ?(Hlow 3) by lia;
    rewrite Hbit; reflexivity.
Qed.

(** X25.  Interrupt priority: with IME set, the interrupt serviced is the
    one of the lowest bit that is set in both IF and IE; its bit alone is
    cleared in IF, IME is cleared, the CPU leaves HALT, PC is pushed and
    then set to 0x40 + 8 * i. *)
Theorem interrupt_priority (i : Z) (c : CPU.t) (m : MMU.t) :
  CPU.ime c = true -> 0 <= i < 5 ->
  Z.testbit (pending m) i = true ->
  (forall j, 0 <= j < i -> Z.testbit (pending m) j = false) ->
  let s := CPU.handleInterrupts (c, m) in
  CPU.PC (fst s) = 0x40 + 8 * i
  /\ CPU.ime (fst s) = false
  /\ CPU.halted (fst s) = false
  /\ CPU.SP (fst s) = u16 (CPU.SP c - 2)
  /\ snd s
     = MMU.write (u16 (CPU.SP c - 2) + 1) (Z.shiftr (CPU.PC c) 8)
         (MMU.write (u16 (CPU.SP c - 2)) (Z.land (CPU.PC c) 0xFF)
            (MMU.write 0xFF0F
               (Z.land (MMU.read 0xFF0F m) (Z.lnot (2 ^ i))) m)).
Proof.
  intros Hime Hi Hbit Hlow. cbv zeta.
  assert (Hnz : pending m <> 0).
  { intros H0. rewrite H0, Z.bits_0 in Hbit. discriminate. }
  unfold CPU.handleInterrupts. rewrite Hime. cbn [negb].
  fold (pending m).
  destruct (pending m =? 0) eqn:Hz; [apply Z.eqb_eq in Hz; contradiction |].
  rewrite (dispatch_first (pending m) _ i) by assumption.
  destruct (service_effect i (MMU.read 0xFF0F m) c m)
    as (_ & Hi' & Hh & Hpc & Hsp & Hbus).
  cbv zeta in *. rewrite Hi', Hh, Hpc, Hsp, Hbus, Z.shiftl_1_l.
  repeat split. rewrite u16_small by lia. lia.
Qed.

Lemma interrupt_priority_witness :
  CPU.PC (fst (CPU.handleInterrupts
                 (irq_cpu, MMU.write 0xFF0F 0x16 (MMU.write 0xFFFF 0x1C
                                                    MMU.new))))
  = 0x40 + 8 * 2
  /\ MMU.read 0xFF0F
       (snd (CPU.handleInterrupts
               (irq_cpu, MMU.write 0xFF0F 0x16 (MMU.write 0xFFFF 0x1C
                                                  MMU.new)))) = 0x12.
Proof.
  pose proof (interrupt_priority 2 irq_cpu
                (MMU.write 0xFF0F 0x16 (MMU.write 0xFFFF 0x1C MMU.new)))
    as H.
  cbv zeta in H.
  destruct H as (H1 & _); [reflexivity | lia | reflexivity | |].
  - intros j Hj. assert (Hc : j = 0 \/ j = 1) by lia.
    destruct Hc as [-> | ->]; reflexivity.
  - split; [exact H1 | vm_compute; reflexivity].
Defined.


(** X26.  Waking from HALT: a step of a halted CPU with an interrupt
    flagged and enabled (IF & IE & 0x1F non-zero) only clears the halted
    flag and charges 4 cycles; no instruction is fetched and the interrupt
    is not serviced in that step, whether IME is set or not: PC, SP, the
    registers and the bus, IF included, are unchanged. *)
Theorem halted_wakeup (c : CPU.t) (m : MMU.t) :
  CPU.halted c = true -> pending m <> 0 ->
  CPU.step (c, m)
  = Some (CPU.mk (CPU.A c) (CPU.B c) (CPU.C c) (CPU.D c) (CPU.E c) (CPU.F c)
                 (CPU.H c) (CPU.L c) (CPU.SP c) (CPU.PC c)
                 false (CPU.stopped c)
                 (CPU.ime c || CPU.ime_scheduled c) false
                 (u32 (CPU.cycles c + 4)),
          m).
Proof.
  intros Hh Hp. unfold CPU.step, pending in *.
  destruct c as [a b cc d e f h l sp pc hl st im ims cy].
  cbn [CPU.halted] in Hh. subst hl.
  apply Z.eqb_neq in Hp.
  destruct ims; cpu_proj; unfold nz; rewrite Hp; cbn [negb];
    rewrite ?orb_true_r, ?orb_false_r; reflexivity.
Qed.

Lemma halted_wakeup_witness :
  CPU.step (CPU.set_halted true irq_cpu, irq_mmu)
  = Some (CPU.mk (CPU.A (CPU.set_halted true irq_cpu))
                 (CPU.B (CPU.set_halted true irq_cpu))
                 (CPU.C (CPU.set_halted true irq_cpu))
                 (CPU.D (CPU.set_halted true irq_cpu))
                 (CPU.E (CPU.set_halted true irq_cpu))
                 (CPU.F (CPU.set_halted true irq_cpu))
                 (CPU.H (CPU.set_halted true irq_cpu))
                 (CPU.L (CPU.set_halted true irq_cpu))
                 (CPU.SP (CPU.set_halted true irq_cpu))
                 (CPU.PC (CPU.set_halted true irq_cpu))
                 false (CPU.stopped (CPU.set_halted true irq_cpu))
                 (CPU.ime (CPU.set_halted true irq_cpu)
                  || CPU.ime_scheduled (CPU.set_halted true irq_cpu))
                 false
                 (u32 (CPU.cycles (CPU.set_halted true irq_cpu) + 4)),
          irq_mmu).
Proof.
  apply (halted_wakeup (CPU.set_halted true irq_cpu) irq_mmu).
  - reflexivity.
  - vm_compute. discriminate.
Defined.

(** The interrupt that woke the CPU is taken after the instruction that
    follows the HALT: here a NOP at 0x0100, then the jump to 0x0040. *)
Example wakeup_then_service :
  option_map (fun s => (CPU.PC (fst s), CPU.halted (fst s)))
    (steps 1 (CPU.set_halted true irq_cpu, irq_mmu)) = Some (0x0100, false)
  /\ option_map (fun s => (CPU.PC (fst s), CPU.halted (fst s)))
       (steps 2 (CPU.set_halted true irq_cpu,
                 MMU.set_cartridge
                   (Some (fresh_cartridge (image_of 0x00 0x00))) irq_mmu))
     = Some (0x0040, false).
Proof. split; vm_compute; reflexivity. Qed.

(** ** PPU (ppu.cpp) *)

Lemma getColor_range (palette color_id : Z) :
  0 <= PPU.getColor palette color_id <= 3.
Proof. unfold PPU.getColor. apply land3_range. Qed.

Lemma same_but_line_refl (line : Z) (fb : list Z) : same_but_line line fb fb.
Proof. split; [reflexivity | intros; reflexivity]. Qed.

Lemma same_but_line_set (line px v : Z) (fb0 fb : list Z) :
  0 <= px < 160 ->
  same_but_line line fb0 fb ->
  same_but_line line fb0 (arr_set fb (line * 160 + px) v).
Proof.
  intros Hpx [Hlen Hsame]. split.
  - rewrite arr_set_length. exact Hlen.
  - intros l x Hx Hl. unfold pixel in *.
    rewrite arr_get_set_ne by nia. apply Hsame; assumption.
Qed.

Lemma line_shaded_set (line px v : Z) (fb : list Z) :
  0 <= line -> 0 <= px < 160 -> 0 <= v <= 3 ->
  line * 160 + px < Z.of_nat (length fb) ->
  line_shaded line fb ->
  line_shaded line (arr_set fb (line * 160 + px) v).
Proof.
  intros Hline Hpx Hv Hin Hsh x Hx. unfold pixel.
  destruct (Z.eq_dec x px) as [-> | Hne].
  - rewrite arr_get_set_eq by lia. exact Hv.
  - rewrite arr_get_set_ne by lia. apply Hsh. exact Hx.
Qed.

(** A loop that stores a shade in each of the first [n] pixels of a line. *)
Lemma fill_line (line : Z) (f : Z -> Z) (fb : list Z) (n : nat) :
  0 <= line -> (n <= 160)%nat ->
  line * 160 + 160 <= Z.of_nat (length fb) ->
  (forall x, 0 <= f x <= 3) ->
  let fb' := fold_left
               (fun fb x => arr_set fb (line * 160 + Z.of_nat x)
                                    (f (Z.of_nat x)))
               (seq 0 n) fb in
  same_but_line line fb fb'
  /\ (forall x, 0 <= x < Z.of_nat n -> 0 <= pixel fb' line x <= 3)
  /\ (forall x, Z.of_nat n <= x -> pixel fb' line x = pixel fb line x).
Proof.
  intros Hline Hn Hlen Hf. cbv zeta.
  induction n as [| n IH].
  - cbn [seq fold_left]. split; [apply same_but_line_refl |].
    split; [intros; lia | reflexivity].
  - rewrite seq_S, fold_left_app. cbn [fold_left Nat.add].
    destruct IH as (Hs & Hlow & Hhigh); [lia |].
    set (fb1 := fold_left _ (seq 0 n) fb) in *.
    split; [apply same_but_line_set; [lia | exact Hs] |].
    destruct Hs as [Hl1 _].
    split.
    + intros x Hx. unfold pixel in *.
      destruct (Z.eq_dec x (Z.of_nat n)) as [-> | Hne].
      * rewrite arr_get_set_eq by lia. apply Hf.
      * rewrite arr_get_set_ne by lia. apply Hlow. lia.
    + intros x Hx. unfold pixel in *.
      rewrite arr_get_set_ne by lia. apply Hhigh. lia.
Qed.

Lemma renderBackground_line (line : Z) (m : MMU.t) (fb : list Z) :
  0 <= line -> line * 160 + 160 <= Z.of_nat (length fb) ->
  same_but_line line fb (PPU.renderBackground line m fb)
  /\ line_shaded line (PPU.renderBackground line m fb).
Proof.
  intros Hline Hlen. unfold PPU.renderBackground. cbv zeta.
  destruct (negb (nz (Z.land (MMU.read 0xFF40 m) 0x01))).
  - destruct (fill_line line (fun _ => 0) fb 160 Hline ltac:(lia) Hlen
                ltac:(intros; lia)) as (Hs & Hsh & _).
    split; [exact Hs | exact Hsh].
  - destruct (fill_line line
                (PPU.bg_pixel line (MMU.read 0xFF40 m) (MMU.read 0xFF42 m)
                   (MMU.read 0xFF43 m) (MMU.read 0xFF47 m) m)
                fb 160 Hline ltac:(lia) Hlen
                ltac:(intros; apply getColor_range)) as (Hs & Hsh & _).
    split; [exact Hs | exact Hsh].
Qed.

Lemma sprite_line (line h i : Z) (m : MMU.t) (fb0 fb : list Z) :
  0 <= line -> line * 160 + 160 <= Z.of_nat (length fb) ->
  same_but_line line fb0 fb -> line_shaded line fb ->
  same_but_line line fb0 (PPU.sprite line h m fb i)
  /\ line_shaded line (PPU.sprite line h m fb i).
Proof.
  intros Hline Hlen Hs Hsh. unfold PPU.sprite. cbv zeta.
  destruct (_ || _); [split; assumption |].
  set (x_pos := u8 (MMU.read (u16 (0xFE00 + i * 4) + 1) m - 8)).
  generalize (seq 0 8). intros pxs. revert fb Hlen Hs Hsh.
  induction pxs as [| px pxs IH]; intros fb Hlen Hs Hsh;
    [split; assumption |].
  cbn [fold_left].
  destruct ((x_pos + Z.of_nat px <? 0) || (160 <=? x_pos + Z.of_nat px))
    eqn:Hout; [apply IH; assumption |].
  destruct (PPU.color_of _ _ _ =? 0); [apply IH; assumption |].
  apply IH.
  - rewrite arr_set_length. exact Hlen.
  - apply same_but_line_set; [lia | exact Hs].
  - apply line_shaded_set; try assumption; try lia.
    apply getColor_range.
Qed.

Lemma renderSprites_line (line : Z) (m : MMU.t) (fb0 fb : list Z) :
  0 <= line -> line * 160 + 160 <= Z.of_nat (length fb) ->
  same_but_line line fb0 fb -> line_shaded line fb ->
  same_but_line line fb0 (PPU.renderSprites line m fb)
  /\ line_shaded line (PPU.renderSprites line m fb).
Proof.
  intros Hline Hlen Hs Hsh. unfold PPU.renderSprites. cbv zeta.
  destruct (negb _); [split; assumption |].
  generalize (seq 0 40). intros idxs. revert fb Hlen Hs Hsh.
  induction idxs as [| i idxs IH]; intros fb Hlen Hs Hsh; [split; assumption |].
  cbn [fold_left].
  destruct (sprite_line line
              (if nz (Z.land (MMU.read 0xFF40 m) 0x04) then 16 else 8)
              (Z.of_nat i) m fb0 fb Hline Hlen Hs Hsh) as [Hs' Hsh'].
  apply IH; try assumption.
  destruct Hs' as [Hl' _]. destruct Hs as [Hl _]. lia.
Qed.

Lemma renderScanline_fb (p : PPU.t) (m : MMU.t) :
  len (PPU.framebuffer p) = 160 * 144 ->
  0 <= PPU.scanline p <= 143 ->
  PPU.renderScanline (p, m)
  = (PPU.set_framebuffer (PPU.framebuffer (fst (PPU.renderScanline (p, m))))
       p, m)
  /\ same_but_line (PPU.scanline p) (PPU.framebuffer p)
       (PPU.framebuffer (fst (PPU.renderScanline (p, m))))
  /\ line_shaded (PPU.scanline p)
       (PPU.framebuffer (fst (PPU.renderScanline (p, m)))).
Proof.
  intros Hlen Hline. unfold len in Hlen.
  unfold PPU.renderScanline. ppu_proj.
  assert (Hin : PPU.scanline p * 160 + 160
                <= Z.of_nat (length (PPU.framebuffer p))) by lia.
  destruct (renderBackground_line (PPU.scanline p) m (PPU.framebuffer p)
              ltac:(lia) Hin) as [Hs Hsh].
  assert (Hin' : PPU.scanline p * 160 + 160
                 <= Z.of_nat (length (PPU.renderBackground (PPU.scanline p)
                                        m (PPU.framebuffer p))))
    by (destruct Hs as [Hl _]; lia).
  destruct (renderSprites_line (PPU.scanline p) m (PPU.framebuffer p) _
              ltac:(lia) Hin' Hs Hsh) as [Hs' Hsh'].
  split; [reflexivity | split; assumption].
Qed.

(** X27.  Rendering a scanline: for a line 0-143 of a 160x144
    framebuffer, [renderScanline] leaves the bus and every other line of
    the framebuffer untouched and leaves each of the 160 pixels of its line
    holding a shade 0-3, whatever the video memory, the palettes and the
    sprite table contain. *)
Theorem renderScanline_line (p : PPU.t) (m : MMU.t) :
  len (PPU.framebuffer p) = 160 * 144 ->
  0 <= PPU.scanline p <= 143 ->
  let s := PPU.renderScanline (p, m) in
  snd s = m
  /\ same_but_line (PPU.scanline p) (PPU.framebuffer p)
       (PPU.framebuffer (fst s))
  /\ line_shaded (PPU.scanline p) (PPU.framebuffer (fst s))
  /\ PPU.scanline (fst s) = PPU.scanline p
  /\ PPU.mode (fst s) = PPU.mode p
  /\ PPU.mode_cycles (fst s) = PPU.mode_cycles p
  /\ PPU.frame_ready (fst s) = PPU.frame_ready p.
Proof.
  intros Hlen Hline. cbv zeta.
  destruct (renderScanline_fb p m Hlen Hline) as (Heq & Hs & Hsh).
  split; [rewrite Heq; reflexivity |].
  split; [exact Hs |]. split; [exact Hsh |].
  rewrite Heq. repeat split.
Qed.

Lemma renderScanline_line_witness :
  snd (PPU.renderScanline (PPU.new, MMU.new)) = MMU.new
  /\ same_but_line (PPU.scanline PPU.new) (PPU.framebuffer PPU.new)
       (PPU.framebuffer (fst (PPU.renderScanline (PPU.new, MMU.new))))
  /\ line_shaded (PPU.scanline PPU.new)
       (PPU.framebuffer (fst (PPU.renderScanline (PPU.new, MMU.new)))).
Proof.
  pose proof (renderScanline_line PPU.new MMU.new) as H. cbv zeta in H.
  destruct H as (H1 & H2 & H3 & _);
    [vm_compute; reflexivity | simpl; lia |].
  split; [exact H1 | split; [exact H2 | exact H3]].
Defined.

Lemma setMode_ppu (md : PPU.Mode) (p : PPU.t) (m : MMU.t) :
  fst (PPU.setMode md (p, m)) = PPU.set_mode md p.
Proof. reflexivity. Qed.

(** X28.  The line counter stays consistent with the mode: the PPU starts
    on line 0 in mode OAM, and every [PPU::step], with any cycle count and
    on any bus, LCD on or off, keeps the line in 0-143 outside V-Blank and
    in 144-153 inside it, and keeps the framebuffer at 160x144 pixels; so
    [renderScanline] is only ever run for a line inside the framebuffer. *)
Theorem PPU_line_counter (cycles : Z) (p : PPU.t) (m : MMU.t) :
  ppu_ok p -> ppu_ok (fst (PPU.step cycles (p, m))).
Proof.
  intros [Hlen Hline]. unfold PPU.step. ppu_proj.
  assert (Hdone : forall q : PPU.t,
            PPU.framebuffer q = PPU.framebuffer p ->
            match PPU.mode q with
            | PPU.VBLANK => 144 <= PPU.scanline q <= 153
            | _ => 0 <= PPU.scanline q <= 143
            end -> ppu_ok q).
  { intros q Hfb Hq. split; [rewrite Hfb; exact Hlen | exact Hq]. }
  destruct (negb (nz (Z.land (MMU.read 0xFF40 m) 0x80)));
    [apply Hdone; ppu_proj; [reflexivity | lia] |].
  destruct (PPU.mode p) eqn:Hmode.
  - (* H-Blank *)
    destruct (204 <=? PPU.mode_cycles p + cycles); ppu_proj;
      [| apply Hdone; ppu_proj; [reflexivity | rewrite Hmode; exact Hline]].
    destruct (PPU.scanline p + 1 =? 144) eqn:E.
    + change (PPU.setMode PPU.VBLANK (?q, ?n))
        with (PPU.set_mode PPU.VBLANK q, snd (PPU.setMode PPU.VBLANK (q, n))).
      cbv iota beta. apply Hdone; ppu_proj; [reflexivity | lia].
    + rewrite setMode_ppu. apply Hdone; ppu_proj; [reflexivity | lia].
  - (* V-Blank *)
    destruct (456 <=? PPU.mode_cycles p + cycles); ppu_proj;
      [| apply Hdone; ppu_proj; [reflexivity | rewrite Hmode; exact Hline]].
    destruct (PPU.scanline p + 1 =? 154) eqn:E.
    + rewrite setMode_ppu. apply Hdone; ppu_proj; [reflexivity | lia].
    + apply Hdone; ppu_proj; [reflexivity | rewrite Hmode; lia].
  - (* OAM search *)
    destruct (80 <=? PPU.mode_cycles p + cycles); ppu_proj;
      [| apply Hdone; ppu_proj; [reflexivity | rewrite Hmode; exact Hline]].
    rewrite setMode_ppu. apply Hdone; ppu_proj; [reflexivity | exact Hline].
  - (* pixel transfer *)
    destruct (172 <=? PPU.mode_cycles p + cycles); ppu_proj;
      [| apply Hdone; ppu_proj; [reflexivity | rewrite Hmode; exact Hline]].
    destruct (renderScanline_fb
                (PPU.set_mode_cycles (PPU.mode_cycles p + cycles - 172)
                   (PPU.set_mode_cycles (PPU.mode_cycles p + cycles) p))
                m Hlen Hline) as (Heq & [Hl _] & _).
    rewrite Heq, setMode_ppu. unfold ppu_ok, len in *. ppu_proj.
    split; [rewrite Hl; exact Hlen | exact Hline].
Qed.

Lemma ppu_ok_new : ppu_ok PPU.new.
Proof. split; [vm_compute; reflexivity | simpl; lia]. Qed.

Lemma PPU_line_counter_witness :
  ppu_ok (fst (PPU.step 80 (PPU.new, MMU.new))).
Proof. apply (PPU_line_counter 80 PPU.new MMU.new). exact ppu_ok_new. Defined.

(** From power-on, 80 + 172 + 204 cycles walk through the modes of line 0
    and reach line 1 with LY updated. *)
Example PPU_first_line :
  let s := PPU.step 204 (PPU.step 172 (PPU.step 80 (PPU.new, MMU.new))) in
  PPU.mode (fst s) = PPU.OAM /\ PPU.scanline (fst s) = 1
  /\ MMU.read 0xFF44 (snd s) = 1 /\ Z.land (MMU.read 0xFF41 (snd s)) 3 = 2.
Proof. cbv zeta. repeat split; vm_compute; reflexivity. Qed.
(** ** Save states (savestate.cpp) *)

Lemma le_bytes_length (w : nat) (x : Z) : length (SaveState.le_bytes w x) = w.
Proof. revert x. induction w as [| w IH]; intros x; simpl; [| rewrite IH]; reflexivity. Qed.

Lemma le_value_bytes (w : nat) (x : Z) :
  SaveState.le_value (SaveState.le_bytes w x) = x mod 256 ^ Z.of_nat w.
Proof.
  revert x. induction w as [| w IH]; intros x.
  - simpl. rewrite Z.mod_1_r. reflexivity.
  - cbn [SaveState.le_bytes SaveState.le_value]. rewrite IH.
    rewrite Nat2Z.inj_succ, Z.pow_succ_r by lia.
    assert (Hp : 0 < 256 ^ Z.of_nat w) by (apply Z.pow_pos_nonneg; lia).
    rewrite Z.rem_mul_r by lia. reflexivity.
Qed.

Lemma overwrite_all (dst src : list Z) :
  length src = length dst -> SaveState.overwrite dst src = src.
Proof.
  intros Hl. unfold SaveState.overwrite.
  rewrite drop_ge by lia. apply app_nil_r.
Qed.

Lemma read_app (bs rest : list Z) :
  SaveState.read (length bs) (SaveState.mkStream (bs ++ rest) true)
  = (bs, SaveState.mkStream rest true).
Proof.
  unfold SaveState.read. cbn [SaveState.good SaveState.rest negb].
  destruct (length bs <=? length (bs ++ rest))%nat eqn:E.
  - rewrite take_app_length, drop_app_length. reflexivity.
  - apply Nat.leb_gt in E. rewrite length_app in E. lia.
Qed.

Lemma read_array_app (dst a rest : list Z) :
  length dst = length a ->
  SaveState.read_array dst (SaveState.mkStream (a ++ rest) true)
  = (a, SaveState.mkStream rest true).
Proof.
  intros Hl. unfold SaveState.read_array. rewrite Hl, read_app.
  rewrite overwrite_all by lia. reflexivity.
Qed.

Lemma read_uint_app (w : nat) (old v : Z) (rest : list Z) :
  0 <= v < 256 ^ Z.of_nat w ->
  SaveState.read_uint w old
    (SaveState.mkStream (SaveState.le_bytes w v ++ rest) true)
  = (v, SaveState.mkStream rest true).
Proof.
  intros Hv. unfold SaveState.read_uint.
  rewrite <- (le_bytes_length w v) at 1. rewrite read_app.
  rewrite overwrite_all by (rewrite !le_bytes_length; reflexivity).
  rewrite le_value_bytes, Z.mod_small by exact Hv. reflexivity.
Qed.

Lemma read_byte_app (old v : Z) (rest : list Z) :
  is_byte v ->
  SaveState.read_uint 1 old
    (SaveState.mkStream (SaveState.le_bytes 1 v ++ rest) true)
  = (v, SaveState.mkStream rest true).
Proof. intros Hv. apply read_uint_app. exact Hv. Qed.

Lemma read_bool_app (old b : bool) (rest : list Z) :
  SaveState.read_bool old
    (SaveState.mkStream
       (SaveState.le_bytes 1 (if b then 1 else 0) ++ rest) true)
  = (b, SaveState.mkStream rest true).
Proof.
  unfold SaveState.read_bool. rewrite read_uint_app by (destruct b; simpl; lia).
  destruct b; reflexivity.
Qed.

Lemma read_int_app (old v : Z) (rest : list Z) :
  is_int v ->
  SaveState.read_int old
    (SaveState.mkStream (SaveState.le_bytes 4 (u32 v) ++ rest) true)
  = (v, SaveState.mkStream rest true).
Proof.
  unfold is_int. intros Hv. unfold SaveState.read_int.
  rewrite read_uint_app by apply u32_range.
  unfold u32. f_equal.
  destruct (v <? 0) eqn:E.
  - assert (Hm : v mod 4294967296 = v + 4294967296).
    { replace v with (v + 4294967296 + (-1) * 4294967296) at 1 by lia.
      rewrite Z.mod_add, Z.mod_small by lia. reflexivity. }
    rewrite Hm.
    destruct (v + 4294967296 <? 2147483648) eqn:E2; lia.
  - rewrite Z.mod_small by lia.
    destruct (v <? 2147483648) eqn:E2; lia.
Qed.

Lemma CPU_round_trip (c c' : CPU.t) (rest : list Z) :
  cpu_wf c ->
  SaveState.CPU_loadState c'
    (SaveState.mkStream (SaveState.CPU_saveState c [] ++ rest) true)
  = (c, SaveState.mkStream rest true).
Proof.
  intros (Hb & Hsp & Hpc & Hcy).
  unfold is_bytes in Hb. rewrite !Forall_cons in Hb.
  destruct Hb as (HA & HF & HB & HC & HD & HE & HH & HL & _).
  unfold SaveState.CPU_saveState, SaveState.write_uint, SaveState.write_bool,
    SaveState.write_uint. cbv zeta. cbn [app].
  rewrite <- !app_assoc.
  unfold SaveState.CPU_loadState.
  repeat (rewrite read_byte_app by assumption; cbv iota beta).
  repeat (rewrite read_uint_app by (simpl; lia); cbv iota beta).
  repeat (rewrite read_bool_app; cbv iota beta).
  rewrite read_uint_app by (simpl; lia).
  destruct c; reflexivity.
Qed.

Lemma Cartridge_round_trip (c c' : Cartridge.t) (rest : list Z) :
  cart_wf c ->
  Cartridge.rom c' = Cartridge.rom c ->
  Cartridge.mbc_type c' = Cartridge.mbc_type c ->
  length (Cartridge.ram c') = length (Cartridge.ram c) ->
  SaveState.Cartridge_loadState c'
    (SaveState.mkStream (SaveState.Cartridge_saveState c [] ++ rest) true)
  = (c, SaveState.mkStream rest true).
Proof.
  intros (Hsize & Hrb & Hsb & Hb) Hrom Hty Hlen.
  unfold is_bytes in Hb. rewrite !Forall_cons in Hb.
  destruct Hb as (H1 & H2 & H3 & H4 & H5 & H6 & _).
  unfold Cartridge.size in *.
  assert (Hu : u32 (Z.of_nat (length (Cartridge.ram c)))
               = Z.of_nat (length (Cartridge.ram c)))
    by (unfold u32; apply Z.mod_small; lia).
  unfold SaveState.Cartridge_saveState, SaveState.write_int,
    SaveState.write_bool, SaveState.write_uint, Cartridge.size.
  cbv zeta. rewrite Hu. cbn [app].
  unfold SaveState.Cartridge_loadState, Cartridge.size.
  assert (Hram :
    forall tail,
      (let (ram_size, f) :=
         SaveState.read_uint 4 0
           (SaveState.mkStream
              ((if 0 <? Z.of_nat (length (Cartridge.ram c))
                then SaveState.le_bytes 4 (Z.of_nat (length (Cartridge.ram c)))
                     ++ take (Z.to_nat (Z.of_nat (length (Cartridge.ram c))))
                             (Cartridge.ram c)
                else SaveState.le_bytes 4
                       (Z.of_nat (length (Cartridge.ram c)))) ++ tail) true) in
       if (0 <? ram_size)
          && (ram_size <=? Z.of_nat (length (Cartridge.ram c')))
       then let (bs, f0) := SaveState.read (Z.to_nat ram_size) f in
            (SaveState.overwrite (Cartridge.ram c') bs, f0)
       else (Cartridge.ram c', f))
      = (Cartridge.ram c, SaveState.mkStream tail true)).
  { intros tail. rewrite Nat2Z.id, firstn_all.
    destruct (0 <? Z.of_nat (length (Cartridge.ram c))) eqn:E.
    - rewrite <- app_assoc, read_uint_app by (simpl; lia).
      rewrite E, Hlen, Z.leb_refl. cbn [andb].
      rewrite Nat2Z.id, read_app, overwrite_all by lia. reflexivity.
    - rewrite read_uint_app by (simpl; lia). rewrite E. cbn [andb].
      apply Z.ltb_ge in E.
      f_equal. destruct (Cartridge.ram c), (Cartridge.ram c');
        simpl in *; try lia; reflexivity. }
  match goal with
  | |- context [SaveState.mkStream (?l ++ rest) true] =>
      replace (l ++ rest)
        with ((if 0 <? Z.of_nat (length (Cartridge.ram c))
               then SaveState.le_bytes 4 (Z.of_nat (length (Cartridge.ram c)))
                    ++ take (Z.to_nat (Z.of_nat (length (Cartridge.ram c))))
                            (Cartridge.ram c)
               else SaveState.le_bytes 4
                      (Z.of_nat (length (Cartridge.ram c))))
              ++ (SaveState.le_bytes 4 (u32 (Cartridge.rom_bank c))
                  ++ SaveState.le_bytes 4 (u32 (Cartridge.ram_bank c))
                  ++ SaveState.le_bytes 1
                       (if Cartridge.ram_enabled c then 1 else 0)
                  ++ SaveState.le_bytes 1
                       (if Cartridge.rom_banking c then 1 else 0)
                  ++ SaveState.le_bytes 1 (Cartridge.rtc_seconds c)
                  ++ SaveState.le_bytes 1 (Cartridge.rtc_minutes c)
                  ++ SaveState.le_bytes 1 (Cartridge.rtc_hours c)
                  ++ SaveState.le_bytes 1 (Cartridge.rtc_days_low c)
                  ++ SaveState.le_bytes 1 (Cartridge.rtc_days_high c)
                  ++ SaveState.le_bytes 1
                       (if Cartridge.rtc_latched c then 1 else 0)
                  ++ SaveState.le_bytes 1 (Cartridge.rtc_latch_state c)
                  ++ rest))
  end.
  2:{ destruct (0 <? Z.of_nat (length (Cartridge.ram c)));
        rewrite <- ?app_assoc; reflexivity. }
  match goal with
  | |- context [SaveState.mkStream (_ ++ ?tail) true] =>
      specialize (Hram tail)
  end.
  destruct (SaveState.read_uint 4 0 _) as [ram_size f] eqn:Hread.
  rewrite Hram. cbv iota beta.
  repeat (rewrite read_int_app by assumption; cbv iota beta).
  repeat (first [rewrite read_bool_app
                | rewrite read_byte_app by assumption]; cbv iota beta).
  rewrite Hrom, Hty. destruct c; reflexivity.
Qed.

Lemma CPU_saveState_app (c : CPU.t) (out : list Z) :
  SaveState.CPU_saveState c out = out ++ SaveState.CPU_saveState c [].
Proof.
  unfold SaveState.CPU_saveState, SaveState.write_bool, SaveState.write_uint.
  cbv zeta. cbn [app]. rewrite <- !app_assoc. reflexivity.
Qed.

Lemma Cartridge_saveState_app (c : Cartridge.t) (out : list Z) :
  SaveState.Cartridge_saveState c out
  = out ++ SaveState.Cartridge_saveState c [].
Proof.
  unfold SaveState.Cartridge_saveState, SaveState.write_int,
    SaveState.write_bool, SaveState.write_uint.
  cbv zeta. cbn [app].
  destruct (0 <? u32 (Cartridge.size (Cartridge.ram c)));
    rewrite <- !app_assoc; reflexivity.
Qed.

Lemma MMU_round_trip (m m' : MMU.t) (rest : list Z) :
  mmu_wf m -> same_machine m m' ->
  SaveState.MMU_loadState m'
    (SaveState.mkStream (SaveState.MMU_saveState m [] ++ rest) true)
  = (MMU.mk (MMU.cartridge m) (MMU.wram m) (MMU.vram m) (MMU.hram m)
            (MMU.oam m) (MMU.io m) (MMU.joypad m') (MMU.timer m')
            (MMU.apu m') (MMU.ie_register m),
     SaveState.mkStream rest true).
Proof.
  intros [Hie Hcart] (Hw & Hv & Hh & Ho & Hi & Hc).
  unfold SaveState.MMU_saveState, SaveState.write_array,
    SaveState.write_uint. cbv zeta. cbn [app].
  unfold SaveState.MMU_loadState.
  destruct (MMU.cartridge m) as [c |] eqn:Ec,
           (MMU.cartridge m') as [c' |] eqn:Ec'; try contradiction.
  - rewrite Cartridge_saveState_app, <- !app_assoc.
    repeat (rewrite read_array_app by assumption; cbv iota beta).
    rewrite read_byte_app by assumption. cbv iota beta.
    destruct Hc as (Hrom & Hty & Hlen).
    rewrite Cartridge_round_trip by assumption. reflexivity.
  - rewrite <- !app_assoc.
    repeat (rewrite read_array_app by assumption; cbv iota beta).
    rewrite <- (app_nil_r (SaveState.le_bytes 1 (MMU.ie_register m))).
    rewrite <- app_assoc. rewrite read_byte_app by assumption.
    cbn [app]. reflexivity.
Qed.

Lemma MMU_saveState_app (m : MMU.t) (out : list Z) :
  SaveState.MMU_saveState m out = out ++ SaveState.MMU_saveState m [].
Proof.
  unfold SaveState.MMU_saveState, SaveState.write_array,
    SaveState.write_uint. cbv zeta. cbn [app].
  destruct (MMU.cartridge m) as [c |].
  - rewrite Cartridge_saveState_app,
      (Cartridge_saveState_app c (_ ++ _)), <- !app_assoc. reflexivity.
  - rewrite <- !app_assoc. reflexivity.
Qed.

(** X29.  A save state loads back: the file that [SaveState::save] writes
    is accepted by [SaveState::load], which restores the CPU (all
    registers, the halt, stop and interrupt flags, the cycle counter), the
    five memories of the bus, IE and the cartridge's RAM, bank registers
    and clock, on any machine running the same ROM, whatever its state was;
    the PPU, the sound unit, the timer counters and the joypad are not part
    of the file and stay as they are in the machine loaded into. *)
Theorem save_load_round_trip (cpu cpu' : CPU.t) (mmu mmu' : MMU.t)
        (ppu ppu' : PPU.t) :
  cpu_wf cpu -> mmu_wf mmu -> same_machine mmu mmu' ->
  fst (SaveState.save true cpu mmu ppu) = true
  /\ SaveState.load (Some (snd (SaveState.save true cpu mmu ppu)))
       cpu' mmu' ppu'
     = (true,
        (cpu,
         MMU.mk (MMU.cartridge mmu) (MMU.wram mmu) (MMU.vram mmu)
                (MMU.hram mmu) (MMU.oam mmu) (MMU.io mmu)
                (MMU.joypad mmu') (MMU.timer mmu') (MMU.apu mmu')
                (MMU.ie_register mmu),
         ppu')).
Proof.
  intros Hcpu Hmmu Hsame. split; [reflexivity |].
  unfold SaveState.save. cbn [negb snd].
  unfold SaveState.PPU_saveState, SaveState.APU_saveState,
    SaveState.Timer_saveState, SaveState.write_array, SaveState.write_uint.
  cbv zeta.
  rewrite MMU_saveState_app, CPU_saveState_app. cbn [app].
  rewrite <- !app_assoc.
  unfold SaveState.load. cbv zeta.
  change 7%nat with (length SaveState.MAGIC).
  rewrite read_app. cbv iota beta.
  rewrite read_uint_app by (unfold SaveState.VERSION; simpl; lia).
  cbv iota beta.
  change (SaveState.strcmp_eq
            (SaveState.overwrite (replicate 8 0) SaveState.MAGIC)
            SaveState.MAGIC_cstr) with true.
  change (SaveState.VERSION =? SaveState.VERSION) with true.
  cbn [negb].
  rewrite CPU_round_trip by assumption. cbv iota beta.
  rewrite <- (app_nil_r (SaveState.MMU_saveState mmu [])).
  rewrite MMU_round_trip by assumption. cbv iota beta.
  unfold SaveState.PPU_loadState, SaveState.APU_loadState,
    SaveState.Timer_loadState. cbv iota beta.
  reflexivity.
Qed.

Lemma save_load_round_trip_witness :
  fst (SaveState.save true irq_cpu irq_mmu PPU.new) = true
  /\ SaveState.load
       (Some (snd (SaveState.save true irq_cpu irq_mmu PPU.new)))
       ei_cpu MMU.new PPU.new
     = (true,
        (irq_cpu,
         MMU.mk (MMU.cartridge irq_mmu) (MMU.wram irq_mmu)
                (MMU.vram irq_mmu) (MMU.hram irq_mmu) (MMU.oam irq_mmu)
                (MMU.io irq_mmu) (MMU.joypad MMU.new) (MMU.timer MMU.new)
                (MMU.apu MMU.new) (MMU.ie_register irq_mmu),
         PPU.new)).
Proof.
  apply (save_load_round_trip irq_cpu ei_cpu irq_mmu MMU.new PPU.new
           PPU.new).
  - split; [apply is_bytes_check; reflexivity | simpl; lia].
  - split; [| exact I].
    replace (MMU.ie_register irq_mmu) with 1 by (vm_compute; reflexivity).
    unfold is_byte. lia.
  - unfold same_machine. vm_compute. repeat split.
Defined.

(** Reads from a stream that has run dry: nothing is extracted and every
    field keeps its value. *)
Lemma read_dry (n : nat) (g : bool) :
  (0 < n)%nat \/ g = false ->
  SaveState.read n (SaveState.mkStream [] g)
  = ([], SaveState.mkStream [] false).
Proof.
  intros H. unfold SaveState.read. cbn [SaveState.good SaveState.rest].
  destruct g; cbn [negb]; [| reflexivity].
  destruct H as [H | H]; [| discriminate].
  destruct n; [lia | reflexivity].
Qed.

Lemma read_uint_dry (w : nat) (old : Z) (g : bool) :
  (0 < w)%nat -> 0 <= old < 256 ^ Z.of_nat w ->
  SaveState.read_uint w old (SaveState.mkStream [] g)
  = (old, SaveState.mkStream [] false).
Proof.
  intros Hw Hold. unfold SaveState.read_uint.
  rewrite read_dry by (left; exact Hw).
  unfold SaveState.overwrite. cbn [app length]. rewrite drop_0.
  rewrite le_value_bytes, Z.mod_small by exact Hold. reflexivity.
Qed.

Lemma read_bool_dry (old g : bool) :
  SaveState.read_bool old (SaveState.mkStream [] g)
  = (old, SaveState.mkStream [] false).
Proof.
  unfold SaveState.read_bool.
  rewrite read_uint_dry by (destruct old; simpl; lia).
  destruct old; reflexivity.
Qed.

Lemma read_int_dry (old : Z) (g : bool) :
  is_int old ->
  SaveState.read_int old (SaveState.mkStream [] g)
  = (old, SaveState.mkStream [] false).
Proof.
  unfold is_int. intros Hold. unfold SaveState.read_int.
  rewrite read_uint_dry by (try lia; apply u32_range).
  unfold u32. f_equal.
  destruct (old <? 0) eqn:E.
  - assert (Hm : old mod 4294967296 = old + 4294967296).
    { replace old with (old + 4294967296 + (-1) * 4294967296) at 1 by lia.
      rewrite Z.mod_add, Z.mod_small by lia. reflexivity. }
    rewrite Hm. destruct (old + 4294967296 <? 2147483648) eqn:E2; lia.
  - rewrite Z.mod_small by lia.
    destruct (old <? 2147483648) eqn:E2; lia.
Qed.

Lemma read_array_dry (dst : list Z) :
  SaveState.read_array dst (SaveState.mkStream [] false)
  = (dst, SaveState.mkStream [] false).
Proof.
  unfold SaveState.read_array. rewrite read_dry by (right; reflexivity).
  reflexivity.
Qed.

Lemma CPU_loadState_dry (c : CPU.t) (g : bool) :
  cpu_wf c ->
  SaveState.CPU_loadState c (SaveState.mkStream [] g)
  = (c, SaveState.mkStream [] false).
Proof.
  intros (Hb & Hsp & Hpc & Hcy).
  unfold is_bytes in Hb. rewrite !Forall_cons in Hb.
  destruct Hb as (HA & HF & HB & HC & HD & HE & HH & HL & _).
  unfold is_byte in *. unfold SaveState.CPU_loadState.
  repeat (rewrite read_uint_dry by (simpl; lia); cbv iota beta).
  repeat (rewrite read_bool_dry; cbv iota beta).
  rewrite read_uint_dry by (simpl; lia).
  destruct c; reflexivity.
Qed.

Lemma MMU_loadState_dry (m : MMU.t) :
  mmu_wf m ->
  SaveState.MMU_loadState m (SaveState.mkStream [] false)
  = (m, SaveState.mkStream [] false).
Proof.
  intros [Hie Hcart]. unfold is_byte in Hie.
  unfold SaveState.MMU_loadState.
  repeat (rewrite read_array_dry; cbv iota beta).
  rewrite read_uint_dry by (simpl; lia). cbv iota beta.
  destruct (MMU.cartridge m) as [c |] eqn:Ec; [| destruct m; simpl in *;
    subst; reflexivity].
  destruct Hcart as (Hsize & Hrb & Hsb & Hb).
  unfold is_bytes in Hb. rewrite !Forall_cons in Hb.
  destruct Hb as (H1 & H2 & H3 & H4 & H5 & H6 & _).
  unfold is_byte in *. unfold SaveState.Cartridge_loadState.
  rewrite read_uint_dry by (simpl; lia).
  change ((0 <? 0) && _) with false. cbv iota beta.
  repeat (rewrite read_int_dry by assumption; cbv iota beta).
  repeat (first [rewrite read_bool_dry
                | rewrite read_uint_dry by (simpl; lia)]; cbv iota beta).
  destruct m, c; simpl in *; subst; reflexivity.
Qed.

Lemma header_accepted (rest : list Z) (cpu : CPU.t) (mmu : MMU.t)
      (ppu : PPU.t) :
  SaveState.load (Some (SaveState.MAGIC ++ [SaveState.VERSION] ++ rest))
    cpu mmu ppu
  = let f := SaveState.mkStream rest true in
    let (cpu, f) := SaveState.CPU_loadState cpu f in
    let (mmu, f) := SaveState.MMU_loadState mmu f in
    (true,
     (cpu, MMU.set_timer (MMU.timer mmu) (MMU.set_apu (MMU.apu mmu) mmu),
      ppu)).
Proof.
  unfold SaveState.load. cbv zeta.
  change 7%nat with (length SaveState.MAGIC).
  rewrite read_app. cbv iota beta.
  change ([SaveState.VERSION] ++ rest)
    with (SaveState.le_bytes 1 SaveState.VERSION ++ rest).
  rewrite read_uint_app by (unfold SaveState.VERSION; simpl; lia).
  cbv iota beta.
  change (SaveState.strcmp_eq
            (SaveState.overwrite (replicate 8 0) SaveState.MAGIC)
            SaveState.MAGIC_cstr) with true.
  change (SaveState.VERSION =? SaveState.VERSION) with true.
  cbn [negb].
  destruct (SaveState.CPU_loadState cpu _) as [cpu1 f1].
  destruct (SaveState.MMU_loadState mmu f1) as [mmu1 f2].
  reflexivity.
Qed.

(** X30.  [SaveState::load] never looks at the stream state: every file
    that begins with "GBSTATE" and version 1 is reported as loaded,
    however short it is (the reads past its end extract nothing), and a
    file that ends right after the header leaves the CPU, the bus and the
    PPU exactly as they were. *)
Theorem load_ignores_truncation (rest : list Z) (cpu : CPU.t) (mmu : MMU.t)
        (ppu : PPU.t) :
  fst (SaveState.load
         (Some (SaveState.MAGIC ++ [SaveState.VERSION] ++ rest))
         cpu mmu ppu) = true
  /\ (cpu_wf cpu -> mmu_wf mmu ->
      SaveState.load (Some (SaveState.MAGIC ++ [SaveState.VERSION]))
        cpu mmu ppu
      = (true, (cpu, mmu, ppu))).
Proof.
  split.
  - rewrite header_accepted. cbv zeta.
    destruct (SaveState.CPU_loadState cpu _) as [cpu1 f1].
    destruct (SaveState.MMU_loadState mmu f1) as [mmu1 f2].
    reflexivity.
  - intros Hcpu Hmmu.
    change (SaveState.MAGIC ++ [SaveState.VERSION])
      with (SaveState.MAGIC ++ [SaveState.VERSION] ++ []).
    rewrite header_accepted. cbv zeta.
    rewrite CPU_loadState_dry by exact Hcpu.
    rewrite MMU_loadState_dry by exact Hmmu.
    destruct mmu; reflexivity.
Qed.


Lemma load_ignores_truncation_witness :
  fst (SaveState.load
         (Some (SaveState.MAGIC ++ [SaveState.VERSION] ++ [1; 2; 3]))
         ei_cpu MMU.new PPU.new) = true
  /\ SaveState.load (Some (SaveState.MAGIC ++ [SaveState.VERSION]))
       ei_cpu MMU.new PPU.new
     = (true, (ei_cpu, MMU.new, PPU.new)).
Proof.
  destruct (load_ignores_truncation [1; 2; 3] ei_cpu MMU.new PPU.new)
    as [Hacc Hkeep].
  split; [exact Hacc | apply Hkeep].
  - split; [apply is_bytes_check; reflexivity | simpl; lia].
  - split; [unfold is_byte; simpl; lia | exact I].
Defined.

(** The first 20 bytes of a save state hold the header, the registers,
    SP and PC.  Loaded as a file of their own they are accepted: the
    registers come from the file, the interrupt master enable (set in the
    saved CPU) stays that of the CPU loaded into. *)
Example load_of_a_truncated_file :
  let file := take 20 (snd (SaveState.save true irq_cpu irq_mmu PPU.new)) in
  let r := SaveState.load (Some file) ei_cpu MMU.new PPU.new in
  fst r = true /\ fst (fst (snd r)) = CPU.set_PC (CPU.PC irq_cpu) ei_cpu.
Proof. vm_compute. split; reflexivity. Qed.
